(** * The violation-certificate protocol over R1CS

    A shallow embedding of the protocol core of the repository:
    [r1cs_utils.py] (evaluator), [commitment.py] (hash commitments),
    [fingerprint.py] and [slicer.py] (triage), [violation_iop.py]
    (transcripts), [prover.py] and [verifier.py].

    Python [float] is IEEE 754 binary64; it is modelled by the Standard
    Library's executable specification [spec_float] at precision 53 and
    exponent bound 1024, so every arithmetic step rounds as CPython does.
    A [dict] is an association list in insertion order with unique keys. *)

From Stdlib Require Import ZArith NArith List String Ascii Bool Lia.
From Stdlib Require Import Permutation Sorted OrdersEx RelationClasses.
From Stdlib Require Import Floats.SpecFloat.
Import ListNotations.
Local Open Scope string_scope.
Local Open Scope list_scope.
Set Warnings "-register-all".

(* ================================================================== *)
(** ** Python runtime: floats *)

Module PyFloat.

Definition prec : Z := 53.
Definition emax : Z := 1024.

Definition float : Type := spec_float.

(** [float(n)] for an integer [n] (round to nearest, ties to even). *)
Definition of_Z (z : Z) : float := binary_normalize prec emax z 0 false.

Definition add : float -> float -> float := SFadd prec emax.
Definition sub : float -> float -> float := SFsub prec emax.
Definition mul : float -> float -> float := SFmul prec emax.
Definition div : float -> float -> float := SFdiv prec emax.
Definition abs : float -> float := SFabs.
Definition eqb : float -> float -> bool := SFeqb.
Definition leb : float -> float -> bool := SFleb.
Definition ltb : float -> float -> bool := SFltb.

Definition is_inf (x : float) : bool :=
  match x with S754_infinity _ => true | _ => false end.


(** The literal [0.0]. *)
Definition zero : float := S754_zero false.
(** The literal [1.0]. *)
Definition one : float := of_Z 1.

(** The literals [1e-9] and [1e-12]: the doubles nearest to the decimal
    values, obtained by one correctly rounded division of exact integers. *)
Definition lit_1e_9 : float := div (of_Z 1) (of_Z (10 ^ 9)).
Definition lit_1e_12 : float := div (of_Z 1) (of_Z (10 ^ 12)).

(** [math.isclose(a, b, rel_tol=..., abs_tol=...)] as CPython computes it
    (the tolerances here are non-negative, so no [ValueError]). *)
Definition isclose (a b rel_tol abs_tol : float) : bool :=
  if eqb a b then true
  else if is_inf a || is_inf b then false
  else
    let diff := abs (sub b a) in
    (leb diff (abs (mul rel_tol b)) || leb diff (abs (mul rel_tol a)))
    || leb diff abs_tol.

(** [math.isclose(x, y, rel_tol=1e-9, abs_tol=1e-12)], the one call shape
    of the prover and the verifier. *)
Definition isclose_tol (x y : float) : bool :=
  isclose x y lit_1e_9 lit_1e_12.

End PyFloat.

(** Library routines whose results the protocol only passes around: they
    are taken as an interface, and every general statement below holds for
    whatever functions implement it. *)
Class Platform : Type := {
  (** [float.__repr__] on a finite float (the shortest decimal that reads
      back as the same double). *)
  float_repr : PyFloat.float -> string;
  (** [format(x, ".12g")] *)
  format_12g : PyFloat.float -> string;
  (** [math.log1p] *)
  log1p : PyFloat.float -> PyFloat.float
}.

(* ================================================================== *)
(** ** Python runtime: dicts, sets, slices, sorting *)

Module Py.

(** A [dict] with string keys, in insertion order. *)
Definition dict (V : Type) : Type := list (string * V).

Fixpoint get {V : Type} (d : dict V) (k : string) : option V :=
  match d with
  | [] => None
  | (k', v) :: rest => if String.eqb k' k then Some v else get rest k
  end.

(** [d.get(k, default)] *)
Definition get_default {V : Type} (d : dict V) (k : string) (default : V) : V :=
  match get d k with Some v => v | None => default end.

(** [k in d] *)
Definition contains {V : Type} (d : dict V) (k : string) : bool :=
  match get d k with Some _ => true | None => false end.

Definition keys {V : Type} (d : dict V) : list string := map fst d.
Definition values {V : Type} (d : dict V) : list V := map snd d.

(** [d[k] = v]: an existing key keeps its position, a new key goes last. *)
Fixpoint set {V : Type} (d : dict V) (k : string) (v : V) : dict V :=
  match d with
  | [] => [(k, v)]
  | (k', v') :: rest =>
      if String.eqb k' k then (k, v) :: rest else (k', v') :: set rest k v
  end.

(** [d.update(e)] / [{**d, **e}] *)
Definition update {V : Type} (d e : dict V) : dict V :=
  fold_left (fun acc kv => set acc (fst kv) (snd kv)) e d.

(** A [set] of strings: a duplicate-free list.  CPython iterates a set in
    hash order; the model fixes first-insertion order, and no statement
    below depends on that choice. *)
Definition mem (x : string) (s : list string) : bool :=
  existsb (String.eqb x) s.

Definition set_add (s : list string) (x : string) : list string :=
  if mem x s then s else s ++ [x].

(** [s.update(xs)] *)
Definition set_update (s xs : list string) : list string :=
  fold_left set_add xs s.

(** [l[:k]] for an integer [k] (a negative [k] counts from the end). *)
Definition slice_to {T : Type} (l : list T) (k : Z) : list T :=
  if (k <? 0)%Z
  then firstn (Z.to_nat (Z.of_nat (List.length l) + k)) l
  else firstn (Z.to_nat k) l.

(** [s[:k]] on a string. *)
Definition str_slice_to (s : string) (k : Z) : string :=
  string_of_list_ascii (slice_to (list_ascii_of_string s) k).

(** [sorted(items, key=lambda kv: kv[0])]: a stable sort on the key with
    Python's [<] on [str] (code-point order; on UTF-8 bytes the same as
    byte order). *)
Fixpoint insert_by_key {V : Type} (x : string * V) (l : list (string * V))
  : list (string * V) :=
  match l with
  | [] => [x]
  | y :: rest =>
      if String.ltb (fst y) (fst x) then y :: insert_by_key x rest
      else x :: y :: rest
  end.

Definition sorted_by_key {V : Type} (l : list (string * V)) : list (string * V) :=
  fold_right insert_by_key [] l.

(** [sorted(xs)] on strings. *)
Definition sorted_strings (l : list string) : list string :=
  map fst (sorted_by_key (map (fun s => (s, tt)) l)).

(** [sep.join(parts)] *)
Definition join (sep : string) (parts : list string) : string :=
  String.concat sep parts.

(** The outcome of a call that may raise. *)
Inductive exn : Type :=
| NameError (name : string).

Inductive result (T : Type) : Type :=
| Ok (v : T)
| Raise (e : exn).
Arguments Ok {T} v.
Arguments Raise {T} e.

(** Reading the variable [name] where [scope] lists the names that are
    bound (the function's locals, then the module's globals). *)
Definition lookup_name {V : Type} (scope : dict V) (name : string) : result V :=
  match get scope name with
  | Some v => Ok v
  | None => Raise (NameError name)
  end.

End Py.

(* ================================================================== *)
(** ** r1cs_utils.py *)

Module r1cs_utils.
Import PyFloat.

(** A linear form: variable name -> coefficient. *)
Definition linear_form : Type := Py.dict float.

(** A constraint [{"A": .., "B": .., "C": .., "source": ..}].  Every
    reader takes a missing part as the empty form ([c.get(part, {})]), so
    the parts are total; [source] may be absent. *)
Record constraint : Type := {
  A : linear_form;
  B : linear_form;
  C : linear_form;
  source : option string
}.

Record R1CS : Type := {
  variables : Py.dict Z;
  constraints : list constraint
}.

(** [c.get("source", "")] *)
Definition source_or_empty (c : constraint) : string :=
  match source c with Some s => s | None => "" end.

Definition eval_linear_form (linear : linear_form) (assignment : Py.dict float) : float :=
  fold_left
    (fun s kv => add s (mul (snd kv) (Py.get_default assignment (fst kv) zero)))
    linear zero.

Definition eval_constraint (c : constraint) (assignment : Py.dict float) : float :=
  let a_val := eval_linear_form (A c) assignment in
  let b_val := eval_linear_form (B c) assignment in
  let c_val := eval_linear_form (C c) assignment in
  sub (mul a_val b_val) c_val.

Definition constraint_support (c : constraint) : list string :=
  fold_left (fun s part => Py.set_update s (Py.keys part)) [A c; B c; C c] [].

Definition constraint_nz_count (c : constraint) : nat :=
  fold_left
    (fun cnt part =>
       cnt + List.length (filter (fun v => negb (eqb v zero)) (Py.values part)))%nat
    [A c; B c; C c] 0%nat.

Record summary : Type := {
  support_size : nat;
  nz_count : nat;
  support : list string;
  summary_source : string
}.

Definition constraint_summary (c : constraint) : summary :=
  let supp := constraint_support c in
  {| support_size := List.length supp;
     nz_count := constraint_nz_count c;
     support := Py.sorted_strings supp;
     summary_source := source_or_empty c |}.

End r1cs_utils.

(* ================================================================== *)
(** ** hashlib: SHA-256 (FIPS 180-4) on byte strings, hex output *)

Module hashlib.
Local Open Scope Z_scope.

Definition mask32 : Z := 0xffffffff.
Definition add32 (x y : Z) : Z := Z.land (x + y) mask32.
Definition not32 (x : Z) : Z := Z.lxor x mask32.
Definition rotr (n x : Z) : Z :=
  Z.lor (Z.shiftr x n) (Z.land (Z.shiftl x (32 - n)) mask32).

Definition Ch (x y z : Z) : Z := Z.lxor (Z.land x y) (Z.land (not32 x) z).
Definition Maj (x y z : Z) : Z :=
  Z.lxor (Z.lxor (Z.land x y) (Z.land x z)) (Z.land y z).
Definition Sigma0 (x : Z) : Z := Z.lxor (Z.lxor (rotr 2 x) (rotr 13 x)) (rotr 22 x).
Definition Sigma1 (x : Z) : Z := Z.lxor (Z.lxor (rotr 6 x) (rotr 11 x)) (rotr 25 x).
Definition sigma0 (x : Z) : Z := Z.lxor (Z.lxor (rotr 7 x) (rotr 18 x)) (Z.shiftr x 3).
Definition sigma1 (x : Z) : Z := Z.lxor (Z.lxor (rotr 17 x) (rotr 19 x)) (Z.shiftr x 10).

(** The constants of the standard are fractional parts of roots of the
    first primes, 32 bits each; they are computed here rather than listed. *)
Definition is_prime (p : Z) : bool :=
  (1 <? p) && forallb (fun d => negb (p mod d =? 0)) (map Z.of_nat (seq 2 (Z.to_nat p - 2))).

Definition primes (n : nat) : list Z :=
  firstn n (filter is_prime (map Z.of_nat (seq 2 400))).

(** The largest [r] below [2 ^ bits] with [r ^ k <= n], bit by bit. *)
Fixpoint root_bits (k : Z) (bits : nat) (n r : Z) : Z :=
  match bits with
  | O => r
  | S b =>
      let r' := r + 2 ^ Z.of_nat b in
      if r' ^ k <=? n then root_bits k b n r' else root_bits k b n r
  end.

(** The first 32 bits of the fractional part of the [k]-th root of [p]. *)
Definition frac_root32 (k p : Z) : Z :=
  Z.land (root_bits k 40 (p * 2 ^ (32 * k)) 0) mask32.

(** Round constants: cube roots of the first 64 primes. *)
Definition K256 : list Z := Eval vm_compute in map (frac_root32 3) (primes 64).

Definition bytes_of_string (s : string) : list Z :=
  map (fun c => Z.of_N (N_of_ascii c)) (list_ascii_of_string s).

(** Big-endian bytes of [x], [n] of them. *)
Fixpoint be_bytes (n : nat) (x : Z) : list Z :=
  match n with
  | O => []
  | S n' => be_bytes n' (Z.shiftr x 8) ++ [Z.land x 0xff]
  end.

(** Message padding: a 1 bit, zeros up to 56 mod 64, the bit length. *)
Definition pad (msg : list Z) : list Z :=
  let len := Z.of_nat (List.length msg) in
  let zeros := Z.to_nat ((55 - len) mod 64) in
  msg ++ [0x80] ++ repeat 0 zeros ++ be_bytes 8 (8 * len).

Fixpoint be_words (n : nat) (bs : list Z) : list Z :=
  match n, bs with
  | S n', b0 :: b1 :: b2 :: b3 :: rest =>
      (Z.shiftl b0 24 + Z.shiftl b1 16 + Z.shiftl b2 8 + b3) :: be_words n' rest
  | _, _ => []
  end.

(** The message schedule, most recent word first. *)
Fixpoint extend (n : nat) (w_rev : list Z) : list Z :=
  match n with
  | O => w_rev
  | S n' =>
      let w :=
        add32 (add32 (sigma1 (nth 1 w_rev 0)) (nth 6 w_rev 0))
              (add32 (sigma0 (nth 14 w_rev 0)) (nth 15 w_rev 0)) in
      extend n' (w :: w_rev)
  end.

Definition schedule (block : list Z) : list Z :=
  rev (extend 48 (rev (be_words 16 block))).

Definition state : Type := (Z * Z * Z * Z * Z * Z * Z * Z)%type.

Definition round (st : state) (kw : Z * Z) : state :=
  let '(a, b, c, d, e, f, g, h) := st in
  let t1 := add32 (add32 (add32 h (Sigma1 e)) (add32 (Ch e f g) (fst kw))) (snd kw) in
  let t2 := add32 (Sigma0 a) (Maj a b c) in
  (add32 t1 t2, a, b, c, add32 d t1, e, f, g).

Definition compress (st : state) (block : list Z) : state :=
  let '(a, b, c, d, e, f, g, h) := fold_left round (combine K256 (schedule block)) st in
  let '(a0, b0, c0, d0, e0, f0, g0, h0) := st in
  (add32 a0 a, add32 b0 b, add32 c0 c, add32 d0 d,
   add32 e0 e, add32 f0 f, add32 g0 g, add32 h0 h).

(** Consume the padded message 64 bytes at a time. *)
Fixpoint process (nblocks : nat) (bs : list Z) (st : state) : state :=
  match nblocks with
  | O => st
  | S n' => process n' (skipn 64 bs) (compress st (firstn 64 bs))
  end.

(** Initial hash value: square roots of the first 8 primes. *)
Definition initial : state :=
  Eval vm_compute in
    match map (frac_root32 2) (primes 8) with
    | [a; b; c; d; e; f; g; h] => (a, b, c, d, e, f, g, h)
    | _ => (0, 0, 0, 0, 0, 0, 0, 0)
    end.

Definition hex_digit (d : Z) : ascii :=
  if d <? 10 then ascii_of_N (Z.to_N (48 + d)) else ascii_of_N (Z.to_N (87 + d)).

(** [n] lowercase hex digits of [x], most significant first. *)
Fixpoint hex (n : nat) (x : Z) : string :=
  match n with
  | O => EmptyString
  | S n' => (hex n' (Z.shiftr x 4) ++ String (hex_digit (Z.land x 0xf)) EmptyString)%string
  end.

(** [hashlib.sha256(s.encode("utf-8")).hexdigest()] *)
Definition sha256_hexdigest (s : string) : string :=
  let bs := pad (bytes_of_string s) in
  let '(a, b, c, d, e, f, g, h) := process (List.length bs / 64) bs initial in
  String.concat "" (map (hex 8) [a; b; c; d; e; f; g; h]).

End hashlib.

(* ================================================================== *)
(** ** json: [json.dumps(obj, sort_keys=True, separators=(",", ":"),
       ensure_ascii=False)] *)

Module json.
Import PyFloat.
Local Open Scope string_scope.

(** The Python values that reach the serializer. *)
Inductive pyobj : Type :=
| ONone
| OBool (b : bool)
| OInt (z : Z)
| OFloat (x : float)
| OStr (s : string)
| OList (items : list pyobj)
| OTuple (items : list pyobj)
| ODict (d : list (string * pyobj)).

Definition quote_char : ascii := ascii_of_nat 34.
Definition backslash : ascii := ascii_of_nat 92.
Definition quote : string := String quote_char EmptyString.

(** One character of a JSON string; with [ensure_ascii=False] only the
    quote, the backslash and the control characters are escaped. *)
Definition escape_char (c : ascii) : string :=
  let n := nat_of_ascii c in
  if Nat.eqb n 34 then String backslash (String quote_char EmptyString)
  else if Nat.eqb n 92 then String backslash (String backslash EmptyString)
  else if Nat.eqb n 10 then String backslash "n"
  else if Nat.eqb n 13 then String backslash "r"
  else if Nat.eqb n 9 then String backslash "t"
  else if Nat.eqb n 8 then String backslash "b"
  else if Nat.eqb n 12 then String backslash "f"
  else if Nat.ltb n 32 then String backslash ("u" ++ hashlib.hex 4 (Z.of_nat n))
  else String c EmptyString.

Fixpoint escape (s : string) : string :=
  match s with
  | EmptyString => EmptyString
  | String c rest => escape_char c ++ escape rest
  end.

Definition dumps_str (s : string) : string := quote ++ escape s ++ quote.

(** Decimal digits of a positive number, most significant first; [fuel]
    bounds the number of digits. *)
Fixpoint digits (fuel : nat) (n : N) (acc : string) : string :=
  match fuel with
  | O => acc
  | S fuel' =>
      let acc' := String (ascii_of_N (48 + N.modulo n 10)) acc in
      if N.ltb n 10 then acc' else digits fuel' (N.div n 10) acc'
  end.

(** [str(n)] for an [int]. *)
Definition dumps_int (z : Z) : string :=
  match z with
  | Z0 => "0"
  | Zpos p => digits (Pos.to_nat (Pos.size p)) (Npos p) EmptyString
  | Zneg p => "-" ++ digits (Pos.to_nat (Pos.size p)) (Npos p) EmptyString
  end.

Definition dumps_float `{Platform} (x : float) : string :=
  match x with
  | S754_nan => "NaN"
  | S754_infinity false => "Infinity"
  | S754_infinity true => "-Infinity"
  | _ => float_repr x
  end.

Fixpoint dumps `{Platform} (o : pyobj) : string :=
  match o with
  | ONone => "null"
  | OBool true => "true"
  | OBool false => "false"
  | OInt z => dumps_int z
  | OFloat x => dumps_float x
  | OStr s => dumps_str s
  | OList items => "[" ++ Py.join "," (map dumps items) ++ "]"
  | OTuple items => "[" ++ Py.join "," (map dumps items) ++ "]"
  | ODict d =>
      "{" ++ Py.join ","
               (map (fun kv : string * string => dumps_str (fst kv) ++ ":" ++ snd kv)
                    (Py.sorted_by_key
                       (map (fun kv : string * pyobj => (fst kv, dumps (snd kv))) d)))
          ++ "}"
  end.

End json.

(* ================================================================== *)
(** ** The JSON value a canonical text denotes *)

Module canon.
Local Open Scope string_scope.

(** A JSON value as [json.dumps] shows it: numbers, [null] and the
    booleans by their text, strings, arrays, and objects with their keys
    in sorted order.  A list and a tuple, two insertion orders of a dict,
    and two numbers printed alike have the same value. *)
Inductive jvalue : Type :=
| JAtom (text : string)
| JStr (s : string)
| JList (items : list jvalue)
| JDict (items : list (string * jvalue)).

Fixpoint shape `{Platform} (o : json.pyobj) : jvalue :=
  match o with
  | json.ONone => JAtom "null"
  | json.OBool true => JAtom "true"
  | json.OBool false => JAtom "false"
  | json.OInt z => JAtom (json.dumps_int z)
  | json.OFloat x => JAtom (json.dumps_float x)
  | json.OStr s => JStr s
  | json.OList items => JList (map shape items)
  | json.OTuple items => JList (map shape items)
  | json.ODict d =>
      JDict (Py.sorted_by_key (map (fun kv : string * json.pyobj => (fst kv, shape (snd kv))) d))
  end.

(** The text of a value. *)
Fixpoint render (v : jvalue) : string :=
  match v with
  | JAtom t => t
  | JStr s => json.dumps_str s
  | JList items => "[" ++ Py.join "," (map render items) ++ "]"
  | JDict items =>
      "{" ++ Py.join ","
               (map (fun kv : string * jvalue => json.dumps_str (fst kv) ++ ":" ++ render (snd kv))
                    items)
          ++ "}"
  end.

(** The characters that delimit values: comma, quote, brackets, braces. *)
Definition structural (c : ascii) : bool :=
  let n := nat_of_ascii c in
  Nat.eqb n 44 || Nat.eqb n 34 || Nat.eqb n 91 || Nat.eqb n 93 || Nat.eqb n 123
  || Nat.eqb n 125.

(** The characters that may follow a value: comma, closing bracket or brace. *)
Definition closing (c : ascii) : bool :=
  let n := nat_of_ascii c in
  Nat.eqb n 44 || Nat.eqb n 93 || Nat.eqb n 125.

Fixpoint all_chars (p : ascii -> bool) (s : string) : bool :=
  match s with
  | EmptyString => true
  | String c rest => p c && all_chars p rest
  end.

(** A text without delimiters. *)
Definition plain (s : string) : bool :=
  all_chars (fun c => negb (structural c)) s.

(** The text of a number: not empty, no delimiter in it. *)
Definition atom_ok (t : string) : bool :=
  match t with
  | EmptyString => false
  | _ => plain t
  end.

(** What is left of a text after a value. *)
Definition closes (r : string) : bool :=
  match r with
  | EmptyString => true
  | String c _ => closing c
  end.

Inductive well_formed : jvalue -> Prop :=
| wf_atom (t : string) : atom_ok t = true -> well_formed (JAtom t)
| wf_str (s : string) : well_formed (JStr s)
| wf_list (items : list jvalue) : Forall well_formed items -> well_formed (JList items)
| wf_dict (items : list (string * jvalue)) :
    Forall (fun kv => well_formed (snd kv)) items -> well_formed (JDict items).

(** Induction on values and on Python objects with the items at hand. *)
Section Induction.
Variable P : jvalue -> Prop.
Hypothesis HAtom : forall t, P (JAtom t).
Hypothesis HStr : forall s, P (JStr s).
Hypothesis HList : forall items, Forall P items -> P (JList items).
Hypothesis HDict : forall items, Forall (fun kv => P (snd kv)) items -> P (JDict items).

Fixpoint jvalue_induction (v : jvalue) : P v :=
  match v with
  | JAtom t => HAtom t
  | JStr s => HStr s
  | JList items =>
      HList items
        ((fix go (l : list jvalue) : Forall P l :=
            match l with
            | [] => Forall_nil P
            | x :: rest => Forall_cons x (jvalue_induction x) (go rest)
            end) items)
  | JDict items =>
      HDict items
        ((fix go (l : list (string * jvalue)) : Forall (fun kv => P (snd kv)) l :=
            match l with
            | [] => Forall_nil _
            | x :: rest => Forall_cons x (jvalue_induction (snd x)) (go rest)
            end) items)
  end.
End Induction.

Section ObjectInduction.
Variable P : json.pyobj -> Prop.
Hypothesis HNone : P json.ONone.
Hypothesis HBool : forall b, P (json.OBool b).
Hypothesis HInt : forall z, P (json.OInt z).
Hypothesis HFloat : forall x, P (json.OFloat x).
Hypothesis HStr : forall s, P (json.OStr s).
Hypothesis HList : forall items, Forall P items -> P (json.OList items).
Hypothesis HTuple : forall items, Forall P items -> P (json.OTuple items).
Hypothesis HDict : forall d, Forall (fun kv => P (snd kv)) d -> P (json.ODict d).

Fixpoint pyobj_induction (o : json.pyobj) : P o :=
  match o with
  | json.ONone => HNone
  | json.OBool b => HBool b
  | json.OInt z => HInt z
  | json.OFloat x => HFloat x
  | json.OStr s => HStr s
  | json.OList items =>
      HList items
        ((fix go (l : list json.pyobj) : Forall P l :=
            match l with
            | [] => Forall_nil P
            | x :: rest => Forall_cons x (pyobj_induction x) (go rest)
            end) items)
  | json.OTuple items =>
      HTuple items
        ((fix go (l : list json.pyobj) : Forall P l :=
            match l with
            | [] => Forall_nil P
            | x :: rest => Forall_cons x (pyobj_induction x) (go rest)
            end) items)
  | json.ODict d =>
      HDict d
        ((fix go (l : list (string * json.pyobj)) : Forall (fun kv => P (snd kv)) l :=
            match l with
            | [] => Forall_nil _
            | x :: rest => Forall_cons x (pyobj_induction (snd x)) (go rest)
            end) d)
  end.
End ObjectInduction.

(** Reading back one character of an escaped string; a bare quote ends
    the string and reads as nothing. *)
Definition hex_value (c : ascii) : nat :=
  let n := nat_of_ascii c in
  if Nat.ltb n 58 then n - 48 else n - 87.

Definition unescape_char (s : string) : option (ascii * string) :=
  match s with
  | EmptyString => None
  | String c rest =>
      if Nat.eqb (nat_of_ascii c) 92 then
        match rest with
        | EmptyString => None
        | String d rest' =>
            let n := nat_of_ascii d in
            if Nat.eqb n 34 then Some (json.quote_char, rest')
            else if Nat.eqb n 92 then Some (json.backslash, rest')
            else if Nat.eqb n 110 then Some (ascii_of_nat 10, rest')
            else if Nat.eqb n 114 then Some (ascii_of_nat 13, rest')
            else if Nat.eqb n 116 then Some (ascii_of_nat 9, rest')
            else if Nat.eqb n 98 then Some (ascii_of_nat 8, rest')
            else if Nat.eqb n 102 then Some (ascii_of_nat 12, rest')
            else if Nat.eqb n 117 then
              match rest' with
              | String _ (String _ (String h3 (String h4 r))) =>
                  Some (ascii_of_nat (16 * hex_value h3 + hex_value h4), r)
              | _ => None
              end
            else None
        end
      else if Nat.eqb (nat_of_ascii c) 34 then None
      else Some (c, rest)
  end.

(** Reading back a decimal number. *)
Fixpoint number (s : string) (acc : N) : N :=
  match s with
  | EmptyString => acc
  | String c rest => number rest (10 * acc + (N_of_ascii c - 48))%N
  end.

Definition read_int (s : string) : Z :=
  match s with
  | String c rest =>
      if Nat.eqb (nat_of_ascii c) 45 then (- Z.of_N (number rest 0))%Z
      else Z.of_N (number s 0)
  | EmptyString => 0%Z
  end.

(** A decimal digit or the minus sign. *)
Definition numeric (c : ascii) : bool :=
  let n := nat_of_ascii c in
  (Nat.leb 48 n && Nat.leb n 57) || Nat.eqb n 45.

End canon.

(* ================================================================== *)
(** ** secrets: the operating system's entropy *)

Module secrets.

(** The source of randomness: the tokens it will hand out, and how many
    have been drawn. *)
Record rng : Type := { draws : nat -> string; pos : nat }.

(** [secrets.token_hex(16)] *)
Definition token_hex (g : rng) : string * rng :=
  (draws g (pos g), {| draws := draws g; pos := S (pos g) |}).

End secrets.

(* ================================================================== *)
(** ** commitment.py *)

Module commitment.
Import PyFloat.
Local Open Scope string_scope.

(** A disclosed mapping [var -> value]; a value may be [None]. *)
Definition var_map : Type := Py.dict (option float).

(** A witness seen as such a mapping. *)
Definition of_witness (w : Py.dict float) : var_map :=
  map (fun kv => (fst kv, Some (snd kv))) w.

Definition value_obj (v : option float) : json.pyobj :=
  match v with Some x => json.OFloat x | None => json.ONone end.

Definition map_obj (m : var_map) : json.pyobj :=
  json.ODict (map (fun kv => (fst kv, value_obj (snd kv))) m).

Definition _canonical_serialize_map `{Platform} (m : var_map) : string :=
  json.dumps (map_obj m).

Definition commit_map `{Platform} (mapping : var_map) (g : secrets.rng)
  : (string * string) * secrets.rng :=
  let '(nonce, g') := secrets.token_hex g in
  let serial := _canonical_serialize_map mapping in
  let blob := serial ++ "|" ++ nonce in
  let h := hashlib.sha256_hexdigest blob in
  ((h, nonce), g').

(** An opening [{"mapping": .., "nonce": ..}]; [None] is a key that is
    absent. *)
Record opening : Type := {
  mapping : option var_map;
  nonce : option string
}.

Definition open_map (m : var_map) (n : string) : opening :=
  {| mapping := Some m; nonce := Some n |}.

Definition verify_commit `{Platform} (commitment_hex : string) (o : opening) : bool :=
  match mapping o, nonce o with
  | Some m, Some n =>
      let serial := _canonical_serialize_map m in
      let blob := serial ++ "|" ++ n in
      let h := hashlib.sha256_hexdigest blob in
      String.eqb h commitment_hex
  | _, _ => false
  end.

End commitment.

(* ================================================================== *)
(** ** fingerprint.py *)

Module fingerprint.
Import PyFloat r1cs_utils.
Local Open Scope string_scope.

Definition normalize_part `{Platform} (part : string) (entries : linear_form) : string :=
  let sorted_items := Py.sorted_by_key entries in
  part ++ ":" ++
  Py.join "," (map (fun kv : string * float => fst kv ++ "=" ++ format_12g (snd kv))
                   sorted_items).

Definition _normalize_constraint_representation `{Platform} (c : constraint) : string :=
  let parts :=
    [normalize_part "A" (A c); normalize_part "B" (B c); normalize_part "C" (C c)] in
  let parts :=
    match source c with
    | Some s => List.app parts ["src:" ++ s]
    | None => parts
    end in
  Py.join "|" parts.

Definition fingerprint_constraint `{Platform} (c : constraint) (truncate : option Z) : string :=
  let rep := _normalize_constraint_representation c in
  let h := hashlib.sha256_hexdigest rep in
  match truncate with
  | None => h
  | Some n => Py.str_slice_to h n
  end.

(** The default [truncate=16]. *)
Definition default_truncate : option Z := Some 16%Z.

End fingerprint.

(* ================================================================== *)
(** ** slicer.py *)

Module slicer.
Import PyFloat r1cs_utils.

Definition score_constraint `{Platform} (c : constraint) : float :=
  let nz := constraint_nz_count c in
  let supp := List.length (constraint_support c) in
  mul (of_Z (Z.of_nat nz)) (add one (log1p (of_Z (Z.of_nat supp)))).

Record candidate : Type := {
  idx : nat;
  score : float;
  fingerprint : string;
  summary : r1cs_utils.summary;
  constraint : r1cs_utils.constraint
}.

(** One turn of the loop over [enumerate(constraints)]: the state is the
    list of candidates and the set of fingerprints seen. *)
Definition slice_step `{Platform} (deduplicate : bool)
  (st : list candidate * list string) (ic : nat * r1cs_utils.constraint)
  : list candidate * list string :=
  let '(candidates, seen_fps) := st in
  let '(i, c) := ic in
  let sc := score_constraint c in
  let fp := fingerprint.fingerprint_constraint c fingerprint.default_truncate in
  if deduplicate && Py.mem fp seen_fps then (candidates, seen_fps)
  else
    (candidates ++ [{| idx := i; score := sc; fingerprint := fp;
                       summary := constraint_summary c; constraint := c |}],
     Py.set_add seen_fps fp).

Definition enumerate {T : Type} (l : list T) : list (nat * T) :=
  combine (seq 0 (List.length l)) l.

(** [candidates.sort(key=lambda x: x["score"], reverse=True)]: stable, so
    candidates of equal score keep their order. *)
Fixpoint insert_by_score (x : candidate) (l : list candidate) : list candidate :=
  match l with
  | [] => [x]
  | y :: rest =>
      if ltb (score x) (score y) then y :: insert_by_score x rest
      else x :: y :: rest
  end.

Definition sort_by_score_desc (l : list candidate) : list candidate :=
  fold_right insert_by_score [] l.

Definition slice_r1cs `{Platform} (r1cs : R1CS) (top_k : Z) (deduplicate : bool)
  : list candidate :=
  let '(candidates, _) :=
    fold_left (slice_step deduplicate) (enumerate (constraints r1cs)) ([], []) in
  Py.slice_to (sort_by_score_desc candidates) top_k.

(** The defaults [top_k=10], [deduplicate=True]. *)
Definition default_top_k : Z := 10%Z.

End slicer.

(* ================================================================== *)
(** ** violation_iop.py *)

Module violation_iop.
Import PyFloat.
Local Open Scope string_scope.

(** One record per examined constraint.  [idx = None] stands for an index
    that is null or missing, [opening = None] for a null opening. *)
Record entry : Type := {
  idx : option Z;
  residual : float;
  opening : option commitment.opening;
  source : string
}.

(** A transcript; [digest = None] is a transcript without that key. *)
Record transcript : Type := {
  witness_commitments : Py.dict string;
  violations : list entry;
  meta : Py.dict json.pyobj;
  digest : option string
}.

Definition opening_obj (o : commitment.opening) : json.pyobj :=
  json.ODict
    (List.app
       (match commitment.mapping o with
        | Some m => [("mapping", commitment.map_obj m)]
        | None => []
        end)
       (match commitment.nonce o with
        | Some n => [("nonce", json.OStr n)]
        | None => []
        end)).

Definition entry_obj (e : entry) : json.pyobj :=
  json.ODict
    [ ("idx", match idx e with Some i => json.OInt i | None => json.ONone end);
      ("residual", json.OFloat (residual e));
      ("opening", match opening e with
                  | Some o => opening_obj o
                  | None => json.ONone
                  end);
      ("source", json.OStr (source e)) ].

(** The transcript dict without its ["digest"] key. *)
Definition content_obj (wc : Py.dict string) (entries : list entry)
  (m : Py.dict json.pyobj) : json.pyobj :=
  json.ODict
    [ ("witness_commitments", json.ODict (map (fun kv => (fst kv, json.OStr (snd kv))) wc));
      ("violations", json.OList (map entry_obj entries));
      ("meta", json.ODict m) ].

Definition _transcript_digest `{Platform} (o : json.pyobj) : string :=
  hashlib.sha256_hexdigest (json.dumps o).

Definition make_transcript `{Platform} (wc : Py.dict string)
  (violation_entries : list entry) (m : option (Py.dict json.pyobj)) : transcript :=
  let m := match m with Some d => d | None => [] end in
  {| witness_commitments := wc;
     violations := violation_entries;
     meta := m;
     digest := Some (_transcript_digest (content_obj wc violation_entries m)) |}.

Definition validate_transcript_digest `{Platform} (t : transcript) : bool :=
  match digest t with
  | None => false
  | Some expected =>
      if String.eqb expected "" then false
      else
        let copy := content_obj (witness_commitments t) (violations t) (meta t) in
        let actual := _transcript_digest copy in
        String.eqb actual expected
  end.

End violation_iop.

(* ================================================================== *)
(** ** prover.py *)

Module prover.
Import PyFloat r1cs_utils.
Local Open Scope string_scope.

(** The attributes [commit_witness] sets on the instance. *)
Record session : Type := {
  _full_opening_nonce : string;
  _full_commitment : string;
  _per_var_openings : Py.dict commitment.opening
}.

(** A [Prover] instance: [None] after [Prover()], a session after
    [commit_witness]. *)
Definition Prover : Type := option session.

(** [_ensure_one] mutates the caller's witness; the new witness is returned. *)
Definition _ensure_one (witness : Py.dict float) : Py.dict float :=
  if Py.contains witness "ONE" then witness else Py.set witness "ONE" one.

(** The loop [for var, val in sorted(witness.items())] filling [per_var]
    with [(commit, nonce)]. *)
Definition commit_vars `{Platform} (items : list (string * float)) (g : secrets.rng)
  : Py.dict (string * string) * secrets.rng :=
  fold_left
    (fun (st : Py.dict (string * string) * secrets.rng) (kv : string * float) =>
       let '(cn, g') := commitment.commit_map [(fst kv, Some (snd kv))] (snd st) in
       (Py.set (fst st) (fst kv) cn, g'))
    items ([], g).

(** Returns the label -> digest map, the instance, the witness and the
    entropy as the call leaves them. *)
Definition commit_witness `{Platform} (self : Prover) (witness : Py.dict float)
  (g : secrets.rng)
  : Py.dict string * session * Py.dict float * secrets.rng :=
  let witness := _ensure_one witness in
  let '((full_commit, full_nonce), g) :=
    commitment.commit_map (commitment.of_witness witness) g in
  let '(per_var, g) := commit_vars (Py.sorted_by_key witness) g in
  let openings :=
    map (fun vcn : string * (string * string) =>
           (fst vcn,
            {| commitment.mapping := Some [(fst vcn, Py.get witness (fst vcn))];
               commitment.nonce := Some (snd (snd vcn)) |}))
        per_var in
  let self' :=
    {| _full_opening_nonce := full_nonce;
       _full_commitment := full_commit;
       _per_var_openings := openings |} in
  (Py.update [("WITNESS", full_commit)]
             (map (fun vcn : string * (string * string) => (fst vcn, fst (snd vcn))) per_var),
   self', witness, g).

(** The body of [for idx in candidate_idxs]: the entries one index adds. *)
Definition entries_for (self : session) (constraints : list constraint)
  (witness : Py.dict float) (idx : Z) : list violation_iop.entry :=
  if (idx <? 0)%Z || (idx >=? Z.of_nat (List.length constraints))%Z then []
  else
    match nth_error constraints (Z.to_nat idx) with
    | None => []
    | Some c =>
        let residual := eval_constraint c witness in
        let is_zero := isclose_tol residual zero in
        if negb is_zero then
          let supp := constraint_support c in
          let opening_map := map (fun v => (v, Py.get witness v)) supp in
          let opening_obj := commitment.open_map opening_map (_full_opening_nonce self) in
          [ {| violation_iop.idx := Some idx;
               violation_iop.residual := residual;
               violation_iop.opening := Some opening_obj;
               violation_iop.source := source_or_empty c |} ]
        else
          [ {| violation_iop.idx := Some idx;
               violation_iop.residual := zero;
               violation_iop.opening := None;
               violation_iop.source := source_or_empty c |} ]
    end.

(** The list [entries] when the loop ends. *)
Definition build_entries (self : session) (constraints : list constraint)
  (witness : Py.dict float) (candidate_idxs : list Z) : list violation_iop.entry :=
  fold_left (fun entries idx => List.app entries (entries_for self constraints witness idx))
            candidate_idxs [].

(** What a call of [make_proof] leaves behind: the returned value or the
    exception, the instance, the caller's witness, the entropy, and the
    local list [entries] as the call leaves it (after an exception the
    frame in its traceback still holds it). *)
Record outcome : Type := {
  returned : Py.result violation_iop.transcript;
  self_after : Prover;
  witness_after : Py.dict float;
  rng_after : secrets.rng;
  entries_at_exit : list violation_iop.entry
}.

(** The names bound to a label -> digest map when [make_proof] assembles
    the transcript: its local [witness_commits]; the module binds none. *)
Definition commitments_in_scope (witness_commits : Py.dict string)
  : Py.dict (Py.dict string) :=
  [("witness_commits", witness_commits)].

Definition make_proof `{Platform} (self : Prover) (r1cs : R1CS)
  (witness : Py.dict float) (candidate_idxs : list Z) (g : secrets.rng) : outcome :=
  let witness := _ensure_one witness in
  let '(witness_commits, self', witness, g) := commit_witness self witness g in
  let entries := build_entries self' (constraints r1cs) witness candidate_idxs in
  let meta := [("candidate_count", json.OInt (Z.of_nat (List.length candidate_idxs)))] in
  (* line 124 reads the name [witness_commitments] *)
  let tx :=
    match Py.lookup_name (commitments_in_scope witness_commits) "witness_commitments" with
    | Py.Ok wc => Py.Ok (violation_iop.make_transcript wc entries (Some meta))
    | Py.Raise e => Py.Raise e
    end in
  {| returned := tx; self_after := Some self'; witness_after := witness; rng_after := g;
     entries_at_exit := entries |}.

End prover.

(* ================================================================== *)
(** ** verifier.py *)

Module verifier.
Import PyFloat r1cs_utils.
Local Open Scope string_scope.

Record entry_report : Type := {
  idx : option Z;
  source : string;
  opening_ok : option bool;
  residual_ok : option bool;
  computed_residual : option float
}.

Record report : Type := {
  digest_ok : bool;
  commit_checks : list entry_report;
  residual_checks : list entry_report
}.

(** The local [eval_linear]: a value that is missing or [None] counts 0. *)
Definition eval_linear (linear : linear_form) (assignment : commitment.var_map) : float :=
  fold_left
    (fun s kv =>
       let val := match Py.get assignment (fst kv) with
                  | Some (Some v) => v
                  | _ => zero
                  end in
       add s (mul (snd kv) val))
    linear zero.

(** Truth value of [witness_commits.get("WITNESS")]. *)
Definition truthy (c : option string) : bool :=
  match c with
  | Some s => negb (String.eqb s "")
  | None => false
  end.

(** One turn of [for entry in violations]: the state is [all_ok] and
    [report["residual_checks"]]. *)
Definition verify_step `{Platform} (constraints : list constraint)
  (witness_top_commit : option string)
  (st : bool * list entry_report) (entry : violation_iop.entry)
  : bool * list entry_report :=
  let '(all_ok, checks) := st in
  let idx := violation_iop.idx entry in
  let residual_claim := violation_iop.residual entry in
  let src := violation_iop.source entry in
  match violation_iop.opening entry with
  | None =>
      if isclose_tol residual_claim zero then
        (all_ok,
         List.app checks
           [ {| idx := idx; source := src; opening_ok := None;
                residual_ok := Some true; computed_residual := None |} ])
      else
        (false,
         List.app checks
           [ {| idx := idx; source := src; opening_ok := None;
                residual_ok := Some false; computed_residual := None |} ])
  | Some opening =>
      let '(all_ok, opening_ok) :=
        if truthy witness_top_commit then
          let ok_commit :=
            commitment.verify_commit
              (match witness_top_commit with Some c => c | None => "" end) opening in
          (if ok_commit then all_ok else false, Some ok_commit)
        else (all_ok, None) in
      let opened_map :=
        match commitment.mapping opening with Some m => m | None => [] end in
      let out_of_range :=
        match idx with
        | None => true
        | Some i => (i <? 0)%Z || (i >=? Z.of_nat (List.length constraints))%Z
        end in
      if out_of_range then
        (false,
         List.app checks
           [ {| idx := idx; source := src; opening_ok := opening_ok;
                residual_ok := Some false; computed_residual := None |} ])
      else
        match nth_error constraints
                (Z.to_nat (match idx with Some i => i | None => 0%Z end)) with
        | None =>
            (false,
             List.app checks
               [ {| idx := idx; source := src; opening_ok := opening_ok;
                    residual_ok := Some false; computed_residual := None |} ])
        | Some constraint =>
            let a_val := eval_linear (A constraint) opened_map in
            let b_val := eval_linear (B constraint) opened_map in
            let c_val := eval_linear (C constraint) opened_map in
            let computed := sub (mul a_val b_val) c_val in
            let ok := isclose_tol computed residual_claim in
            (if ok then all_ok else false,
             List.app checks
               [ {| idx := idx; source := src; opening_ok := opening_ok;
                    residual_ok := Some ok; computed_residual := Some computed |} ])
        end
  end.

Definition verify `{Platform} (r1cs : R1CS) (transcript : violation_iop.transcript)
  : bool * report :=
  if negb (violation_iop.validate_transcript_digest transcript) then
    (false, {| digest_ok := false; commit_checks := []; residual_checks := [] |})
  else
    let witness_commits := violation_iop.witness_commitments transcript in
    let violations := violation_iop.violations transcript in
    let witness_top_commit := Py.get witness_commits "WITNESS" in
    let constraints := constraints r1cs in
    let '(all_ok, checks) :=
      fold_left (verify_step constraints witness_top_commit) violations (true, []) in
    (all_ok, {| digest_ok := true; commit_checks := []; residual_checks := checks |}).

End verifier.

(* ================================================================== *)
(** ** A platform for closed examples

    The examples below run on values where the three library routines
    are easy to tabulate: integral floats (below 1e16 for [repr], below
    1e12 for [".12g"]) and [log1p] of 0..7 as CPython on x86-64 returns
    it.  Outside these ranges the instance answers with an injective
    place-holder, and no example reaches it. *)

Module sample.
Import PyFloat.
Local Open Scope string_scope.

(** The integer a float denotes, when it denotes one. *)
Definition integral_value (x : float) : option Z :=
  match x with
  | S754_zero _ => Some 0%Z
  | S754_finite s m e =>
      let v :=
        if (0 <=? e)%Z then Some (Z.shiftl (Zpos m) e)
        else if (Z.land (Zpos m) (Z.ones (- e)) =? 0)%Z then Some (Z.shiftr (Zpos m) (- e))
        else None in
      match v with
      | Some n => Some (if s then (- n)%Z else n)
      | None => None
      end
  | _ => None
  end.

Definition is_negative (x : float) : bool :=
  match x with
  | S754_zero s | S754_infinity s | S754_finite s _ _ => s
  | S754_nan => false
  end.

Definition placeholder (x : float) : string :=
  match x with
  | S754_finite s m e =>
      (if s then "-" else "") ++ json.dumps_int (Zpos m) ++ "p" ++ json.dumps_int e
  | S754_zero true => "-0.0"
  | S754_zero false => "0.0"
  | S754_infinity true => "-inf"
  | S754_infinity false => "inf"
  | S754_nan => "nan"
  end.

Definition unsigned_digits (n : Z) : string := json.dumps_int (Z.abs n).

Definition repr (x : float) : string :=
  match integral_value x with
  | Some n =>
      if (Z.abs n <? 10 ^ 16)%Z
      then (if is_negative x then "-" else "") ++ unsigned_digits n ++ ".0"
      else placeholder x
  | None => placeholder x
  end.

Definition fmt_12g (x : float) : string :=
  match integral_value x with
  | Some n =>
      if (Z.abs n <? 10 ^ 12)%Z
      then (if is_negative x then "-" else "") ++ unsigned_digits n
      else placeholder x
  | None => placeholder x
  end.

Definition log1p_table (x : float) : float :=
  match integral_value x with
  | Some 0%Z => x
  | Some 1%Z => S754_finite false 6243314768165359 (-53)
  | Some 2%Z => S754_finite false 4947709893870346 (-52)
  | Some 3%Z => S754_finite false 6243314768165359 (-52)
  | Some 4%Z => S754_finite false 7248263982714163 (-52)
  | Some 5%Z => S754_finite false 8069367277953026 (-52)
  | Some 6%Z => S754_finite false 8763600222181975 (-52)
  | Some 7%Z => S754_finite false 4682486076124019 (-51)
  | _ => x
  end.

Definition platform : Platform :=
  {| float_repr := repr; format_12g := fmt_12g; log1p := log1p_table |}.

(** An entropy source whose n-th token is the 32 hex digits of n + 2^100. *)
Definition counting_rng : secrets.rng :=
  {| secrets.draws := fun n => hashlib.hex 32 (2 ^ 100 + Z.of_nat n); secrets.pos := 0 |}.

(** The R1CS and the witness of the repository's demo. *)
Definition c_mul : r1cs_utils.constraint :=
  {| r1cs_utils.A := [("a", one)]; r1cs_utils.B := [("b", one)];
     r1cs_utils.C := [("c", one)]; r1cs_utils.source := Some "c <== a * b;" |}.

Definition c_add : r1cs_utils.constraint :=
  {| r1cs_utils.A := [("a", one); ("b", one)]; r1cs_utils.B := [("ONE", one)];
     r1cs_utils.C := [("d", one)]; r1cs_utils.source := Some "d <== a + b;" |}.

Definition demo_r1cs : r1cs_utils.R1CS :=
  {| r1cs_utils.variables := [("ONE", 0%Z); ("a", 1%Z); ("b", 2%Z); ("c", 3%Z)];
     r1cs_utils.constraints := [c_mul; c_add] |}.

Definition witness_good : Py.dict float :=
  [("ONE", one); ("a", of_Z 3); ("b", of_Z 4); ("c", of_Z 12)].

(** The same addition constraint with the entries of A in the other order. *)
Definition c_add_reordered : r1cs_utils.constraint :=
  {| r1cs_utils.A := [("b", one); ("a", one)]; r1cs_utils.B := [("ONE", one)];
     r1cs_utils.C := [("d", one)]; r1cs_utils.source := Some "d <== a + b;" |}.

(** R1CS with repeated constraints. *)
Definition r1cs_of (cs : list r1cs_utils.constraint) : r1cs_utils.R1CS :=
  {| r1cs_utils.variables := [("ONE", 0%Z); ("a", 1%Z); ("b", 2%Z); ("c", 3%Z)];
     r1cs_utils.constraints := cs |}.

(** A constraint [a * ONE = 0] and a witness that misses it by 1e-13. *)
Definition c_tiny : r1cs_utils.constraint :=
  {| r1cs_utils.A := [("a", one)]; r1cs_utils.B := [("ONE", one)];
     r1cs_utils.C := []; r1cs_utils.source := None |}.




(** Entries without an opening whose index points nowhere. *)
Definition entry_null (i : option Z) : violation_iop.entry :=
  {| violation_iop.idx := i; violation_iop.residual := zero;
     violation_iop.opening := None; violation_iop.source := "" |}.

Definition tx_null_only : violation_iop.transcript :=
  @violation_iop.make_transcript platform []
    [entry_null (Some 5%Z); entry_null (Some (-3)%Z); entry_null None] None.

Definition tx_null_past_end : violation_iop.transcript :=
  @violation_iop.make_transcript platform [] [entry_null (Some 5%Z)] None.

(** An entry with an opening and an index past the end. *)
Definition entry_opened_past_end : violation_iop.entry :=
  {| violation_iop.idx := Some 9%Z; violation_iop.residual := of_Z 7;
     violation_iop.opening :=
       Some (commitment.open_map [("a", Some (of_Z 3))] "00");
     violation_iop.source := "" |}.

Definition tx_opened_past_end : violation_iop.transcript :=
  @violation_iop.make_transcript platform []
    [entry_null (Some 0%Z); entry_opened_past_end] None.

(** The transcript Scenario A describes: what [make_transcript] builds
    from the commitments and the entries of the demo. *)
Definition scenario_A_session
  : Py.dict string * prover.session * Py.dict float * secrets.rng :=
  @prover.commit_witness platform None witness_good counting_rng.

Definition scenario_A_entries : list violation_iop.entry :=
  prover.build_entries (snd (fst (fst scenario_A_session)))
    (r1cs_utils.constraints demo_r1cs) witness_good [0%Z; 1%Z].

Definition scenario_A_transcript : violation_iop.transcript :=
  @violation_iop.make_transcript platform (fst (fst (fst scenario_A_session)))
    scenario_A_entries (Some [("candidate_count", json.OInt 2)]).

(** A transcript with a note in its meta, as a list and as a tuple. *)
Definition tx_note : violation_iop.transcript :=
  @violation_iop.make_transcript platform [] []
    (Some [("note", json.OList [json.OInt 1])]).

Definition meta_note_tuple : Py.dict json.pyobj :=
  [("note", json.OTuple [json.OInt 1])].

End sample.

(* ================================================================== *)
(** ** Reading a verifier report *)

Module reading.
Import PyFloat r1cs_utils.

(** An index the verifier cannot use: null, negative, or past the end. *)
Definition out_of_range (constraints : list constraint) (idx : option Z) : bool :=
  match idx with
  | None => true
  | Some i => (i <? 0)%Z || (i >=? Z.of_nat (List.length constraints))%Z
  end.

(** A report entry that does not block acceptance: [residual_ok] is true
    and [opening_ok] is not false. *)
Definition passes (rep : verifier.entry_report) : bool :=
  match verifier.residual_ok rep, verifier.opening_ok rep with
  | Some true, Some false => false
  | Some true, _ => true
  | _, _ => false
  end.

(** The report entry the loop appends for [entry]. *)
Definition report_for `{Platform} (constraints : list constraint)
  (witness_top_commit : option string) (entry : violation_iop.entry)
  : verifier.entry_report :=
  match snd (verifier.verify_step constraints witness_top_commit (true, []) entry) with
  | rep :: _ => rep
  | [] => {| verifier.idx := None; verifier.source := EmptyString;
             verifier.opening_ok := None; verifier.residual_ok := None;
             verifier.computed_residual := None |}
  end.

(** The residual the verifier recomputes from a disclosed mapping. *)
Definition recomputed (c : constraint) (opened_map : commitment.var_map) : float :=
  sub (mul (verifier.eval_linear (A c) opened_map) (verifier.eval_linear (B c) opened_map))
      (verifier.eval_linear (C c) opened_map).

(** A transcript with the fields of [t] replaced and its digest kept. *)
Definition with_content (t : violation_iop.transcript) (wc : Py.dict string)
  (entries : list violation_iop.entry) (m : Py.dict json.pyobj)
  : violation_iop.transcript :=
  {| violation_iop.witness_commitments := wc;
     violation_iop.violations := entries;
     violation_iop.meta := m;
     violation_iop.digest := violation_iop.digest t |}.

(** The canonical JSON text the transcript digest is taken of. *)
Definition canonical_text `{Platform} (wc : Py.dict string)
  (entries : list violation_iop.entry) (m : Py.dict json.pyobj) : string :=
  json.dumps (violation_iop.content_obj wc entries m).

(** What the verifier records as [opening_ok] for a present opening. *)
Definition opening_check `{Platform} (wtc : option string) (o : commitment.opening)
  : option bool :=
  match wtc with
  | Some c => if String.eqb c EmptyString then None else Some (commitment.verify_commit c o)
  | None => None
  end.

(** Two items of a dict in strictly increasing key order. *)
Definition key_lt {V : Type} (x y : string * V) : Prop :=
  String.ltb (fst x) (fst y) = true.

(** The fingerprint the slicer takes of a constraint. *)
Definition fp `{Platform} (c : constraint) : string :=
  fingerprint.fingerprint_constraint c fingerprint.default_truncate.

(** The state of the slicer's loop once the constraints [seen_cs] have
    been visited with [deduplicate=True]: every visited fingerprint is in
    [seen_fps] and nothing else is; a candidate is the first constraint
    with its fingerprint; and every such first constraint is a candidate. *)
Definition slice_invariant `{Platform} (seen_cs : list constraint)
  (candidates : list slicer.candidate) (seen_fps : list string) : Prop :=
  (forall k c, nth_error seen_cs k = Some c -> In (fp c) seen_fps) /\
  (forall f, In f seen_fps -> exists k c, nth_error seen_cs k = Some c /\ fp c = f) /\
  (forall x, In x candidates ->
             nth_error seen_cs (slicer.idx x) = Some (slicer.constraint x) /\
             forall k c, (k < slicer.idx x)%nat -> nth_error seen_cs k = Some c ->
                         fp c <> fp (slicer.constraint x)) /\
  (forall k c, nth_error seen_cs k = Some c ->
               (forall k' c', (k' < k)%nat -> nth_error seen_cs k' = Some c' -> fp c' <> fp c) ->
               In k (map slicer.idx candidates)) /\
  (List.length candidates <= List.length seen_cs)%nat.

(** The variables a constraint mentions, as a predicate. *)
Definition mentions (c : constraint) (v : string) : Prop :=
  In v (Py.keys (A c)) \/ In v (Py.keys (B c)) \/ In v (Py.keys (C c)).

End reading.

(* ================================================================== *)
(** ** r1cs_utils.py: index, matrix and triplet views *)

Module r1cs_views.
Import PyFloat r1cs_utils.
Local Open Scope string_scope.

(** The exceptions these views raise, with their message. *)
Inductive raised : Type :=
| ValueError (msg : string)
| KeyError (msg : string).

(** [max(vars_map.values()) if vars_map else -1] *)
Definition max_index (vars_map : Py.dict Z) : Z :=
  match Py.values vars_map with
  | [] => (-1)%Z
  | v :: vs => fold_left Z.max vs v
  end.

(** [l[i] = x] for an index inside the list (every use below is). *)
Definition list_set {T : Type} (l : list T) (i : nat) (x : T) : list T :=
  List.app (firstn i l) (x :: skipn (S i) l).

(** One turn of [for name, idx in vars_map.items()] in [build_var_index]. *)
Definition place_name (st : raised + list (option string)) (item : string * Z)
  : raised + list (option string) :=
  match st with
  | inl e => inl e
  | inr idx_to_name =>
      if (snd item <? 0)%Z then inl (ValueError "variable indices must be non-negative")
      else
        let idx_to_name :=
          if (snd item >=? Z.of_nat (List.length idx_to_name))%Z
          then List.app idx_to_name
                 (repeat None (Z.to_nat (snd item - Z.of_nat (List.length idx_to_name) + 1)))
          else idx_to_name in
        inr (list_set idx_to_name (Z.to_nat (snd item)) (Some (fst item)))
  end.

(** [f"<var_{i}_missing>"] *)
Definition placeholder (i : nat) : string :=
  "<var_" ++ json.dumps_int (Z.of_nat i) ++ "_missing>".

Definition fill_missing (slots : list (option string)) : list string :=
  map (fun ix : nat * option string =>
         match snd ix with Some name => name | None => placeholder (fst ix) end)
      (combine (seq 0 (List.length slots)) slots).

Definition build_var_index (r1cs : R1CS) : raised + (Py.dict Z * list string) :=
  let vars_map := variables r1cs in
  let max_idx := max_index vars_map in
  match fold_left place_name vars_map (inr (repeat None (Z.to_nat (max_idx + 1)))) with
  | inl e => inl e
  | inr slots => inr (vars_map, fill_missing slots)
  end.

(** The parts of a constraint in the order the loops visit them. *)
Definition parts (c : constraint) : list (string * linear_form) :=
  [("A", A c); ("B", B c); ("C", C c)].

(** A triplet [(constraint_idx, var_idx, coeff, part)]. *)
Definition triplet : Type := (nat * Z * float * string)%type.

Definition triplet_entry (vars_map : Py.dict Z) (i : nat) (part : string)
  (st : raised + list triplet) (kv : string * float) : raised + list triplet :=
  match st with
  | inl e => inl e
  | inr triplets =>
      match Py.get vars_map (fst kv) with
      | None =>
          inl (KeyError ("Unknown variable '" ++ fst kv ++ "' in constraint "
                         ++ json.dumps_int (Z.of_nat i) ++ " part " ++ part))
      | Some j => inr (List.app triplets [(i, j, snd kv, part)])
      end
  end.

Definition triplet_part (vars_map : Py.dict Z) (i : nat)
  (st : raised + list triplet) (p : string * linear_form) : raised + list triplet :=
  fold_left (triplet_entry vars_map i (fst p)) (snd p) st.

Definition triplet_constraint (vars_map : Py.dict Z)
  (st : raised + list triplet) (ic : nat * constraint) : raised + list triplet :=
  fold_left (triplet_part vars_map (fst ic)) (parts (snd ic)) st.

Definition to_triplet_list (r1cs : R1CS) : raised + list triplet :=
  match build_var_index r1cs with
  | inl e => inl e
  | inr (vars_map, _) =>
      fold_left (triplet_constraint vars_map) (slicer.enumerate (constraints r1cs)) (inr [])
  end.

(** A dense [numpy] array of floats, as its rows. *)
Definition matrix : Type := list (list float).

(** [np.zeros((m, n), dtype=float)] *)
Definition zeros (m n : nat) : matrix := repeat (repeat zero n) m.

(** [M[i, j] = x] for indices inside the array. *)
Definition matrix_set (M : matrix) (i j : nat) (x : float) : matrix :=
  match nth_error M i with
  | Some row => list_set M i (list_set row j x)
  | None => M
  end.

(** One assignment [X[i, vars_map[var]] = float(coeff)] of part [label]. *)
Definition dense_entry (vars_map : Py.dict Z) (label : string) (i : nat)
  (st : raised + matrix) (kv : string * float) : raised + matrix :=
  match st with
  | inl e => inl e
  | inr M =>
      match Py.get vars_map (fst kv) with
      | None =>
          inl (KeyError ("Unknown variable '" ++ fst kv ++ "' referenced in constraint "
                         ++ label ++ " at index " ++ json.dumps_int (Z.of_nat i)))
      | Some j => inr (matrix_set M i (Z.to_nat j) (snd kv))
      end
  end.

(** One turn of [for i, c in enumerate(constraints)]: the A entries, then
    the B entries, then the C entries. *)
Definition dense_constraint (vars_map : Py.dict Z)
  (st : raised + (matrix * matrix * matrix)) (ic : nat * constraint)
  : raised + (matrix * matrix * matrix) :=
  match st with
  | inl e => inl e
  | inr (MA, MB, MC) =>
      match fold_left (dense_entry vars_map "A" (fst ic)) (A (snd ic)) (inr MA) with
      | inl e => inl e
      | inr MA' =>
          match fold_left (dense_entry vars_map "B" (fst ic)) (B (snd ic)) (inr MB) with
          | inl e => inl e
          | inr MB' =>
              match fold_left (dense_entry vars_map "C" (fst ic)) (C (snd ic)) (inr MC) with
              | inl e => inl e
              | inr MC' => inr (MA', MB', MC')
              end
          end
      end
  end.

Definition constraints_to_dense_matrices (r1cs : R1CS)
  : raised + (matrix * matrix * matrix) :=
  match build_var_index r1cs with
  | inl e => inl e
  | inr (vars_map, idx_to_name) =>
      let n := List.length idx_to_name in
      let m := List.length (constraints r1cs) in
      fold_left (dense_constraint vars_map) (slicer.enumerate (constraints r1cs))
                (inr (zeros m n, zeros m n, zeros m n))
  end.

Definition constraints_referencing_var (r1cs : R1CS) (var_name : string) : list nat :=
  fold_left
    (fun idxs (ic : nat * constraint) =>
       if Py.mem var_name (constraint_support (snd ic)) then List.app idxs [fst ic] else idxs)
    (slicer.enumerate (constraints r1cs)) [].

End r1cs_views.

(* ================================================================== *)
(** ** fingerprint.py: sets of variables; commitment.py: single variables *)

Module fingerprint_sets.
Import PyFloat.
Local Open Scope string_scope.

(** [fingerprint_varset(varset, truncate)] on the names in the order the
    iterable yields them. *)
Definition fingerprint_varset (varset : list string) (truncate : Z) : string :=
  let s := Py.join "," (Py.sorted_strings varset) in
  let h := hashlib.sha256_hexdigest s in
  Py.str_slice_to h truncate.

(** The default [truncate=12]. *)
Definition default_truncate : Z := 12%Z.

(** [len(a.intersection(b))] and [len(a.union(b))] on duplicate-free lists. *)
Definition inter_size (a b : list string) : nat :=
  List.length (filter (fun x => Py.mem x b) a).

Definition union_size (a b : list string) : nat :=
  (List.length a + List.length (filter (fun x => negb (Py.mem x a)) b))%nat.

(** [inter / union] is Python's true division of two [int]s: the quotient
    rounded once, which for sizes below 2^53 is the float division of the
    two sizes. *)
Definition jaccard_similarity (set_a set_b : list string) : float :=
  match set_a, set_b with
  | [], [] => one
  | _, _ =>
      let inter := inter_size set_a set_b in
      let union := union_size set_a set_b in
      if (0 <? union)%nat then div (of_Z (Z.of_nat inter)) (of_Z (Z.of_nat union)) else zero
  end.

(** [commitment.commit_single_var] *)
Definition commit_single_var `{Platform} (var_name : string) (value : option float)
  (g : secrets.rng) : (string * string) * secrets.rng :=
  commitment.commit_map [(var_name, value)] g.

End fingerprint_sets.

(* ================================================================== *)
(** ** Predicates for the further properties *)

Module facts.
Import PyFloat r1cs_utils.

Definition is_nan (x : float) : bool :=
  match x with S754_nan => true | _ => false end.

(** The per-variable loop of [commit_witness], started from any [per_var]
    and entropy. *)
Definition commit_vars_from `{Platform} (items : list (string * float))
  (acc : Py.dict (string * string)) (g : secrets.rng)
  : Py.dict (string * string) * secrets.rng :=
  fold_left
    (fun (st : Py.dict (string * string) * secrets.rng) (kv : string * float) =>
       let '(cn, g') := commitment.commit_map [(fst kv, Some (snd kv))] (snd st) in
       (Py.set (fst st) (fst kv) cn, g'))
    items (acc, g).

(** The digest [commit_map] returns for [mapping] under [nonce]. *)
Definition digest_of `{Platform} (mapping : commitment.var_map) (nonce : string) : string :=
  hashlib.sha256_hexdigest
    (String.append (commitment._canonical_serialize_map mapping)
                   (String.append "|" nonce)).

(** A candidate of the slicer that describes the constraint at its index. *)
Definition describes `{Platform} (cs : list constraint) (x : slicer.candidate) : Prop :=
  nth_error cs (slicer.idx x) = Some (slicer.constraint x) /\
  slicer.fingerprint x = reading.fp (slicer.constraint x) /\
  slicer.score x = slicer.score_constraint (slicer.constraint x) /\
  slicer.summary x = constraint_summary (slicer.constraint x).

(** The state of the slicer's loop once the constraints [seen_cs] have
    been visited, for either value of [deduplicate]. *)
Definition slice_state `{Platform} (deduplicate : bool) (seen_cs : list constraint)
  (candidates : list slicer.candidate) (seen_fps : list string) : Prop :=
  (forall x, In x candidates ->
             describes seen_cs x /\ In (slicer.fingerprint x) seen_fps) /\
  StronglySorted lt (map slicer.idx candidates) /\
  (forall x, In x candidates -> (slicer.idx x < List.length seen_cs)%nat) /\
  (deduplicate = true -> NoDup (map slicer.fingerprint candidates)) /\
  (deduplicate = false -> map slicer.idx candidates = seq 0 (List.length seen_cs)).

(** [x] may stand before [y] in the ranking: its score is not smaller,
    and on a tie its index is. *)
Definition before (x y : slicer.candidate) : Prop :=
  ltb (slicer.score x) (slicer.score y) = false /\
  (ltb (slicer.score y) (slicer.score x) = false -> (slicer.idx x < slicer.idx y)%nat).

(** A list ranked by descending score, ties by ascending index. *)
Definition ranked (l : list slicer.candidate) : Prop :=
  forall i j x y, (i < j)%nat -> nth_error l i = Some x -> nth_error l j = Some y ->
                  before x y.

(** Two names in non-decreasing order, as items of a sort by key. *)
Definition key_le (x y : string * unit) : Prop :=
  String.ltb (fst y) (fst x) = false.

(** The number of characters [s[:k]] keeps of a string of [n] characters. *)
Definition kept (n : nat) (k : Z) : nat :=
  if (k <? 0)%Z then Z.to_nat (Z.of_nat n + k) else Nat.min (Z.to_nat k) n.

(** No variable has a negative index. *)
Definition nonneg (vars_map : Py.dict Z) : Prop :=
  Forall (fun item : string * Z => (0 <= snd item)%Z) vars_map.

(** The message of [build_var_index]'s [ValueError]. *)
Definition negative_index : r1cs_views.raised :=
  r1cs_views.ValueError "variable indices must be non-negative".

(** [vars_map[var]] for a variable that has an index. *)
Definition index_of (vars_map : Py.dict Z) (v : string) : Z :=
  match Py.get vars_map v with Some j => j | None => 0%Z end.

(** The triplets of one constraint: part by part, entry by entry. *)
Definition triplets_of (vars_map : Py.dict Z) (ic : nat * constraint)
  : list r1cs_views.triplet :=
  flat_map
    (fun p : string * linear_form =>
       map (fun kv : string * float => (fst ic, index_of vars_map (fst kv), snd kv, fst p))
           (snd p))
    (r1cs_views.parts (snd ic)).

(** What the assignments of one part leave in column [j] of a row that
    held [init]: the coefficient of the last entry whose variable has
    index [j], [init] if there is none. *)
Definition coeff_over (vars_map : Py.dict Z) (l : linear_form) (j : nat) (init : float)
  : float :=
  fold_left
    (fun acc (kv : string * float) =>
       if (index_of vars_map (fst kv) =? Z.of_nat j)%Z then snd kv else acc)
    l init.

Definition coeff_at (vars_map : Py.dict Z) (l : linear_form) (j : nat) : float :=
  coeff_over vars_map l j zero.

(** [M[i, j]] *)
Definition cell (M : r1cs_views.matrix) (i j : nat) : option float :=
  match nth_error M i with Some row => nth_error row j | None => None end.

(** [M.shape == (m, n)] *)
Definition shape (M : r1cs_views.matrix) (m n : nat) : Prop :=
  List.length M = m /\ Forall (fun row : list float => List.length row = n) M.

(** A dense matrix whose first rows hold the [part] of the constraints
    [seen_cs] and whose other rows are zero. *)
Definition dense_state (vars_map : Py.dict Z) (m n : nat) (seen_cs : list constraint)
  (part : constraint -> linear_form) (M : r1cs_views.matrix) : Prop :=
  shape M m n /\
  forall i j, (i < m)%nat -> (j < n)%nat ->
              cell M i j = Some (match nth_error seen_cs i with
                                 | Some c => coeff_at vars_map (part c) j
                                 | None => zero
                                 end).

(** A call that ended in a [KeyError]. *)
Definition key_error {T : Type} (r : r1cs_views.raised + T) : Prop :=
  exists msg, r = inl (r1cs_views.KeyError msg).

(** Every variable of every constraint has an index. *)
Definition all_known (vars_map : Py.dict Z) (cs : list constraint) : Prop :=
  forall c v, In c cs -> reading.mentions c v -> Py.contains vars_map v = true.

(** Total number of entries of the constraints. *)
Definition entry_count (cs : list constraint) : nat :=
  list_sum (map (fun c => List.length (A c) + List.length (B c) + List.length (C c))%nat cs).


End facts.

(* ================================================================== *)
(** ** Further sample data *)

Module more_samples.
Import PyFloat.
Local Open Scope string_scope.

(** The demo's witness with a variable no constraint mentions. *)
Definition witness_with_spare : Py.dict float :=
  List.app sample.witness_good [("z", of_Z 5)].

(** [a * a = ONE], violated at [a = 3]; it mentions every variable of the
    witness once ONE is added. *)
Definition c_square : r1cs_utils.constraint :=
  {| r1cs_utils.A := [("a", one)]; r1cs_utils.B := [("a", one)];
     r1cs_utils.C := [("ONE", one)]; r1cs_utils.source := None |}.

Definition w_three : Py.dict float := [("a", of_Z 3)].

Definition r1cs_square : r1cs_utils.R1CS :=
  {| r1cs_utils.variables := [("ONE", 0%Z); ("a", 1%Z)];
     r1cs_utils.constraints := [c_square] |}.

(** One mapping in two insertion orders. *)
Definition map_ab : commitment.var_map := [("a", Some (of_Z 3)); ("b", Some (of_Z 4))].
Definition map_ba : commitment.var_map := [("b", Some (of_Z 4)); ("a", Some (of_Z 3))].

(** A variable map with a negative index after a valid one. *)
Definition r1cs_negative : r1cs_utils.R1CS :=
  {| r1cs_utils.variables := [("a", 0%Z); ("b", (-1)%Z)];
     r1cs_utils.constraints := [] |}.

(** The demo's first constraint alone: every variable has an index. *)
Definition r1cs_mul : r1cs_utils.R1CS := sample.r1cs_of [sample.c_mul].

End more_samples.

(* ================================================================== *)
(** ** What the canonical text shows of a transcript *)

Module shown.
Import PyFloat.

(** A disclosed mapping as the text shows it: the variables in sorted
    order, each with the text of its value. *)
Definition mapping `{Platform} (m : commitment.var_map) : list (string * string) :=
  Py.sorted_by_key
    (map (fun kv : string * option float => (fst kv, json.dumps (commitment.value_obj (snd kv))))
         m).

Definition opening `{Platform} (o : commitment.opening)
  : option (list (string * string)) * option string :=
  (option_map mapping (commitment.mapping o), commitment.nonce o).

(** An entry as the text shows it: idx, the text of the residual, the
    opening and the source. *)
Definition entry `{Platform} (e : violation_iop.entry)
  : option Z * string * option (option (list (string * string)) * option string) * string :=
  (violation_iop.idx e, json.dumps_float (violation_iop.residual e),
   option_map opening (violation_iop.opening e), violation_iop.source e).

(** The content of a transcript as the text shows it: the commitments in
    key order, the entries, and the JSON value of [meta]. *)
Definition content `{Platform} (wc : Py.dict string) (entries : list violation_iop.entry)
  (m : Py.dict json.pyobj) :=
  (Py.sorted_by_key wc, map entry entries, canon.shape (json.ODict m)).

(** Two different texts with one SHA-256 digest. *)
Definition sha256_collision (a b : string) : Prop :=
  a <> b /\ hashlib.sha256_hexdigest a = hashlib.sha256_hexdigest b.

End shown.

(* ================================================================== *)
(** * Properties *)

(** ** Strings: the order behind [sorted] *)

Lemma string_compare_as_OT (a b : string) :
  String.compare a b = String_as_OT.compare a b.
Proof.
  revert b; induction a as [|x a IH]; intros [|y b]; simpl; reflexivity.
Qed.

Lemma ltb_lt (a b : string) : String.ltb a b = true <-> String_as_OT.lt a b.
Proof.
  unfold String.ltb, String_as_OT.lt. rewrite string_compare_as_OT.
  destruct (String_as_OT.compare a b); split; congruence.
Qed.

Lemma ltb_irrefl (a : string) : String.ltb a a = false.
Proof.
  destruct (String.ltb a a) eqn:E; [|reflexivity].
  apply ltb_lt in E. exfalso. exact (irreflexivity E).
Qed.

Lemma ltb_trans (a b c : string) :
  String.ltb a b = true -> String.ltb b c = true -> String.ltb a c = true.
Proof.
  rewrite !ltb_lt. intros H1 H2. etransitivity; eassumption.
Qed.

Lemma ltb_connected (a b : string) :
  a <> b -> String.ltb a b = false -> String.ltb b a = true.
Proof.
  intros Hne Hab. apply ltb_lt.
  destruct (String_as_OT.compare_spec a b) as [E|L|G].
  - contradiction.
  - apply ltb_lt in L. congruence.
  - exact G.
Qed.

Lemma ltb_asym (a b : string) : String.ltb a b = true -> String.ltb b a = false.
Proof.
  intros H. destruct (String.ltb b a) eqn:E; [|reflexivity].
  pose proof (ltb_trans _ _ _ H E) as C. rewrite ltb_irrefl in C. discriminate.
Qed.

(** ** [sorted] by key: a permutation, ordered, and blind to input order *)

Section SortedByKey.
Context {V : Type}.

Lemma insert_by_key_perm (x : string * V) (l : list (string * V)) :
  Permutation (x :: l) (Py.insert_by_key x l).
Proof.
  induction l as [|y l IH]; simpl.
  - apply Permutation_refl.
  - destruct (String.ltb (fst y) (fst x)).
    + eapply perm_trans; [apply perm_swap|]. apply perm_skip, IH.
    + apply Permutation_refl.
Qed.

Lemma sorted_by_key_perm (l : list (string * V)) :
  Permutation l (Py.sorted_by_key l).
Proof.
  induction l as [|x l IH]; simpl.
  - constructor.
  - eapply perm_trans; [apply perm_skip, IH|]. apply insert_by_key_perm.
Qed.

Lemma insert_by_key_sorted (x : string * V) (l : list (string * V)) :
  StronglySorted reading.key_lt l ->
  ~ In (fst x) (map fst l) ->
  StronglySorted reading.key_lt (Py.insert_by_key x l).
Proof.
  induction 1 as [|y l Hs IH Hall]; intros Hfresh; simpl.
  - repeat constructor.
  - simpl in Hfresh.
    destruct (String.ltb (fst y) (fst x)) eqn:E.
    + constructor.
      * apply IH. tauto.
      * rewrite Forall_forall in *. intros z Hz.
        apply (Permutation_in _ (Permutation_sym (insert_by_key_perm x l))) in Hz.
        destruct Hz as [<-|Hz]; [exact E|auto].
    + assert (Hxy : reading.key_lt x y).
      { apply ltb_connected; [|exact E]. intros Heq. apply Hfresh. left. exact Heq. }
      constructor.
      * constructor; assumption.
      * constructor; [exact Hxy|].
        rewrite Forall_forall in *. intros z Hz.
        eapply ltb_trans; [exact Hxy|]. apply Hall, Hz.
Qed.

Lemma sorted_by_key_sorted (l : list (string * V)) :
  NoDup (map fst l) -> StronglySorted reading.key_lt (Py.sorted_by_key l).
Proof.
  induction l as [|x l IH]; simpl; intros Hnd.
  - constructor.
  - inversion Hnd as [|? ? Hx Hl]; subst.
    apply insert_by_key_sorted; [auto|].
    intros Hin. apply Hx.
    eapply Permutation_in; [|exact Hin].
    apply Permutation_map, Permutation_sym, sorted_by_key_perm.
Qed.

(** Two strictly ordered lists with the same elements are the same list. *)
Lemma strictly_sorted_unique (l1 l2 : list (string * V)) :
  StronglySorted reading.key_lt l1 -> StronglySorted reading.key_lt l2 ->
  Permutation l1 l2 -> l1 = l2.
Proof.
  intros H1; revert l2.
  induction H1 as [|x l1 Hs1 IH Hall1]; intros l2 H2 Hp.
  - apply Permutation_nil in Hp. now subst.
  - destruct H2 as [|y l2 Hs2 Hall2].
    + apply Permutation_sym, Permutation_nil in Hp. discriminate.
    + assert (Hxy : x = y).
      { assert (Hx : In x (y :: l2)) by (eapply Permutation_in; [exact Hp|now left]).
        assert (Hy : In y (x :: l1))
          by (eapply Permutation_in; [exact (Permutation_sym Hp)|now left]).
        destruct Hx as [->|Hx]; [reflexivity|].
        destruct Hy as [->|Hy]; [reflexivity|].
        rewrite Forall_forall in Hall1, Hall2.
        pose proof (Hall1 _ Hy) as L1. pose proof (Hall2 _ Hx) as L2.
        unfold reading.key_lt in *. apply ltb_asym in L1. congruence. }
      subst y. f_equal. apply IH; [exact Hs2|].
      eapply Permutation_cons_inv; exact Hp.
Qed.

Lemma sorted_by_key_order_blind (l1 l2 : list (string * V)) :
  NoDup (map fst l1) -> Permutation l1 l2 ->
  Py.sorted_by_key l1 = Py.sorted_by_key l2.
Proof.
  intros Hnd Hp.
  apply strictly_sorted_unique.
  - now apply sorted_by_key_sorted.
  - apply sorted_by_key_sorted.
    eapply Permutation_NoDup; [|exact Hnd]. now apply Permutation_map.
  - eapply perm_trans; [apply Permutation_sym, sorted_by_key_perm|].
    eapply perm_trans; [exact Hp|]. apply sorted_by_key_perm.
Qed.

End SortedByKey.

(** ** hashlib: a digest is 64 hex digits *)

Lemma string_length_append (a b : string) :
  String.length (a ++ b) = String.length a + String.length b.
Proof. induction a as [|c a IH]; simpl; congruence. Qed.

Lemma hex_length (n : nat) (x : Z) : String.length (hashlib.hex n x) = n.
Proof.
  revert x; induction n as [|n IH]; intros x; simpl; [reflexivity|].
  rewrite string_length_append, IH. simpl. lia.
Qed.

Lemma sha256_hexdigest_length (s : string) :
  String.length (hashlib.sha256_hexdigest s) = 64.
Proof.
  unfold hashlib.sha256_hexdigest.
  destruct (hashlib.process _ _ _) as [[[[[[[a b] c] d] e] f] g] h].
  cbn [map String.concat].
  repeat rewrite string_length_append. rewrite !hex_length. reflexivity.
Qed.

Lemma sha256_hexdigest_nonempty (s : string) :
  String.eqb (hashlib.sha256_hexdigest s) "" = false.
Proof.
  apply String.eqb_neq. intros E.
  pose proof (sha256_hexdigest_length s) as L. rewrite E in L. discriminate.
Qed.


(* ------------------------------------------------------------------ *)
(** ** The canonical text determines the JSON value *)

Lemma app_assoc_string (a b c : string) : ((a ++ b) ++ c = a ++ (b ++ c))%string.
Proof. induction a as [|x a IH]; cbn; congruence. Qed.

Lemma app_nil_r_string (a : string) : (a ++ "")%string = a.
Proof. induction a as [|c a IH]; cbn; congruence. Qed.

Lemma app_inv_head_string (a x y : string) : (a ++ x = a ++ y)%string -> x = y.
Proof. induction a as [|c a IH]; cbn; intros H; [exact H|]. injection H. exact IH. Qed.

Lemma all_chars_app (p : ascii -> bool) (a b : string) :
  canon.all_chars p (a ++ b) = canon.all_chars p a && canon.all_chars p b.
Proof. induction a as [|c a IH]; cbn; [reflexivity|]. now rewrite IH, andb_assoc. Qed.

Lemma all_chars_weaken (p q : ascii -> bool) (s : string) :
  (forall c, p c = true -> q c = true) ->
  canon.all_chars p s = true -> canon.all_chars q s = true.
Proof.
  intros Hpq. induction s as [|c s IH]; cbn; [reflexivity|].
  intros H. apply andb_true_iff in H. destruct H as [Hc Hs].
  now rewrite (Hpq c Hc), IH.
Qed.

Lemma closing_structural (c : ascii) : canon.closing c = true -> canon.structural c = true.
Proof.
  unfold canon.closing, canon.structural.
  destruct (Nat.eqb (nat_of_ascii c) 44), (Nat.eqb (nat_of_ascii c) 93),
    (Nat.eqb (nat_of_ascii c) 125), (Nat.eqb (nat_of_ascii c) 34),
    (Nat.eqb (nat_of_ascii c) 91), (Nat.eqb (nat_of_ascii c) 123); cbn; congruence.
Qed.

(** Two texts without delimiters, each followed by a delimiter or by
    nothing, are equal when the whole texts are. *)
Lemma plain_split (t t' r r' : string) :
  canon.plain t = true -> canon.plain t' = true ->
  canon.closes r = true -> canon.closes r' = true ->
  (t ++ r = t' ++ r')%string -> t = t' /\ r = r'.
Proof.
  revert t'. induction t as [|c t IH]; intros [|c' t'] Ht Ht' Hr Hr' E; cbn in *.
  - auto.
  - subst r. cbn in Hr. apply closing_structural in Hr.
    apply andb_true_iff in Ht'. destruct Ht' as [Hc _]. rewrite Hr in Hc. discriminate.
  - subst r'. cbn in Hr'. apply closing_structural in Hr'.
    apply andb_true_iff in Ht. destruct Ht as [Hc _]. rewrite Hr' in Hc. discriminate.
  - injection E as -> E.
    apply andb_true_iff in Ht. apply andb_true_iff in Ht'.
    destruct (IH t' (proj2 Ht) (proj2 Ht') Hr Hr' E) as [-> ->]. auto.
Qed.

(** *** Strings *)

Lemma unescape_escape_char (c : ascii) (r : string) :
  canon.unescape_char (json.escape_char c ++ r) = Some (c, r).
Proof.
  destruct c as [[] [] [] [] [] [] [] []]; vm_compute; reflexivity.
Qed.

Lemma unescape_quote (r : string) :
  canon.unescape_char (json.quote ++ r) = None.
Proof. reflexivity. Qed.

Lemma escaped_split (s s' r r' : string) :
  (json.escape s ++ json.quote ++ r = json.escape s' ++ json.quote ++ r')%string ->
  s = s' /\ r = r'.
Proof.
  revert s'. induction s as [|c s IH]; intros [|c' s'] E; cbn [json.escape] in E.
  - cbn in E. injection E. auto.
  - rewrite app_assoc_string in E. apply (f_equal canon.unescape_char) in E.
    rewrite unescape_escape_char in E. cbn [String.append] in E.
    rewrite unescape_quote in E. discriminate.
  - rewrite app_assoc_string in E. apply (f_equal canon.unescape_char) in E.
    rewrite unescape_escape_char in E. cbn [String.append] in E.
    rewrite unescape_quote in E. discriminate.
  - rewrite !app_assoc_string in E. apply (f_equal canon.unescape_char) in E.
    rewrite !unescape_escape_char in E. injection E as -> E.
    destruct (IH s' E) as [-> ->]. auto.
Qed.

Lemma dumps_str_split (s s' r r' : string) :
  (json.dumps_str s ++ r = json.dumps_str s' ++ r')%string -> s = s' /\ r = r'.
Proof.
  unfold json.dumps_str. rewrite !app_assoc_string.
  intros E. apply app_inv_head_string in E.
  now apply escaped_split.
Qed.

(** *** Lists of items between brackets *)

Lemma join_cons (sep x : string) (xs : list string) (tail : string) :
  (Py.join sep (x :: xs) ++ tail
   = x ++ match xs with
          | [] => tail
          | _ :: _ => sep ++ Py.join sep xs ++ tail
          end)%string.
Proof.
  unfold Py.join. destruct xs as [|y ys]; [reflexivity|].
  cbn [String.concat]. now rewrite !app_assoc_string.
Qed.

Lemma joined_split {T : Type} (f : T -> string) (close : ascii) (l l' : list T)
  (r r' : string) :
  canon.closing close = true -> close <> ","%char ->
  (forall x, In x l -> forall x' R R',
      In x' l' -> canon.closes R = true -> canon.closes R' = true ->
      (f x ++ R = f x' ++ R')%string -> x = x' /\ R = R') ->
  (forall x, In x l \/ In x l' ->
             exists c rest, f x = String c rest /\ canon.closing c = false) ->
  (Py.join "," (map f l) ++ String close r
   = Py.join "," (map f l') ++ String close r')%string ->
  l = l' /\ r = r'.
Proof.
  intros Hclose Hcomma. revert l'. induction l as [|a l IH]; intros [|a' l'] Hinj Hhead E.
  - cbn in E. injection E. auto.
  - exfalso. cbn [map] in E. rewrite join_cons in E.
    destruct (Hhead a') as (c & rest & Ec & Hc); [right; now left|].
    rewrite Ec in E. cbn in E. injection E as E _. subst c. congruence.
  - exfalso. cbn [map] in E. rewrite join_cons in E.
    destruct (Hhead a) as (c & rest & Ec & Hc); [left; now left|].
    rewrite Ec in E. cbn in E. injection E as E _. subst c. congruence.
  - cbn [map] in E. rewrite !join_cons in E.
    assert (Ha : a = a' /\
                 match map f l with
                 | [] => String close r
                 | _ :: _ => ("," ++ Py.join "," (map f l) ++ String close r)%string
                 end
                 = match map f l' with
                   | [] => String close r'
                   | _ :: _ => ("," ++ Py.join "," (map f l') ++ String close r')%string
                   end).
    { apply Hinj; [now left|now left| | |exact E].
      - destruct (map f l); [exact Hclose|reflexivity].
      - destruct (map f l'); [exact Hclose|reflexivity]. }
    destruct Ha as [-> Erest].
    destruct l as [|b l], l' as [|b' l']; cbn [map] in Erest.
    + injection Erest as ->. auto.
    + exfalso. cbn in Erest. injection Erest as E1 _. now apply Hcomma.
    + exfalso. cbn in Erest. injection Erest as E1 _. apply Hcomma. now symmetry.
    + cbn [String.append] in Erest. injection Erest as Erest.
      destruct (IH (b' :: l')) as [El Er].
      * intros x Hx x' R R' Hx'. apply Hinj; now right.
      * intros x [Hx|Hx]; apply Hhead; [left|right]; now right.
      * exact Erest.
      * rewrite El. auto.
Qed.

(** *** Values *)

Lemma render_head (v : canon.jvalue) :
  canon.well_formed v ->
  exists c rest,
    canon.render v = String c rest /\ canon.closing c = false /\
    match v with
    | canon.JAtom _ => canon.structural c = false
    | canon.JStr _ => c = json.quote_char
    | canon.JList _ => c = "["%char
    | canon.JDict _ => c = "{"%char
    end.
Proof.
  intros Hwf. destruct v as [t|s|items|items]; cbn [canon.render].
  - inversion Hwf as [t0 Hok| | |]; subst. destruct t as [|c t]; [discriminate|].
    cbn in Hok. apply andb_true_iff in Hok. destruct Hok as [Hc _].
    apply negb_true_iff in Hc. exists c, t. split; [reflexivity|]. split; [|exact Hc].
    destruct (canon.closing c) eqn:E; [|reflexivity].
    apply closing_structural in E. congruence.
  - unfold json.dumps_str, json.quote. cbn. eexists _, _. repeat split; reflexivity.
  - cbn. eexists _, _. repeat split; reflexivity.
  - cbn. eexists _, _. repeat split; reflexivity.
Qed.

Lemma render_split (v : canon.jvalue) :
  canon.well_formed v ->
  forall v' r r',
    canon.well_formed v' -> canon.closes r = true -> canon.closes r' = true ->
    (canon.render v ++ r = canon.render v' ++ r')%string -> v = v' /\ r = r'.
Proof.
  induction v as [t|s|items IH|items IH] using canon.jvalue_induction;
    intros Hwf v' r r' Hwf' Hr Hr' E;
    destruct (render_head _ Hwf) as (c & rest & Ec & _ & Hkind);
    destruct (render_head _ Hwf') as (c' & rest' & Ec' & _ & Hkind');
    assert (Ehead : c = c')
      by (rewrite Ec, Ec' in E; cbn in E; now injection E);
    destruct v' as [t'|s'|items'|items'];
    try (exfalso; clear E Ec Ec' Hwf Hwf' Hr Hr'; try clear IH; subst;
         vm_compute in *; congruence).
  - inversion Hwf as [t0 Hok| | |]; inversion Hwf' as [t1 Hok'| | |]; subst.
    cbn [canon.render] in E.
    assert (Hp : canon.plain t = true) by (destruct t; [discriminate|exact Hok]).
    assert (Hp' : canon.plain t' = true) by (destruct t'; [discriminate|exact Hok']).
    destruct (plain_split t t' r r' Hp Hp' Hr Hr' E) as [-> ->]. auto.
  - cbn [canon.render] in E. destruct (dumps_str_split _ _ _ _ E) as [-> ->]. auto.
  - inversion Hwf as [| |items0 Hall|]; inversion Hwf' as [| |items1 Hall'|]; subst.
    cbn [canon.render] in E. rewrite !app_assoc_string in E. cbn [String.append] in E.
    injection E as E.
    rewrite Forall_forall in IH, Hall, Hall'.
    assert (H : items = items' /\ r = r').
    { apply (joined_split canon.render "]"%char); [reflexivity|discriminate| | |exact E].
      - intros x Hx x' R R' Hx' HR HR' Ex. apply (IH x Hx (Hall x Hx) x' R R'); auto.
      - intros x [Hx|Hx]; [destruct (render_head x (Hall x Hx)) as (h & t & Eh & Hh & _)
                          |destruct (render_head x (Hall' x Hx)) as (h & t & Eh & Hh & _)];
          eauto. }
    destruct H as [-> ->]. auto.
  - inversion Hwf as [| | |items0 Hall]; inversion Hwf' as [| | |items1 Hall']; subst.
    cbn [canon.render] in E. rewrite !app_assoc_string in E. cbn [String.append] in E.
    injection E as E.
    rewrite Forall_forall in IH, Hall, Hall'.
    assert (H : items = items' /\ r = r').
    { apply (joined_split
               (fun kv : string * canon.jvalue =>
                  (json.dumps_str (fst kv) ++ ":" ++ canon.render (snd kv))%string)
               "}"%char); [reflexivity|discriminate| | |exact E].
      - intros [k x] Hx [k' x'] R R' Hx' HR HR' Ex. cbn [fst snd] in Ex.
        rewrite !app_assoc_string in Ex.
        destruct (dumps_str_split _ _ _ _ Ex) as [-> Ex2].
        cbn [String.append] in Ex2. injection Ex2 as Ex2.
        destruct (IH (k', x) Hx (Hall _ Hx) x' R R' (Hall' _ Hx') HR HR' Ex2) as [E1 E2].
        cbn [snd] in E1. now subst.
      - intros [k x] _. unfold json.dumps_str, json.quote. cbn.
        eexists _, _. split; reflexivity. }
    destruct H as [-> ->]. auto.
Qed.

(** *** [json.dumps] writes the value of the object *)

Lemma insert_by_key_map_values {V W : Type} (f : V -> W) (x : string * V)
  (l : list (string * V)) :
  Py.insert_by_key (fst x, f (snd x)) (map (fun kv => (fst kv, f (snd kv))) l)
  = map (fun kv => (fst kv, f (snd kv))) (Py.insert_by_key x l).
Proof.
  induction l as [|y l IH]; cbn [map Py.insert_by_key fst snd]; [reflexivity|].
  destruct (String.ltb (fst y) (fst x)); cbn [map fst snd]; [now rewrite IH|reflexivity].
Qed.

Lemma sorted_by_key_map_values {V W : Type} (f : V -> W) (l : list (string * V)) :
  Py.sorted_by_key (map (fun kv => (fst kv, f (snd kv))) l)
  = map (fun kv => (fst kv, f (snd kv))) (Py.sorted_by_key l).
Proof.
  induction l as [|x l IH]; cbn [map Py.sorted_by_key fold_right]; [reflexivity|].
  fold (Py.sorted_by_key l).
  fold (Py.sorted_by_key (map (fun kv : string * V => (fst kv, f (snd kv))) l)).
  now rewrite IH, insert_by_key_map_values.
Qed.

Lemma map_ext_Forall {T U : Type} (f g : T -> U) (l : list T) :
  Forall (fun x => f x = g x) l -> map f l = map g l.
Proof. induction 1 as [|x l Hx Hl IH]; cbn; congruence. Qed.

Section Canonical.
Context {P : Platform}.

Lemma dumps_renders_shape (o : json.pyobj) :
  json.dumps o = canon.render (canon.shape o).
Proof.
  induction o as [|b|z|x|s|items IH|items IH|d IH] using canon.pyobj_induction;
    cbn [json.dumps canon.shape canon.render]; try reflexivity.
  - now destruct b.
  - rewrite map_map. now rewrite (map_ext_Forall _ _ _ IH).
  - rewrite map_map. now rewrite (map_ext_Forall _ _ _ IH).
  - rewrite (sorted_by_key_map_values canon.shape d).
    rewrite (map_ext_Forall
               (fun kv : string * json.pyobj => (fst kv, json.dumps (snd kv)))
               (fun kv : string * json.pyobj => (fst kv, canon.render (canon.shape (snd kv)))) d)
      by (eapply Forall_impl; [|exact IH]; cbn; intros kv E; now rewrite E).
    rewrite (sorted_by_key_map_values (fun o => canon.render (canon.shape o)) d).
    rewrite !map_map. reflexivity.
Qed.

End Canonical.

(** *** Integers *)

Lemma digit_cases (d : N) :
  (d < 10)%N ->
  d = 0%N \/ d = 1%N \/ d = 2%N \/ d = 3%N \/ d = 4%N \/ d = 5%N \/ d = 6%N \/ d = 7%N
  \/ d = 8%N \/ d = 9%N.
Proof. lia. Qed.

Lemma digit_char (d : N) :
  (d < 10)%N ->
  let c := ascii_of_N (48 + d) in
  (N_of_ascii c - 48 = d)%N /\ canon.numeric c = true /\
  Nat.eqb (nat_of_ascii c) 45 = false.
Proof.
  intros H. destruct (digit_cases d H) as [E|[E|[E|[E|[E|[E|[E|[E|[E|E]]]]]]]]];
    subst d; vm_compute; auto.
Qed.

Lemma numeric_plain (c : ascii) : canon.numeric c = true -> canon.structural c = false.
Proof.
  destruct c as [[] [] [] [] [] [] [] []]; vm_compute; congruence.
Qed.

Lemma digits_all (f : nat) (n : N) (acc : string) :
  canon.all_chars canon.numeric acc = true ->
  canon.all_chars canon.numeric (json.digits f n acc) = true.
Proof.
  revert n acc. induction f as [|f IH]; intros n acc Hacc; cbn [json.digits]; [exact Hacc|].
  assert (Hd : (N.modulo n 10 < 10)%N) by (apply N.mod_lt; lia).
  destruct (digit_char _ Hd) as (_ & Hnum & _).
  assert (Hacc' : canon.all_chars canon.numeric
                    (String (ascii_of_N (48 + N.modulo n 10)) acc) = true)
    by (cbn [canon.all_chars]; now rewrite Hnum, Hacc).
  destruct (N.ltb n 10); [exact Hacc'|]. now apply IH.
Qed.

Lemma digits_number (f : nat) (n : N) (acc : string) :
  (n < 2 ^ N.of_nat f)%N ->
  exists k, forall a,
    canon.number (json.digits f n acc) a = canon.number acc (a * 10 ^ k + n)%N.
Proof.
  revert n acc. induction f as [|f IH]; intros n acc Hn; cbn [json.digits].
  - exists 0%N. intros a. f_equal. cbn in Hn. lia.
  - assert (Hd : (N.modulo n 10 < 10)%N) by (apply N.mod_lt; lia).
    destruct (digit_char _ Hd) as (Hval & _ & _). cbv zeta in Hval.
    destruct (N.ltb_spec n 10) as [Hlt|Hge].
    + exists 1%N. intros a. cbn [canon.number]. rewrite Hval.
      rewrite (N.mod_small n 10) by exact Hlt. f_equal. lia.
    + assert (Hq : (N.div n 10 < 2 ^ N.of_nat f)%N).
      { rewrite Nat2N.inj_succ, N.pow_succ_r' in Hn.
        apply N.Div0.div_lt_upper_bound; lia. }
      destruct (IH (N.div n 10) (String (ascii_of_N (48 + N.modulo n 10)) acc) Hq)
        as (k & Hk).
      exists (N.succ k). intros a. rewrite Hk. cbn [canon.number]. rewrite Hval.
      f_equal. rewrite N.pow_succ_r'.
      pose proof (N.div_mod n 10). lia.
Qed.

Lemma size_fuel (p : positive) :
  (Npos p < 2 ^ N.of_nat (Pos.to_nat (Pos.size p)))%N.
Proof.
  rewrite positive_nat_N. pose proof (Pos.size_gt p) as H.
  change (2 ^ N.pos (Pos.size p))%N with (N.pos (2 ^ Pos.size p)). exact H.
Qed.

Lemma digits_of_positive (p : positive) :
  let s := json.digits (Pos.to_nat (Pos.size p)) (Npos p) EmptyString in
  canon.number s 0 = Npos p /\ canon.all_chars canon.numeric s = true /\
  exists c rest, s = String c rest /\ Nat.eqb (nat_of_ascii c) 45 = false.
Proof.
  intros s.
  destruct (digits_number (Pos.to_nat (Pos.size p)) (Npos p) EmptyString (size_fuel p))
    as (k & Hk).
  assert (Hnum : canon.number s 0 = Npos p) by (unfold s; rewrite Hk; cbn; lia).
  assert (Hall : canon.all_chars canon.numeric s = true) by (now apply digits_all).
  split; [exact Hnum|]. split; [exact Hall|].
  destruct s as [|c rest] eqn:Es; [cbn in Hnum; discriminate|].
  exists c, rest. split; [reflexivity|].
  (* the first character is the leading digit *)
  clear Hk Hnum Hall.
  assert (H : forall f n acc,
             (exists c rest, acc = String c rest /\ Nat.eqb (nat_of_ascii c) 45 = false)
             \/ acc = EmptyString ->
             json.digits f n acc = EmptyString
             \/ exists c rest, json.digits f n acc = String c rest
                               /\ Nat.eqb (nat_of_ascii c) 45 = false).
  { induction f as [|f IH]; intros n acc Hacc; cbn [json.digits].
    - destruct Hacc as [H|H]; [now right|now left].
    - assert (Hd : (N.modulo n 10 < 10)%N) by (apply N.mod_lt; lia).
      destruct (digit_char _ Hd) as (_ & _ & Hminus).
      destruct (N.ltb n 10); [right; eauto|].
      apply IH. left. eauto. }
  destruct (H (Pos.to_nat (Pos.size p)) (Npos p) EmptyString (or_intror eq_refl))
    as [E|(c0 & rest0 & E & Hc)]; fold s in E; rewrite Es in E; [discriminate|].
  now injection E as -> ->.
Qed.

Lemma read_dumps_int (z : Z) : canon.read_int (json.dumps_int z) = z.
Proof.
  destruct z as [|p|p]; cbn [json.dumps_int]; [reflexivity| |].
  - destruct (digits_of_positive p) as (Hnum & _ & c & rest & Es & Hc). cbv zeta in *.
    rewrite Es in *. unfold canon.read_int. rewrite Hc, Hnum. reflexivity.
  - destruct (digits_of_positive p) as (Hnum & _ & _). cbv zeta in *.
    cbn. rewrite Hnum. reflexivity.
Qed.

Lemma dumps_int_numeric (z : Z) : canon.all_chars canon.numeric (json.dumps_int z) = true.
Proof.
  destruct z as [|p|p]; cbn [json.dumps_int]; [reflexivity| |].
  - apply (digits_of_positive p).
  - cbn. apply (digits_of_positive p).
Qed.

Lemma dumps_int_atom (z : Z) : canon.atom_ok (json.dumps_int z) = true.
Proof.
  assert (Hp : canon.plain (json.dumps_int z) = true).
  { apply (all_chars_weaken canon.numeric); [|apply dumps_int_numeric].
    intros c Hc. now rewrite (numeric_plain c Hc). }
  destruct z as [|p|p]; [reflexivity| |].
  - destruct (digits_of_positive p) as (_ & _ & c & rest & Es & _). cbv zeta in Es.
    cbn [json.dumps_int] in *. rewrite Es in *. exact Hp.
  - cbn [json.dumps_int] in *. exact Hp.
Qed.

Lemma dumps_int_not_null (z : Z) : json.dumps_int z <> "null"%string.
Proof.
  intros E. pose proof (dumps_int_numeric z) as H. rewrite E in H. discriminate.
Qed.

Lemma dumps_int_injective (z z' : Z) : json.dumps_int z = json.dumps_int z' -> z = z'.
Proof.
  intros E. rewrite <- (read_dumps_int z), <- (read_dumps_int z'). now rewrite E.
Qed.

(** *** Floats, and every object *)

Section CanonicalText.
Context {P : Platform}.
Hypothesis float_text : forall x, canon.atom_ok (float_repr x) = true.

Lemma dumps_float_atom (x : PyFloat.float) : canon.atom_ok (json.dumps_float x) = true.
Proof.
  unfold json.dumps_float. destruct x as [s|[]| |s m e]; try reflexivity; apply float_text.
Qed.

Lemma shape_well_formed (o : json.pyobj) : canon.well_formed (canon.shape o).
Proof.
  induction o as [|b|z|x|s|items IH|items IH|d IH] using canon.pyobj_induction;
    cbn [canon.shape].
  - now constructor.
  - destruct b; now constructor.
  - constructor. apply dumps_int_atom.
  - constructor. apply dumps_float_atom.
  - constructor.
  - constructor. now apply Forall_map.
  - constructor. now apply Forall_map.
  - constructor. rewrite sorted_by_key_map_values. apply Forall_map. cbn [snd].
    apply (Permutation_Forall (sorted_by_key_perm d)). exact IH.
Qed.

(** Two objects have the same canonical text exactly when they have the
    same JSON value. *)
Lemma dumps_injective (o o' : json.pyobj) :
  json.dumps o = json.dumps o' <-> canon.shape o = canon.shape o'.
Proof.
  rewrite !dumps_renders_shape. split; [|congruence].
  intros E.
  destruct (render_split (canon.shape o) (shape_well_formed o) (canon.shape o')
              EmptyString EmptyString (shape_well_formed o') eq_refl eq_refl) as [H _].
  - now rewrite !app_nil_r_string.
  - exact H.
Qed.

End CanonicalText.


(** *** What the text shows of a transcript *)

Lemma map_injective {T U : Type} (f : T -> U) (l l' : list T) :
  (forall x y, f x = f y -> x = y) -> map f l = map f l' -> l = l'.
Proof.
  intros Hf. revert l'. induction l as [|x l IH]; intros [|y l'] E; cbn in E;
    try discriminate; [reflexivity|].
  injection E as Ex El. f_equal; auto.
Qed.

Lemma map_same_view {T U V : Type} (f : T -> U) (g : T -> V) (l l' : list T) :
  (forall x y, f x = f y <-> g x = g y) -> map f l = map f l' <-> map g l = map g l'.
Proof.
  intros Hfg. revert l'. induction l as [|x l IH]; intros [|y l']; cbn;
    try (split; intros E; discriminate E); [tauto|].
  split; intros E; injection E as Ex El; f_equal;
    try (now apply Hfg); now apply IH.
Qed.

Lemma sorted_values_view {V W : Type} (f : V -> W) (l l' : list (string * V)) :
  (forall x y, f x = f y -> x = y) ->
  Py.sorted_by_key (map (fun kv => (fst kv, f (snd kv))) l)
  = Py.sorted_by_key (map (fun kv => (fst kv, f (snd kv))) l')
  <-> Py.sorted_by_key l = Py.sorted_by_key l'.
Proof.
  intros Hf. rewrite !sorted_by_key_map_values. split; [|congruence].
  apply map_injective. intros [k x] [k' y] E. cbn in E. injection E as -> E.
  now rewrite (Hf x y E).
Qed.

Section Shown.
Context {P : Platform}.

Lemma value_shape (v : option PyFloat.float) :
  canon.shape (commitment.value_obj v)
  = canon.JAtom (json.dumps (commitment.value_obj v)).
Proof. now destruct v. Qed.

Lemma mapping_shape (m : commitment.var_map) :
  canon.shape (commitment.map_obj m)
  = canon.JDict (map (fun kv : string * string => (fst kv, canon.JAtom (snd kv)))
                     (shown.mapping m)).
Proof.
  unfold commitment.map_obj, shown.mapping. cbn [canon.shape].
  rewrite <- sorted_by_key_map_values. rewrite !map_map. cbn [fst snd].
  f_equal. f_equal. apply map_ext. intros [k v]. cbn [fst snd]. now rewrite value_shape.
Qed.

Lemma mapping_view (m m' : commitment.var_map) :
  canon.shape (commitment.map_obj m) = canon.shape (commitment.map_obj m')
  <-> shown.mapping m = shown.mapping m'.
Proof.
  rewrite !mapping_shape. split; [|congruence].
  intros E. injection E as E. revert E. apply map_injective.
  intros [k x] [k' y] E. cbn in E. now injection E as -> ->.
Qed.

Lemma opening_shape (o : commitment.opening) :
  canon.shape (violation_iop.opening_obj o)
  = canon.JDict
      (match commitment.mapping o with
       | Some m => [("mapping"%string, canon.shape (commitment.map_obj m))]
       | None => []
       end ++
       match commitment.nonce o with
       | Some n => [("nonce"%string, canon.JStr n)]
       | None => []
       end).
Proof. destruct o as [[m|] [n|]]; reflexivity. Qed.

Lemma opening_view (o o' : commitment.opening) :
  canon.shape (violation_iop.opening_obj o) = canon.shape (violation_iop.opening_obj o')
  <-> shown.opening o = shown.opening o'.
Proof.
  rewrite !opening_shape. unfold shown.opening.
  destruct o as [[m|] [n|]], o' as [[m'|] [n'|]];
    cbn [commitment.mapping commitment.nonce option_map app];
    split; intros E; try discriminate E; try reflexivity.
  all: try (assert (E1 : canon.shape (commitment.map_obj m)
                         = canon.shape (commitment.map_obj m')) by congruence;
            apply mapping_view in E1; congruence).
  all: try (assert (E1 : shown.mapping m = shown.mapping m') by congruence;
            apply mapping_view in E1; congruence).
  all: congruence.
Qed.

End Shown.

Section ShownContent.
Context {P : Platform}.

Lemma idx_view (i i' : option Z) :
  canon.shape (match i with Some z => json.OInt z | None => json.ONone end)
  = canon.shape (match i' with Some z => json.OInt z | None => json.ONone end)
  <-> i = i'.
Proof.
  destruct i as [z|], i' as [z'|]; cbn [canon.shape]; split; intros E;
    try reflexivity; try discriminate E.
  - injection E as E. now rewrite (dumps_int_injective _ _ E).
  - now injection E as ->.
  - injection E as E. now destruct (dumps_int_not_null z).
  - injection E as E. symmetry in E. now destruct (dumps_int_not_null z').
Qed.

Lemma entry_shape (e : violation_iop.entry) :
  canon.shape (violation_iop.entry_obj e)
  = canon.JDict
      [ ("idx"%string,
         canon.shape (match violation_iop.idx e with
                      | Some z => json.OInt z
                      | None => json.ONone
                      end));
        ("opening"%string,
         match violation_iop.opening e with
         | Some o => canon.shape (violation_iop.opening_obj o)
         | None => canon.JAtom "null"
         end);
        ("residual"%string, canon.JAtom (json.dumps_float (violation_iop.residual e)));
        ("source"%string, canon.JStr (violation_iop.source e)) ].
Proof. destruct e as [i r [o|] s]; reflexivity. Qed.

Lemma opening_not_null (o : commitment.opening) :
  canon.shape (violation_iop.opening_obj o) <> canon.JAtom "null".
Proof. rewrite opening_shape. discriminate. Qed.

Lemma entry_view (e e' : violation_iop.entry) :
  canon.shape (violation_iop.entry_obj e) = canon.shape (violation_iop.entry_obj e')
  <-> shown.entry e = shown.entry e'.
Proof.
  rewrite !entry_shape. unfold shown.entry.
  destruct e as [i r o s], e' as [i' r' o' s'].
  cbn [violation_iop.idx violation_iop.residual violation_iop.opening violation_iop.source].
  split; intros E.
  - assert (Ei : canon.shape (match i with Some z => json.OInt z | None => json.ONone end)
                 = canon.shape (match i' with Some z => json.OInt z | None => json.ONone end))
      by congruence.
    apply idx_view in Ei.
    assert (Er : json.dumps_float r = json.dumps_float r') by congruence.
    assert (Es : s = s') by congruence.
    assert (Eo : option_map shown.opening o = option_map shown.opening o').
    { destruct o as [o|], o' as [o'|]; cbn [option_map].
      - f_equal. apply opening_view. congruence.
      - exfalso. apply (opening_not_null o). congruence.
      - exfalso. apply (opening_not_null o'). congruence.
      - reflexivity. }
    congruence.
  - injection E as Ei Er Eo Es. subst i' s'. rewrite Er.
    assert (Eo' : match o with
                  | Some x => canon.shape (violation_iop.opening_obj x)
                  | None => canon.JAtom "null"
                  end
                  = match o' with
                    | Some x => canon.shape (violation_iop.opening_obj x)
                    | None => canon.JAtom "null"
                    end).
    { destruct o as [o|], o' as [o'|]; cbn [option_map] in Eo; try discriminate Eo;
        [|reflexivity].
      apply opening_view. congruence. }
    now rewrite Eo'.
Qed.

Lemma content_shape (wc : Py.dict string) (es : list violation_iop.entry)
  (m : Py.dict json.pyobj) :
  canon.shape (violation_iop.content_obj wc es m)
  = canon.JDict
      [ ("meta"%string, canon.shape (json.ODict m));
        ("violations"%string,
         canon.JList (map (fun e => canon.shape (violation_iop.entry_obj e)) es));
        ("witness_commitments"%string,
         canon.JDict (Py.sorted_by_key
                        (map (fun kv : string * string => (fst kv, canon.JStr (snd kv))) wc))) ].
Proof.
  unfold violation_iop.content_obj. cbn [canon.shape map fst snd].
  rewrite !map_map. reflexivity.
Qed.

(** The canonical texts of two contents have the same JSON value exactly
    when the texts show the same commitments, entries and meta. *)
Lemma content_view (wc wc' : Py.dict string) (es es' : list violation_iop.entry)
  (m m' : Py.dict json.pyobj) :
  canon.shape (violation_iop.content_obj wc es m)
  = canon.shape (violation_iop.content_obj wc' es' m')
  <-> shown.content wc es m = shown.content wc' es' m'.
Proof.
  rewrite !content_shape. unfold shown.content.
  assert (Hes : map (fun e => canon.shape (violation_iop.entry_obj e)) es
                = map (fun e => canon.shape (violation_iop.entry_obj e)) es'
                <-> map shown.entry es = map shown.entry es')
    by (apply map_same_view; intros x y; apply entry_view).
  assert (Hwc : Py.sorted_by_key
                  (map (fun kv : string * string => (fst kv, canon.JStr (snd kv))) wc)
                = Py.sorted_by_key
                    (map (fun kv : string * string => (fst kv, canon.JStr (snd kv))) wc')
                <-> Py.sorted_by_key wc = Py.sorted_by_key wc')
    by (apply (sorted_values_view canon.JStr); intros x y E; now injection E).
  split; intros E.
  - assert (E1 : canon.shape (json.ODict m) = canon.shape (json.ODict m')) by congruence.
    assert (E2 : map (fun e => canon.shape (violation_iop.entry_obj e)) es
                 = map (fun e => canon.shape (violation_iop.entry_obj e)) es') by congruence.
    assert (E3 : Py.sorted_by_key
                   (map (fun kv : string * string => (fst kv, canon.JStr (snd kv))) wc)
                 = Py.sorted_by_key
                     (map (fun kv : string * string => (fst kv, canon.JStr (snd kv))) wc'))
      by congruence.
    apply Hes in E2. apply Hwc in E3. congruence.
  - assert (E1 : canon.shape (json.ODict m) = canon.shape (json.ODict m')) by congruence.
    assert (E2 : map shown.entry es = map shown.entry es') by congruence.
    assert (E3 : Py.sorted_by_key wc = Py.sorted_by_key wc') by congruence.
    apply Hes in E2. apply Hwc in E3. congruence.
Qed.

End ShownContent.

(** The float texts of the sample platform are texts of numbers. *)

Lemma atom_is_plain (a : string) : canon.atom_ok a = true -> canon.plain a = true.
Proof. destruct a; [discriminate|]. intros E; exact E. Qed.

Lemma atom_then_plain (a b : string) :
  canon.atom_ok a = true -> canon.plain b = true -> canon.atom_ok (a ++ b) = true.
Proof.
  intros Ha Hb. pose proof (atom_is_plain a Ha) as Hp.
  destruct a as [|c a]; [discriminate|].
  change (canon.plain (String c a ++ b) = true).
  unfold canon.plain in *. rewrite all_chars_app, Hp, Hb. reflexivity.
Qed.

Lemma plain_then_atom (a b : string) :
  canon.plain a = true -> canon.atom_ok b = true -> canon.atom_ok (a ++ b) = true.
Proof.
  intros Ha Hb. pose proof (atom_is_plain b Hb) as Hp.
  assert (Hab : canon.plain (a ++ b) = true)
    by (unfold canon.plain in *; now rewrite all_chars_app, Ha, Hp).
  destruct a as [|c a]; [exact Hb|exact Hab].
Qed.

Lemma sample_placeholder_atom (x : PyFloat.float) :
  canon.atom_ok (sample.placeholder x) = true.
Proof.
  destruct x as [[]|[]| |s m e]; try reflexivity.
  unfold sample.placeholder.
  apply plain_then_atom; [destruct s; reflexivity|].
  apply atom_then_plain; [apply dumps_int_atom|].
  apply atom_is_plain. apply plain_then_atom; [reflexivity|apply dumps_int_atom].
Qed.

Lemma sample_repr_atom (x : PyFloat.float) : canon.atom_ok (sample.repr x) = true.
Proof.
  unfold sample.repr.
  destruct (sample.integral_value x) as [n|]; [|apply sample_placeholder_atom].
  destruct (Z.abs n <? 10 ^ 16)%Z; [|apply sample_placeholder_atom].
  apply plain_then_atom; [destruct (sample.is_negative x); reflexivity|].
  apply atom_then_plain; [apply dumps_int_atom|reflexivity].
Qed.

(** ** The protocol on any platform *)

Section Protocol.
Context {P : Platform}.

(** *** Commitments *)

(** C3.  For every mapping [m]: when [commit_map(m)] returns
    [(digest, nonce)], [verify_commit(digest, open_map(m, nonce))] is
    true, whatever nonce the entropy source hands out. *)
Theorem commit_then_open_verifies (m : commitment.var_map) (g : secrets.rng) :
  let '((digest, nonce), _) := commitment.commit_map m g in
  commitment.verify_commit digest (commitment.open_map m nonce) = true.
Proof.
  unfold commitment.commit_map, commitment.verify_commit, commitment.open_map.
  cbn. apply String.eqb_refl.
Qed.

(** *** Transcripts *)

Lemma validate_with_content (t : violation_iop.transcript)
  (wc : Py.dict string) (entries : list violation_iop.entry) (m : Py.dict json.pyobj)
  (d : string) :
  violation_iop.digest t = Some d -> String.eqb d "" = false ->
  violation_iop.validate_transcript_digest (reading.with_content t wc entries m)
  = String.eqb (hashlib.sha256_hexdigest (reading.canonical_text wc entries m)) d.
Proof.
  intros Hd Hne.
  unfold violation_iop.validate_transcript_digest, reading.with_content. cbn.
  rewrite Hd, Hne. reflexivity.
Qed.

(** C4 (amended).  A transcript built by [make_transcript] validates.
    When a platform prints every float as the text of a number, replacing
    the fields other than [digest] is noticed unless nothing the canonical
    JSON shows has changed: a replacement that still validates shows the
    same commitments under the same names, the same entries in the same
    order (idx, text of the residual, disclosed mapping with the text of
    each value, nonce, source) and the same JSON value of [meta], or else
    its canonical text is a second text with the same SHA-256 digest.  A
    replacement that shows the same content validates. *)
Theorem transcript_digest_tamper_evidence
  (wc : Py.dict string) (entries : list violation_iop.entry)
  (m : option (Py.dict json.pyobj)) :
  (forall x, canon.atom_ok (float_repr x) = true) ->
  let t := violation_iop.make_transcript wc entries m in
  violation_iop.validate_transcript_digest t = true /\
  (forall wc' entries' m',
      violation_iop.validate_transcript_digest (reading.with_content t wc' entries' m') = true ->
      shown.content wc' entries' m' = shown.content wc entries (violation_iop.meta t)
      \/ shown.sha256_collision
           (reading.canonical_text wc' entries' m')
           (reading.canonical_text wc entries (violation_iop.meta t))) /\
  (forall wc' entries' m',
      shown.content wc' entries' m' = shown.content wc entries (violation_iop.meta t) ->
      violation_iop.validate_transcript_digest (reading.with_content t wc' entries' m') = true).
Proof.
  intros Hrepr t.
  assert (Hd : violation_iop.digest t
               = Some (hashlib.sha256_hexdigest
                         (reading.canonical_text wc entries (violation_iop.meta t))))
    by reflexivity.
  assert (Hiff : forall wc' entries' m',
             violation_iop.validate_transcript_digest (reading.with_content t wc' entries' m') = true
             <-> hashlib.sha256_hexdigest (reading.canonical_text wc' entries' m')
                 = hashlib.sha256_hexdigest
                     (reading.canonical_text wc entries (violation_iop.meta t))).
  { intros wc' entries' m'.
    rewrite (validate_with_content t wc' entries' m' _ Hd (sha256_hexdigest_nonempty _)).
    apply String.eqb_eq. }
  assert (Htext : forall wc' entries' m',
             reading.canonical_text wc' entries' m'
             = reading.canonical_text wc entries (violation_iop.meta t)
             <-> shown.content wc' entries' m'
                 = shown.content wc entries (violation_iop.meta t)).
  { intros wc' entries' m'. unfold reading.canonical_text.
    rewrite (dumps_injective Hrepr). apply content_view. }
  split; [|split].
  - unfold violation_iop.validate_transcript_digest. rewrite Hd.
    rewrite sha256_hexdigest_nonempty. apply String.eqb_refl.
  - intros wc' entries' m' V. apply Hiff in V.
    destruct (string_dec (reading.canonical_text wc' entries' m')
                (reading.canonical_text wc entries (violation_iop.meta t))) as [E|Hne].
    + left. apply Htext. exact E.
    + right. split; [exact Hne|exact V].
  - intros wc' entries' m' E. apply Hiff. apply Htext in E. now rewrite E.
Qed.

(** *** The verifier's loop *)

Lemma verify_step_appends (cs : list r1cs_utils.constraint) (wtc : option string)
  (b : bool) (checks : list verifier.entry_report) (e : violation_iop.entry) :
  verifier.verify_step cs wtc (b, checks) e
  = (b && reading.passes (reading.report_for cs wtc e),
     checks ++ [reading.report_for cs wtc e]).
Proof.
  unfold reading.report_for, verifier.verify_step.
  destruct (violation_iop.opening e) as [o|].
  - destruct (verifier.truthy wtc);
      [destruct (commitment.verify_commit _ o)|];
      (destruct (match violation_iop.idx e with
                 | Some i => _
                 | None => true
                 end);
       [|destruct (nth_error cs _);
         [destruct (PyFloat.isclose_tol _ _)|]]);
      cbn; destruct b; reflexivity.
  - destruct (PyFloat.isclose_tol _ _); cbn; destruct b; reflexivity.
Qed.

Lemma verify_loop (cs : list r1cs_utils.constraint) (wtc : option string)
  (es : list violation_iop.entry) (b : bool) (checks : list verifier.entry_report) :
  fold_left (verifier.verify_step cs wtc) es (b, checks)
  = (b && forallb reading.passes (map (reading.report_for cs wtc) es),
     checks ++ map (reading.report_for cs wtc) es).
Proof.
  revert b checks; induction es as [|e es IH]; intros b checks; cbn [fold_left map forallb].
  - now rewrite andb_true_r, app_nil_r.
  - rewrite verify_step_appends, IH, <- app_assoc, andb_assoc. reflexivity.
Qed.

Lemma verify_unfold (r1cs : r1cs_utils.R1CS) (t : violation_iop.transcript) :
  violation_iop.validate_transcript_digest t = true ->
  let wtc := Py.get (violation_iop.witness_commitments t) "WITNESS" in
  let checks :=
    map (reading.report_for (r1cs_utils.constraints r1cs) wtc) (violation_iop.violations t) in
  verifier.verify r1cs t
  = (forallb reading.passes checks,
     {| verifier.digest_ok := true; verifier.commit_checks := [];
        verifier.residual_checks := checks |}).
Proof.
  intros Hv. unfold verifier.verify. rewrite Hv. cbn [negb].
  rewrite verify_loop. reflexivity.
Qed.

Lemma report_for_null_opening (cs : list r1cs_utils.constraint) (wtc : option string)
  (e : violation_iop.entry) :
  violation_iop.opening e = None ->
  reading.report_for cs wtc e
  = {| verifier.idx := violation_iop.idx e;
       verifier.source := violation_iop.source e;
       verifier.opening_ok := None;
       verifier.residual_ok := Some (PyFloat.isclose_tol (violation_iop.residual e) PyFloat.zero);
       verifier.computed_residual := None |}.
Proof.
  intros Ho. unfold reading.report_for, verifier.verify_step. rewrite Ho.
  destruct (PyFloat.isclose_tol _ _); reflexivity.
Qed.

Lemma report_for_out_of_range (cs : list r1cs_utils.constraint) (wtc : option string)
  (e : violation_iop.entry) (o : commitment.opening) :
  violation_iop.opening e = Some o ->
  reading.out_of_range cs (violation_iop.idx e) = true ->
  reading.report_for cs wtc e
  = {| verifier.idx := violation_iop.idx e;
       verifier.source := violation_iop.source e;
       verifier.opening_ok := reading.opening_check wtc o;
       verifier.residual_ok := Some false;
       verifier.computed_residual := None |}.
Proof.
  intros Ho Hr. unfold reading.report_for, verifier.verify_step, reading.opening_check.
  rewrite Ho. unfold reading.out_of_range in Hr. rewrite Hr.
  destruct wtc as [c|]; cbn; [|reflexivity].
  destruct (String.eqb c ""); cbn; [reflexivity|].
  destruct (commitment.verify_commit c o); reflexivity.
Qed.

Lemma report_for_in_range (cs : list r1cs_utils.constraint) (wtc : option string)
  (e : violation_iop.entry) (o : commitment.opening) (i : Z) (c : r1cs_utils.constraint) :
  violation_iop.opening e = Some o ->
  violation_iop.idx e = Some i ->
  (0 <= i < Z.of_nat (List.length cs))%Z ->
  nth_error cs (Z.to_nat i) = Some c ->
  let computed :=
    reading.recomputed c (match commitment.mapping o with Some mp => mp | None => [] end) in
  reading.report_for cs wtc e
  = {| verifier.idx := Some i;
       verifier.source := violation_iop.source e;
       verifier.opening_ok := reading.opening_check wtc o;
       verifier.residual_ok :=
         Some (PyFloat.isclose_tol computed (violation_iop.residual e));
       verifier.computed_residual := Some computed |}.
Proof.
  intros Ho Hi Hr Hc computed.
  unfold reading.report_for, verifier.verify_step, reading.opening_check.
  rewrite Ho, Hi.
  replace ((i <? 0)%Z || (i >=? Z.of_nat (List.length cs))%Z) with false
    by (symmetry; apply orb_false_iff; split; lia).
  rewrite Hc. fold computed.
  destruct wtc as [w|]; cbn.
  - destruct (String.eqb w ""); cbn.
    + destruct (PyFloat.isclose_tol _ _); reflexivity.
    + destruct (commitment.verify_commit w o); destruct (PyFloat.isclose_tol _ _); reflexivity.
  - destruct (PyFloat.isclose_tol _ _); reflexivity.
Qed.

Lemma report_for_idx (cs : list r1cs_utils.constraint) (wtc : option string)
  (e : violation_iop.entry) :
  verifier.idx (reading.report_for cs wtc e) = violation_iop.idx e.
Proof.
  destruct (violation_iop.opening e) as [o|] eqn:Ho.
  - destruct (reading.out_of_range cs (violation_iop.idx e)) eqn:Hr.
    + now rewrite (report_for_out_of_range cs wtc e o Ho Hr).
    + unfold reading.out_of_range in Hr.
      destruct (violation_iop.idx e) as [i|] eqn:Hi; [|discriminate].
      apply orb_false_iff in Hr. destruct Hr as [H0 Hn].
      assert (Hrange : (0 <= i < Z.of_nat (List.length cs))%Z) by lia.
      destruct (nth_error cs (Z.to_nat i)) as [c|] eqn:Hc.
      * now rewrite (report_for_in_range cs wtc e o i c Ho Hi Hrange Hc).
      * apply nth_error_None in Hc. lia.
  - now rewrite (report_for_null_opening cs wtc e Ho).
Qed.

Lemma report_for_opening_ok (cs : list r1cs_utils.constraint) (wtc : option string)
  (e : violation_iop.entry) (o : commitment.opening) :
  violation_iop.opening e = Some o ->
  verifier.opening_ok (reading.report_for cs wtc e) = reading.opening_check wtc o.
Proof.
  intros Ho.
  destruct (reading.out_of_range cs (violation_iop.idx e)) eqn:Hr.
  - now rewrite (report_for_out_of_range cs wtc e o Ho Hr).
  - unfold reading.out_of_range in Hr.
    destruct (violation_iop.idx e) as [i|] eqn:Hi; [|discriminate].
    apply orb_false_iff in Hr. destruct Hr as [H0 Hn].
    assert (Hrange : (0 <= i < Z.of_nat (List.length cs))%Z) by lia.
    destruct (nth_error cs (Z.to_nat i)) as [c|] eqn:Hc.
    + now rewrite (report_for_in_range cs wtc e o i c Ho Hi Hrange Hc).
    + apply nth_error_None in Hc. lia.
Qed.

Lemma opening_check_none (wtc : option string) (o : commitment.opening) :
  reading.opening_check wtc o = None <-> verifier.truthy wtc = false.
Proof.
  unfold reading.opening_check, verifier.truthy.
  destruct wtc as [c|]; [destruct (String.eqb c "")|]; cbn; split; congruence.
Qed.

Lemma passes_iff (r : verifier.entry_report) :
  reading.passes r = true
  <-> verifier.residual_ok r = Some true /\ verifier.opening_ok r <> Some false.
Proof.
  unfold reading.passes.
  destruct (verifier.residual_ok r) as [[|]|], (verifier.opening_ok r) as [[|]|];
    split; intros H; try discriminate; try (destruct H; congruence);
    split; congruence.
Qed.

Lemma Forall2_map_right {T U : Type} (R : T -> U -> Prop) (f : T -> U) (l : list T) :
  (forall x, In x l -> R x (f x)) -> Forall2 R l (map f l).
Proof.
  induction l as [|x l IH]; intros H; cbn; constructor.
  - apply H. now left.
  - apply IH. intros y Hy. apply H. now right.
Qed.

(** C1.  When the transcript digest validates, [verify] reports
    [digest_ok = true] and one entry per violation, and it accepts exactly
    when every entry's [residual_ok] is true and no entry's [opening_ok]
    is false; [opening_ok] is null exactly for an absent opening or a
    missing (or empty) [WITNESS] commitment, and such an entry does not
    block acceptance.  When the digest does not validate, [verify] returns
    false with [digest_ok = false] and no per-entry check. *)
Theorem verify_acceptance (r1cs : r1cs_utils.R1CS) (t : violation_iop.transcript) :
  (violation_iop.validate_transcript_digest t = true ->
   let wtc := Py.get (violation_iop.witness_commitments t) "WITNESS" in
   let rep := snd (verifier.verify r1cs t) in
   verifier.digest_ok rep = true /\
   Forall2
     (fun e r =>
        verifier.idx r = violation_iop.idx e /\
        (verifier.opening_ok r = None
         <-> violation_iop.opening e = None \/ verifier.truthy wtc = false))
     (violation_iop.violations t) (verifier.residual_checks rep) /\
   (fst (verifier.verify r1cs t) = true
    <-> forall r, In r (verifier.residual_checks rep) ->
                  verifier.residual_ok r = Some true /\
                  verifier.opening_ok r <> Some false))
  /\
  (violation_iop.validate_transcript_digest t = false ->
   verifier.verify r1cs t
   = (false, {| verifier.digest_ok := false; verifier.commit_checks := [];
                verifier.residual_checks := [] |})).
Proof.
  split.
  - intros Hv wtc rep. subst rep.
    rewrite (verify_unfold r1cs t Hv). cbn [fst snd verifier.digest_ok verifier.residual_checks].
    fold wtc. split; [reflexivity|split].
    + apply Forall2_map_right. intros e _. split; [apply report_for_idx|].
      destruct (violation_iop.opening e) as [o|] eqn:Ho.
      * rewrite (report_for_opening_ok _ _ e o Ho), opening_check_none.
        split; [now right|]. intros [H|H]; [discriminate|exact H].
      * rewrite (report_for_null_opening _ _ e Ho). cbn. split; [now left|reflexivity].
    + rewrite forallb_forall. split.
      * intros H r Hr. apply passes_iff, H, Hr.
      * intros H r Hr. apply passes_iff, H, Hr.
  - intros Hv. unfold verifier.verify. rewrite Hv. reflexivity.
Qed.

(** C10.  With a valid digest, an entry whose opening is null is never
    bounds-checked: whatever its index (negative, past the end, missing),
    its report carries no opening check and no recomputed residual, and
    [residual_ok] is true exactly when the claimed residual is within
    tolerance of zero.  A transcript made only of such entries with claims
    within tolerance is accepted for every R1CS. *)
Theorem null_opening_skips_bounds_check
  (r1cs : r1cs_utils.R1CS) (t : violation_iop.transcript) :
  violation_iop.validate_transcript_digest t = true ->
  Forall2
    (fun e r =>
       violation_iop.opening e = None ->
       verifier.idx r = violation_iop.idx e /\
       verifier.opening_ok r = None /\
       verifier.computed_residual r = None /\
       verifier.residual_ok r
       = Some (PyFloat.isclose_tol (violation_iop.residual e) PyFloat.zero))
    (violation_iop.violations t) (verifier.residual_checks (snd (verifier.verify r1cs t)))
  /\
  ((forall e, In e (violation_iop.violations t) ->
              violation_iop.opening e = None /\
              PyFloat.isclose_tol (violation_iop.residual e) PyFloat.zero = true) ->
   fst (verifier.verify r1cs t) = true).
Proof.
  intros Hv. rewrite (verify_unfold r1cs t Hv).
  cbn [fst snd verifier.residual_checks]. split.
  - apply Forall2_map_right. intros e _ Ho.
    rewrite (report_for_null_opening _ _ e Ho). cbn. auto.
  - intros Hall. apply forallb_forall. intros r Hr.
    apply in_map_iff in Hr. destruct Hr as [e [<- He]].
    destruct (Hall e He) as [Ho Hz].
    rewrite (report_for_null_opening _ _ e Ho). unfold reading.passes. cbn.
    now rewrite Hz.
Qed.

(** *** Dicts and sets *)

Lemma get_none_iff {V : Type} (d : Py.dict V) (k : string) :
  Py.get d k = None <-> ~ In k (Py.keys d).
Proof.
  induction d as [|[k' v] d IH]; cbn.
  - tauto.
  - destruct (String.eqb_spec k' k) as [->|Hne].
    + split; [discriminate|]. intros H. exfalso. apply H. now left.
    + rewrite IH. split; [intros H [E|I]; [contradiction|auto]|tauto].
Qed.

Lemma get_set_same {V : Type} (d : Py.dict V) (k : string) (v : V) :
  Py.get (Py.set d k v) k = Some v.
Proof.
  induction d as [|[k' v'] d IH]; cbn.
  - now rewrite String.eqb_refl.
  - destruct (String.eqb_spec k' k) as [->|Hne]; cbn.
    + now rewrite String.eqb_refl.
    + destruct (String.eqb_spec k' k); [contradiction|exact IH].
Qed.

Lemma get_set_other {V : Type} (d : Py.dict V) (k k' : string) (v : V) :
  k <> k' -> Py.get (Py.set d k v) k' = Py.get d k'.
Proof.
  intros Hne. induction d as [|[k0 v0] d IH]; cbn.
  - destruct (String.eqb_spec k k'); [contradiction|reflexivity].
  - destruct (String.eqb_spec k0 k) as [->|H0]; cbn.
    + destruct (String.eqb_spec k k'); [contradiction|reflexivity].
    + destruct (String.eqb_spec k0 k'); [reflexivity|exact IH].
Qed.

Lemma keys_set {V : Type} (d : Py.dict V) (k k' : string) (v : V) :
  In k' (Py.keys (Py.set d k v)) <-> In k' (Py.keys d) \/ k' = k.
Proof.
  induction d as [|[k0 v0] d IH]; cbn.
  - intuition congruence.
  - destruct (String.eqb_spec k0 k) as [->|H0]; cbn.
    + intuition congruence.
    + fold (Py.keys (Py.set d k v)). fold (Py.keys d). rewrite IH. tauto.
Qed.

Lemma get_update_other {V : Type} (e d : Py.dict V) (k : string) :
  ~ In k (Py.keys e) -> Py.get (Py.update d e) k = Py.get d k.
Proof.
  unfold Py.update. revert d.
  induction e as [|[k0 v0] e IH]; intros d Hk; cbn.
  - reflexivity.
  - cbn in Hk. rewrite IH by tauto. apply get_set_other. intros ->. tauto.
Qed.

Lemma mem_in (x : string) (l : list string) : Py.mem x l = true <-> In x l.
Proof.
  unfold Py.mem. rewrite existsb_exists. split.
  - intros [y [Hy E]]. apply String.eqb_eq in E. now subst.
  - intros H. exists x. split; [exact H|apply String.eqb_refl].
Qed.

Lemma set_add_in (l : list string) (x v : string) :
  In v (Py.set_add l x) <-> In v l \/ v = x.
Proof.
  unfold Py.set_add. destruct (Py.mem x l) eqn:E.
  - apply mem_in in E. split; [tauto|]. intros [H| ->]; assumption.
  - rewrite in_app_iff. cbn. intuition congruence.
Qed.

Lemma set_add_nodup (l : list string) (x : string) :
  NoDup l -> NoDup (Py.set_add l x).
Proof.
  intros Hl. unfold Py.set_add. destruct (Py.mem x l) eqn:E; [exact Hl|].
  assert (Hx : ~ In x l) by (intros H; apply mem_in in H; congruence).
  clear E. induction Hl as [|y l Hy Hl IH]; cbn.
  - constructor; [tauto|constructor].
  - constructor.
    + rewrite in_app_iff. cbn. intros [H|[H|[]]]; [contradiction|].
      apply Hx. now left.
    + apply IH. intros H. apply Hx. now right.
Qed.

Lemma set_update_in (xs l : list string) (v : string) :
  In v (Py.set_update l xs) <-> In v l \/ In v xs.
Proof.
  unfold Py.set_update. revert l.
  induction xs as [|x xs IH]; intros l; cbn.
  - tauto.
  - rewrite IH, set_add_in. intuition congruence.
Qed.

Lemma set_update_nodup (xs l : list string) :
  NoDup l -> NoDup (Py.set_update l xs).
Proof.
  unfold Py.set_update. revert l.
  induction xs as [|x xs IH]; intros l Hl; cbn; [exact Hl|].
  apply IH, set_add_nodup, Hl.
Qed.

Lemma constraint_support_in (c : r1cs_utils.constraint) (v : string) :
  In v (r1cs_utils.constraint_support c) <-> reading.mentions c v.
Proof.
  unfold r1cs_utils.constraint_support, reading.mentions. cbn [fold_left].
  rewrite !set_update_in. cbn. tauto.
Qed.

Lemma constraint_support_nodup (c : r1cs_utils.constraint) :
  NoDup (r1cs_utils.constraint_support c).
Proof.
  unfold r1cs_utils.constraint_support. cbn [fold_left].
  repeat apply set_update_nodup. constructor.
Qed.

Lemma get_tabulate {V : Type} (f : string -> V) (l : list string) (v : string) :
  In v l -> Py.get (map (fun x => (x, f x)) l) v = Some (f v).
Proof.
  induction l as [|x l IH]; cbn; [tauto|].
  intros H. destruct (String.eqb_spec x v) as [->|Hne]; [reflexivity|].
  destruct H as [H|H]; [contradiction|auto].
Qed.

Lemma keys_tabulate {V : Type} (f : string -> V) (l : list string) :
  Py.keys (map (fun x => (x, f x)) l) = l.
Proof.
  unfold Py.keys. rewrite map_map. cbn. apply map_id.
Qed.

(** *** The prover *)

Lemma ensure_one_idempotent (w : Py.dict PyFloat.float) :
  prover._ensure_one (prover._ensure_one w) = prover._ensure_one w.
Proof.
  unfold prover._ensure_one at 1.
  replace (Py.contains (prover._ensure_one w) "ONE") with true; [reflexivity|].
  symmetry. unfold prover._ensure_one, Py.contains.
  destruct (Py.get w "ONE") eqn:E.
  - now rewrite E.
  - now rewrite get_set_same.
Qed.

Lemma commit_vars_keys (items : list (string * PyFloat.float)) (g : secrets.rng)
  (acc : Py.dict (string * string)) (k : string) :
  In k (Py.keys (fst (fold_left
    (fun (st : Py.dict (string * string) * secrets.rng) (kv : string * PyFloat.float) =>
       let '(cn, g') := commitment.commit_map [(fst kv, Some (snd kv))] (snd st) in
       (Py.set (fst st) (fst kv) cn, g'))
    items (acc, g)))) ->
  In k (Py.keys acc) \/ In k (Py.keys items).
Proof.
  revert acc g. induction items as [|[k0 v0] items IH]; intros acc g; cbn [fold_left].
  - cbn. tauto.
  - unfold commitment.commit_map at 2. cbn [secrets.token_hex fst snd].
    intros H. apply IH in H. cbn. rewrite keys_set in H.
    destruct H as [[H| ->]|H]; auto.
Qed.

(** What [commit_witness] returns and leaves on the instance. *)
Lemma commit_witness_spec (self : prover.Prover) (witness : Py.dict PyFloat.float)
  (g : secrets.rng) :
  let w := prover._ensure_one witness in
  let nonce := fst (secrets.token_hex g) in
  let full :=
    hashlib.sha256_hexdigest
      (commitment._canonical_serialize_map (commitment.of_witness w) ++ "|" ++ nonce) in
  let '(commits, sess, w', _) := prover.commit_witness self witness g in
  w' = w /\
  prover._full_opening_nonce sess = nonce /\
  prover._full_commitment sess = full /\
  (Py.contains w "WITNESS" = false -> Py.get commits "WITNESS" = Some full).
Proof.
  unfold prover.commit_witness, commitment.commit_map at 1.
  cbn [secrets.token_hex fst snd].
  destruct (prover.commit_vars _ _) as [per_var g'] eqn:Ecv.
  cbn. repeat split.
  intros Hw. rewrite get_update_other; [reflexivity|].
  intros Hin. unfold Py.keys in Hin. rewrite map_map in Hin. cbn in Hin.
  fold (Py.keys per_var) in Hin.
  assert (Hk : In "WITNESS" (Py.keys (fst (prover.commit_vars
            (Py.sorted_by_key (prover._ensure_one witness))
            {| secrets.draws := secrets.draws g; secrets.pos := S (secrets.pos g) |}))))
    by (rewrite Ecv; exact Hin).
  unfold prover.commit_vars in Hk. apply commit_vars_keys in Hk.
  destruct Hk as [[]|Hk].
  unfold Py.contains in Hw.
  destruct (Py.get (prover._ensure_one witness) "WITNESS") eqn:Eg; [discriminate|].
  apply get_none_iff in Eg. apply Eg.
  unfold Py.keys in *.
  eapply Permutation_in; [|exact Hk].
  apply Permutation_map, Permutation_sym, sorted_by_key_perm.
Qed.

Lemma build_entries_flat_map (sess : prover.session) (cs : list r1cs_utils.constraint)
  (w : Py.dict PyFloat.float) (cands : list Z) :
  prover.build_entries sess cs w cands = flat_map (prover.entries_for sess cs w) cands.
Proof.
  unfold prover.build_entries.
  assert (G : forall acc,
             fold_left (fun entries idx => List.app entries (prover.entries_for sess cs w idx))
                       cands acc
             = acc ++ flat_map (prover.entries_for sess cs w) cands).
  { induction cands as [|i cands IH]; intros acc; cbn.
    - now rewrite app_nil_r.
    - now rewrite IH, app_assoc. }
  apply (G []).
Qed.

(** [make_proof] reads a name that nothing binds: on every input the call
    ends in [NameError], after the witness was committed. *)
Lemma make_proof_unfold (self : prover.Prover) (r1cs : r1cs_utils.R1CS)
  (witness : Py.dict PyFloat.float) (cands : list Z) (g : secrets.rng) :
  prover.make_proof self r1cs witness cands g
  = let cw := prover.commit_witness self (prover._ensure_one witness) g in
    {| prover.returned := Py.Raise (Py.NameError "witness_commitments");
       prover.self_after := Some (snd (fst (fst cw)));
       prover.witness_after := snd (fst cw);
       prover.rng_after := snd cw;
       prover.entries_at_exit :=
         prover.build_entries (snd (fst (fst cw))) (r1cs_utils.constraints r1cs)
                              (snd (fst cw)) cands |}.
Proof.
  unfold prover.make_proof.
  destruct (prover.commit_witness self (prover._ensure_one witness) g) as [[[wc sess] w'] g'].
  reflexivity.
Qed.

Lemma entries_for_out_of_range (sess : prover.session) (cs : list r1cs_utils.constraint)
  (w : Py.dict PyFloat.float) (idx : Z) :
  (idx < 0 \/ Z.of_nat (List.length cs) <= idx)%Z ->
  prover.entries_for sess cs w idx = [].
Proof.
  intros H. unfold prover.entries_for.
  replace ((idx <? 0)%Z || (idx >=? Z.of_nat (List.length cs))%Z) with true; [reflexivity|].
  symmetry. apply orb_true_iff. destruct H; [left|right]; lia.
Qed.

Lemma entries_for_in_range (sess : prover.session) (cs : list r1cs_utils.constraint)
  (w : Py.dict PyFloat.float) (idx : Z) (c : r1cs_utils.constraint) :
  (0 <= idx < Z.of_nat (List.length cs))%Z ->
  nth_error cs (Z.to_nat idx) = Some c ->
  prover.entries_for sess cs w idx
  = if PyFloat.isclose_tol (r1cs_utils.eval_constraint c w) PyFloat.zero
    then [ {| violation_iop.idx := Some idx;
              violation_iop.residual := PyFloat.zero;
              violation_iop.opening := None;
              violation_iop.source := r1cs_utils.source_or_empty c |} ]
    else [ {| violation_iop.idx := Some idx;
              violation_iop.residual := r1cs_utils.eval_constraint c w;
              violation_iop.opening :=
                Some (commitment.open_map
                        (map (fun v => (v, Py.get w v)) (r1cs_utils.constraint_support c))
                        (prover._full_opening_nonce sess));
              violation_iop.source := r1cs_utils.source_or_empty c |} ].
Proof.
  intros Hr Hc. unfold prover.entries_for.
  replace ((idx <? 0)%Z || (idx >=? Z.of_nat (List.length cs))%Z) with false
    by (symmetry; apply orb_false_iff; split; lia).
  rewrite Hc. now destruct (PyFloat.isclose_tol _ _).
Qed.

Lemma entries_for_idx (sess : prover.session) (cs : list r1cs_utils.constraint)
  (w : Py.dict PyFloat.float) (i : Z) (e : violation_iop.entry) :
  In e (prover.entries_for sess cs w i) -> violation_iop.idx e = Some i.
Proof.
  unfold prover.entries_for.
  destruct ((i <? 0)%Z || (i >=? Z.of_nat (List.length cs))%Z); [intros []|].
  destruct (nth_error cs (Z.to_nat i)) as [c|]; [|intros []].
  destruct (PyFloat.isclose_tol _ _); cbn; intros [<-|[]]; reflexivity.
Qed.

Lemma build_entries_at_idx (sess : prover.session) (cs : list r1cs_utils.constraint)
  (w : Py.dict PyFloat.float) (cands : list Z) (i : Z) (e : violation_iop.entry) :
  In e (prover.build_entries sess cs w cands) ->
  violation_iop.idx e = Some i ->
  In e (prover.entries_for sess cs w i).
Proof.
  rewrite build_entries_flat_map. intros He Hi.
  apply in_flat_map in He. destruct He as (k & _ & Hk).
  pose proof (entries_for_idx sess cs w k e Hk) as Hidx.
  assert (k = i) by congruence. now subst k.
Qed.

(** C5.  For every candidate index in range, [make_proof] classifies the
    residual with [isclose(.., 0.0, rel_tol=1e-9, abs_tol=1e-12)] and
    leaves in its list [entries] exactly one shape of entry for that
    index.  A zero residual records [{idx, 0.0, null, source}]; a
    non-zero one records the residual and an opening whose mapping has
    exactly the variables of the constraint as keys, each with the
    witness's value (null when the witness has none), and whose nonce is
    the one [commit_witness] drew for the whole-witness commitment: the
    entropy is left as [commit_witness] left it. *)
Theorem make_proof_entry_for_index (self : prover.Prover) (r1cs : r1cs_utils.R1CS)
  (witness : Py.dict PyFloat.float) (cands : list Z) (g : secrets.rng) (idx : Z) :
  In idx cands ->
  (0 <= idx < Z.of_nat (List.length (r1cs_utils.constraints r1cs)))%Z ->
  let out := prover.make_proof self r1cs witness cands g in
  let entries := prover.entries_at_exit out in
  let w := prover._ensure_one witness in
  let nonce := fst (secrets.token_hex g) in
  let cw := prover.commit_witness self w g in
  prover.witness_after out = w /\
  (exists sess,
      prover.self_after out = Some sess /\
      prover._full_opening_nonce sess = nonce /\
      prover._full_commitment sess
      = hashlib.sha256_hexdigest
          (commitment._canonical_serialize_map (commitment.of_witness w) ++ "|" ++ nonce) /\
      (Py.contains w "WITNESS" = false ->
       Py.get (fst (fst (fst cw))) "WITNESS" = Some (prover._full_commitment sess))) /\
  prover.rng_after out = snd cw /\
  exists c,
    nth_error (r1cs_utils.constraints r1cs) (Z.to_nat idx) = Some c /\
    let residual := r1cs_utils.eval_constraint c w in
    if PyFloat.isclose_tol residual PyFloat.zero then
      let entry :=
        {| violation_iop.idx := Some idx;
           violation_iop.residual := PyFloat.zero;
           violation_iop.opening := None;
           violation_iop.source := r1cs_utils.source_or_empty c |} in
      In entry entries /\
      (forall e, In e entries -> violation_iop.idx e = Some idx -> e = entry)
    else
      exists m,
        let entry :=
          {| violation_iop.idx := Some idx;
             violation_iop.residual := residual;
             violation_iop.opening :=
               Some {| commitment.mapping := Some m; commitment.nonce := Some nonce |};
             violation_iop.source := r1cs_utils.source_or_empty c |} in
        In entry entries /\
        (forall e, In e entries -> violation_iop.idx e = Some idx -> e = entry) /\
        NoDup (Py.keys m) /\
        (forall v, In v (Py.keys m) <-> reading.mentions c v) /\
        (forall v, reading.mentions c v -> Py.get m v = Some (Py.get w v)).
Proof.
  intros Hin Hr. cbv zeta.
  rewrite make_proof_unfold. cbv zeta.
  pose proof (commit_witness_spec self (prover._ensure_one witness) g) as Hcw.
  cbv zeta in Hcw.
  destruct (prover.commit_witness self (prover._ensure_one witness) g)
    as [[[commits sess] w'] g'].
  cbn [prover.witness_after prover.self_after prover.rng_after prover.entries_at_exit
       fst snd].
  destruct Hcw as (Hw & Hn & Hf & Hwit).
  rewrite ensure_one_idempotent in Hw, Hf, Hwit. subst w'.
  set (w := prover._ensure_one witness) in *.
  set (nonce := fst (secrets.token_hex g)) in *.
  set (entries := prover.build_entries sess (r1cs_utils.constraints r1cs) w cands).
  split; [reflexivity|].
  split.
  { exists sess. split; [reflexivity|]. split; [exact Hn|]. split; [exact Hf|].
    intros H. rewrite Hf. auto. }
  split; [reflexivity|].
  destruct (nth_error (r1cs_utils.constraints r1cs) (Z.to_nat idx)) as [c|] eqn:Hc;
    [|apply nth_error_None in Hc; lia].
  exists c. split; [reflexivity|].
  set (residual := r1cs_utils.eval_constraint c w).
  assert (Hsub : forall e, In e (prover.entries_for sess (r1cs_utils.constraints r1cs) w idx) ->
                           In e entries).
  { intros e He. unfold entries. rewrite build_entries_flat_map.
    apply in_flat_map. exists idx. auto. }
  assert (Honly : forall e, In e entries -> violation_iop.idx e = Some idx ->
                            In e (prover.entries_for sess (r1cs_utils.constraints r1cs) w idx))
    by (intros e He Hi; now apply (build_entries_at_idx sess _ w cands)).
  rewrite (entries_for_in_range sess _ w idx c Hr Hc) in Hsub, Honly.
  fold residual in Hsub, Honly.
  destruct (PyFloat.isclose_tol residual PyFloat.zero).
  - split; [apply Hsub; now left|].
    intros e He Hi. destruct (Honly e He Hi) as [<-|[]]. reflexivity.
  - exists (map (fun v => (v, Py.get w v)) (r1cs_utils.constraint_support c)).
    split; [|split; [|split; [|split]]].
    + rewrite <- Hn. apply Hsub. now left.
    + intros e He Hi. destruct (Honly e He Hi) as [<-|[]]. rewrite <- Hn. reflexivity.
    + rewrite keys_tabulate. apply constraint_support_nodup.
    + intros v. rewrite keys_tabulate. apply constraint_support_in.
    + intros v Hv. apply get_tabulate. now apply constraint_support_in.
Qed.

(** C6 (amended).  A candidate index that is negative or past the end
    adds no entry in [make_proof]'s loop, which goes on with the other
    indices as if it were not listed.  In [verify], an entry that carries
    an opening and whose index is null, negative or past the end is
    reported with [residual_ok = false] and no recomputed residual, every
    entry is still reported, and the transcript is rejected. *)
Theorem out_of_range_index_handling
  (sess : prover.session) (cs : list r1cs_utils.constraint)
  (w : Py.dict PyFloat.float) (pre post : list Z) (idx : Z)
  (r1cs : r1cs_utils.R1CS) (t : violation_iop.transcript) :
  ((idx < 0 \/ Z.of_nat (List.length cs) <= idx)%Z ->
   prover.entries_for sess cs w idx = [] /\
   prover.build_entries sess cs w (pre ++ idx :: post)
   = prover.build_entries sess cs w (pre ++ post))
  /\
  (violation_iop.validate_transcript_digest t = true ->
   Forall2
     (fun e r =>
        forall o, violation_iop.opening e = Some o ->
                  reading.out_of_range (r1cs_utils.constraints r1cs) (violation_iop.idx e) = true ->
                  verifier.idx r = violation_iop.idx e /\
                  verifier.residual_ok r = Some false /\
                  verifier.computed_residual r = None)
     (violation_iop.violations t) (verifier.residual_checks (snd (verifier.verify r1cs t)))
   /\
   ((exists e o, In e (violation_iop.violations t) /\
                 violation_iop.opening e = Some o /\
                 reading.out_of_range (r1cs_utils.constraints r1cs) (violation_iop.idx e) = true) ->
    fst (verifier.verify r1cs t) = false)).
Proof.
  split.
  - intros H. pose proof (entries_for_out_of_range sess cs w idx H) as E.
    split; [exact E|].
    rewrite !build_entries_flat_map, !flat_map_app. cbn [flat_map]. now rewrite E.
  - intros Hv. rewrite (verify_unfold r1cs t Hv).
    cbn [fst snd verifier.residual_checks]. split.
    + apply Forall2_map_right. intros e _ o Ho Hr.
      rewrite (report_for_out_of_range _ _ e o Ho Hr). cbn. auto.
    + intros (e & o & He & Ho & Hr).
      apply not_true_is_false. intros Hall.
      rewrite forallb_forall in Hall.
      specialize (Hall _ (in_map _ _ _ He)).
      rewrite (report_for_out_of_range _ _ e o Ho Hr) in Hall.
      unfold reading.passes in Hall. cbn in Hall. discriminate.
Qed.

(** C2.  On the inputs of Scenario A the entry loop builds entry 0 with
    residual 0.0 and a null opening and entry 1 with residual 7.0 and an
    opening over a, b, ONE and d (d null); then [make_proof] reads the
    unbound name [witness_commitments] and ends in [NameError]: no
    transcript is returned, so none can be verified. *)
Theorem scenario_A_make_proof_raises (g : secrets.rng) :
  let out := prover.make_proof None sample.demo_r1cs sample.witness_good [0; 1]%Z g in
  prover.returned out = Py.Raise (Py.NameError "witness_commitments") /\
  prover.witness_after out = sample.witness_good /\
  exists sess,
    prover.self_after out = Some sess /\
    prover._full_opening_nonce sess = fst (secrets.token_hex g) /\
    prover.build_entries sess (r1cs_utils.constraints sample.demo_r1cs)
                         sample.witness_good [0; 1]%Z
    = [ {| violation_iop.idx := Some 0%Z;
           violation_iop.residual := PyFloat.zero;
           violation_iop.opening := None;
           violation_iop.source := "c <== a * b;" |};
        {| violation_iop.idx := Some 1%Z;
           violation_iop.residual := PyFloat.of_Z 7;
           violation_iop.opening :=
             Some (commitment.open_map
                     [ ("a", Some (PyFloat.of_Z 3)); ("b", Some (PyFloat.of_Z 4));
                       ("ONE", Some PyFloat.one); ("d", None) ]
                     (fst (secrets.token_hex g)));
           violation_iop.source := "d <== a + b;" |} ].
Proof.
  intros out. unfold out. rewrite make_proof_unfold.
  pose proof (commit_witness_spec None (prover._ensure_one sample.witness_good) g) as Hcw.
  destruct (prover.commit_witness None (prover._ensure_one sample.witness_good) g)
    as [[[commits sess] w'] g'].
  cbn zeta in Hcw. destruct Hcw as (Hw & Hn & _).
  cbn [prover.returned prover.witness_after prover.self_after fst snd].
  split; [reflexivity|]. split; [rewrite Hw; reflexivity|].
  exists sess. split; [reflexivity|]. split; [exact Hn|].
  rewrite <- Hn. rewrite build_entries_flat_map. cbn [flat_map].
  rewrite (entries_for_in_range sess _ _ 0%Z sample.c_mul) by (cbn; try lia; reflexivity).
  rewrite (entries_for_in_range sess _ _ 1%Z sample.c_add) by (cbn; try lia; reflexivity).
  reflexivity.
Qed.

(** *** Fingerprints *)

Lemma normalized_representation_order_blind (c1 c2 : r1cs_utils.constraint) :
  NoDup (Py.keys (r1cs_utils.A c1)) ->
  NoDup (Py.keys (r1cs_utils.B c1)) ->
  NoDup (Py.keys (r1cs_utils.C c1)) ->
  Permutation (r1cs_utils.A c1) (r1cs_utils.A c2) ->
  Permutation (r1cs_utils.B c1) (r1cs_utils.B c2) ->
  Permutation (r1cs_utils.C c1) (r1cs_utils.C c2) ->
  r1cs_utils.source c1 = r1cs_utils.source c2 ->
  fingerprint._normalize_constraint_representation c1
  = fingerprint._normalize_constraint_representation c2.
Proof.
  intros Na Nb Nc Pa Pb Pc Hs.
  unfold fingerprint._normalize_constraint_representation, fingerprint.normalize_part.
  rewrite (sorted_by_key_order_blind _ _ Na Pa),
          (sorted_by_key_order_blind _ _ Nb Pb),
          (sorted_by_key_order_blind _ _ Nc Pc), Hs.
  reflexivity.
Qed.

(** C8.  The fingerprint of a constraint does not depend on the order of
    the entries inside its A, B and C mappings: two constraints with the
    same (variable, coefficient) pairs in each part and the same source
    have equal fingerprints, at every truncation. *)
Theorem fingerprint_order_invariant (c1 c2 : r1cs_utils.constraint) (truncate : option Z) :
  NoDup (Py.keys (r1cs_utils.A c1)) ->
  NoDup (Py.keys (r1cs_utils.B c1)) ->
  NoDup (Py.keys (r1cs_utils.C c1)) ->
  Permutation (r1cs_utils.A c1) (r1cs_utils.A c2) ->
  Permutation (r1cs_utils.B c1) (r1cs_utils.B c2) ->
  Permutation (r1cs_utils.C c1) (r1cs_utils.C c2) ->
  r1cs_utils.source c1 = r1cs_utils.source c2 ->
  fingerprint.fingerprint_constraint c1 truncate
  = fingerprint.fingerprint_constraint c2 truncate.
Proof.
  intros Na Nb Nc Pa Pb Pc Hs.
  unfold fingerprint.fingerprint_constraint.
  now rewrite (normalized_representation_order_blind c1 c2 Na Nb Nc Pa Pb Pc Hs).
Qed.

(** *** The slicer *)

Lemma slice_step_invariant (pre : list r1cs_utils.constraint) (c : r1cs_utils.constraint)
  (cands : list slicer.candidate) (seen : list string) :
  reading.slice_invariant pre cands seen ->
  let '(cands', seen') := slicer.slice_step true (cands, seen) (List.length pre, c) in
  reading.slice_invariant (pre ++ [c]) cands' seen'.
Proof.
  intros (I1 & I2 & I3 & I4 & I5).
  assert (Hpre : forall k x, nth_error pre k = Some x -> nth_error (pre ++ [c]) k = Some x).
  { intros k x H. rewrite nth_error_app1; [exact H|].
    apply nth_error_Some. congruence. }
  assert (Hlast : forall k x, nth_error (pre ++ [c]) k = Some x ->
                              nth_error pre k = Some x \/ (k = List.length pre /\ x = c)).
  { intros k x H. destruct (Nat.lt_ge_cases k (List.length pre)) as [L|G].
    - left. now rewrite nth_error_app1 in H.
    - right. rewrite nth_error_app2 in H by exact G.
      destruct (k - List.length pre)%nat as [|d] eqn:E; cbn in H.
      + split; [lia|congruence].
      + destruct d; discriminate. }
  unfold slicer.slice_step. cbn [andb]. fold (reading.fp c).
  destruct (Py.mem (reading.fp c) seen) eqn:Em.
  - apply mem_in in Em.
    split; [|split; [|split; [|split]]].
    + intros k x H. destruct (Hlast _ _ H) as [H'|[-> ->]]; eauto.
    + intros f Hf. destruct (I2 f Hf) as (k & x & Hk & E). eauto.
    + intros y Hy. destruct (I3 _ Hy) as [Hn Hfirst]. split; [apply Hpre, Hn|].
      intros k x Hk Hx.
      assert (Hlt : (slicer.idx y < List.length pre)%nat)
        by (apply nth_error_Some; congruence).
      destruct (Hlast _ _ Hx) as [H'|[-> _]]; [eauto|lia].
    + intros k x Hk Hfirst.
      destruct (Hlast _ _ Hk) as [H'|[-> ->]].
      * apply (I4 k x H'). intros k' c' L H''. apply (Hfirst k' c' L), Hpre, H''.
      * exfalso. destruct (I2 _ Em) as (k' & c' & Hk' & E).
        apply (Hfirst k' c'); [|apply Hpre, Hk'|exact E].
        apply nth_error_Some. congruence.
    + rewrite length_app. cbn. lia.
  - assert (Hfresh : ~ In (reading.fp c) seen)
      by (intros H; apply mem_in in H; congruence).
    assert (Hhere : nth_error (pre ++ [c]) (List.length pre) = Some c)
      by (rewrite nth_error_app2 by lia; now rewrite Nat.sub_diag).
    split; [|split; [|split; [|split]]].
    + intros k x H. apply set_add_in.
      destruct (Hlast _ _ H) as [H'|[-> ->]]; [left; eauto|now right].
    + intros f Hf. apply set_add_in in Hf. destruct Hf as [Hf| ->].
      * destruct (I2 f Hf) as (k & x & Hk & E). eauto.
      * exists (List.length pre), c. split; [exact Hhere|reflexivity].
    + intros y Hy. apply in_app_iff in Hy. destruct Hy as [Hy|[<-|[]]]; cbn [slicer.idx slicer.constraint].
      * destruct (I3 _ Hy) as [Hn Hfirst]. split; [apply Hpre, Hn|].
        intros k x Hk Hx.
        assert (Hlt : (slicer.idx y < List.length pre)%nat)
          by (apply nth_error_Some; congruence).
        destruct (Hlast _ _ Hx) as [H'|[-> _]]; [eauto|lia].
      * split; [exact Hhere|].
        intros k x Hk Hx.
        destruct (Hlast _ _ Hx) as [H'|[-> _]]; [|lia].
        intros E. apply Hfresh. rewrite <- E. eauto.
    + intros k x Hk Hfirst. rewrite map_app, in_app_iff. cbn.
      destruct (Hlast _ _ Hk) as [H'|[-> ->]]; [left|now right; left].
      apply (I4 k x H'). intros k' c' L H''. apply (Hfirst k' c' L), Hpre, H''.
    + rewrite !length_app. cbn. lia.
Qed.

Lemma slice_loop_invariant (l pre : list r1cs_utils.constraint)
  (cands : list slicer.candidate) (seen : list string) :
  reading.slice_invariant pre cands seen ->
  let '(cands', seen') :=
    fold_left (slicer.slice_step true)
              (combine (seq (List.length pre) (List.length l)) l) (cands, seen) in
  reading.slice_invariant (pre ++ l) cands' seen'.
Proof.
  revert pre cands seen. induction l as [|c l IH]; intros pre cands seen Hinv.
  - cbn. now rewrite app_nil_r.
  - cbn [List.length seq combine fold_left].
    pose proof (slice_step_invariant pre c cands seen Hinv) as Hstep.
    destruct (slicer.slice_step true (cands, seen) (List.length pre, c)) as [cands1 seen1].
    specialize (IH (pre ++ [c]) cands1 seen1 Hstep).
    rewrite length_app in IH. cbn [List.length] in IH.
    rewrite Nat.add_1_r, <- app_assoc in IH. exact IH.
Qed.

Lemma insert_by_score_perm (x : slicer.candidate) (l : list slicer.candidate) :
  Permutation (x :: l) (slicer.insert_by_score x l).
Proof.
  induction l as [|y l IH]; cbn.
  - apply Permutation_refl.
  - destruct (PyFloat.ltb _ _).
    + eapply perm_trans; [apply perm_swap|]. apply perm_skip, IH.
    + apply Permutation_refl.
Qed.

Lemma sort_by_score_perm (l : list slicer.candidate) :
  Permutation l (slicer.sort_by_score_desc l).
Proof.
  induction l as [|x l IH]; cbn.
  - constructor.
  - eapply perm_trans; [apply perm_skip, IH|]. apply insert_by_score_perm.
Qed.

Lemma slice_to_subset {T : Type} (l : list T) (k : Z) (x : T) :
  In x (Py.slice_to l k) -> In x l.
Proof.
  unfold Py.slice_to.
  assert (G : forall n, In x (firstn n l) -> In x l).
  { intros n H. rewrite <- (firstn_skipn n l). apply in_or_app. now left. }
  destruct (k <? 0)%Z; apply G.
Qed.

Lemma slice_to_all {T : Type} (l : list T) (k : Z) :
  (Z.of_nat (List.length l) <= k)%Z -> Py.slice_to l k = l.
Proof.
  intros H. unfold Py.slice_to.
  replace (k <? 0)%Z with false by (symmetry; apply Z.ltb_ge; lia).
  apply firstn_all2. lia.
Qed.

(** C9 (amended).  With [deduplicate=True], when two structurally
    identical constraints (the same entries in A, in B and in C, in any
    order, and the same source) sit at indices [i < j], index [j] is never
    in the candidate list; index [i] is in it when no earlier constraint
    has that fingerprint and [top_k] is at least the number of
    constraints. *)
Theorem slice_dedup_first_occurrence (r1cs : r1cs_utils.R1CS) (top_k : Z)
  (i j : nat) (ci cj : r1cs_utils.constraint) :
  nth_error (r1cs_utils.constraints r1cs) i = Some ci ->
  nth_error (r1cs_utils.constraints r1cs) j = Some cj ->
  (i < j)%nat ->
  NoDup (Py.keys (r1cs_utils.A ci)) ->
  NoDup (Py.keys (r1cs_utils.B ci)) ->
  NoDup (Py.keys (r1cs_utils.C ci)) ->
  Permutation (r1cs_utils.A ci) (r1cs_utils.A cj) ->
  Permutation (r1cs_utils.B ci) (r1cs_utils.B cj) ->
  Permutation (r1cs_utils.C ci) (r1cs_utils.C cj) ->
  r1cs_utils.source ci = r1cs_utils.source cj ->
  let idxs := map slicer.idx (slicer.slice_r1cs r1cs top_k true) in
  ~ In j idxs /\
  ((forall k ck, (k < i)%nat -> nth_error (r1cs_utils.constraints r1cs) k = Some ck ->
                 reading.fp ck <> reading.fp ci) ->
   (Z.of_nat (List.length (r1cs_utils.constraints r1cs)) <= top_k)%Z ->
   In i idxs).
Proof.
  intros Hi Hj Hij Na Nb Nc Pa Pb Pc Hs idxs. subst idxs.
  assert (Hfp : reading.fp ci = reading.fp cj).
  { unfold reading.fp, fingerprint.fingerprint_constraint.
    now rewrite (normalized_representation_order_blind ci cj Na Nb Nc Pa Pb Pc Hs). }
  unfold slicer.slice_r1cs, slicer.enumerate.
  assert (H0 : reading.slice_invariant [] [] []).
  { split; [|split; [|split; [|split]]].
    - intros k x H. destruct k; discriminate.
    - intros f [].
    - intros x [].
    - intros k x H. destruct k; discriminate.
    - cbn. lia. }
  pose proof (slice_loop_invariant (r1cs_utils.constraints r1cs) [] [] [] H0) as Hinv.
  cbn [List.length app] in Hinv.
  destruct (fold_left _ _ _) as [cands seen].
  destruct Hinv as (I1 & I2 & I3 & I4 & I5).
  split.
  - intros Hin. apply in_map_iff in Hin. destruct Hin as (x & Hx & Hin).
    apply slice_to_subset in Hin.
    apply (Permutation_in _ (Permutation_sym (sort_by_score_perm cands))) in Hin.
    destruct (I3 x Hin) as [Hn Hfirst]. rewrite Hx in Hn, Hfirst.
    apply (Hfirst i ci Hij Hi). congruence.
  - intros Hfirst Hk.
    assert (Hlen : List.length (slicer.sort_by_score_desc cands) = List.length cands)
      by (symmetry; apply Permutation_length, sort_by_score_perm).
    rewrite slice_to_all by lia.
    eapply Permutation_in; [apply Permutation_map, sort_by_score_perm|].
    apply (I4 i ci Hi). intros k' c' L H'. exact (Hfirst k' c' L H').
Qed.

End Protocol.

(* ================================================================== *)
(** ** The evaluator and the zero test *)


Lemma isclose_of_equal (a b rel_tol abs_tol : PyFloat.float) :
  PyFloat.eqb a b = true -> PyFloat.isclose a b rel_tol abs_tol = true.
Proof. intros H. unfold PyFloat.isclose. now rewrite H. Qed.


(** *** Rounding to binary64 *)

Section Rounding.
Local Open Scope Z_scope.




















End Rounding.


(* ================================================================== *)
(** * Closed examples on the sample platform *)

(** ** Scenario A as the specification describes it

    Had [make_proof] passed its local [witness_commits], the transcript
    would be [sample.scenario_A_transcript]; the verifier then passes
    entry 0, recomputes 7.0 for entry 1 but finds its opening does not
    match the whole-witness commitment, and rejects. *)
Example scenario_A_intended_verification :
  verifier.verify (H := sample.platform) sample.demo_r1cs sample.scenario_A_transcript
  = (false,
     {| verifier.digest_ok := true;
        verifier.commit_checks := [];
        verifier.residual_checks :=
          [ {| verifier.idx := Some 0%Z; verifier.source := "c <== a * b;";
               verifier.opening_ok := None; verifier.residual_ok := Some true;
               verifier.computed_residual := None |};
            {| verifier.idx := Some 1%Z; verifier.source := "d <== a + b;";
               verifier.opening_ok := Some false; verifier.residual_ok := Some true;
               verifier.computed_residual := Some (PyFloat.of_Z 7) |} ] |}).
Proof. vm_compute. reflexivity. Qed.

(** ** C1 *)

(** The hypotheses of C1 at a transcript that validates and at one whose
    content was emptied after the digest was taken. *)
Lemma verify_acceptance_witness :
  (violation_iop.validate_transcript_digest (H := sample.platform) sample.tx_null_only = true /\
   verifier.digest_ok
     (snd (verifier.verify (H := sample.platform) sample.demo_r1cs sample.tx_null_only)) = true)
  /\
  (violation_iop.validate_transcript_digest (H := sample.platform)
     (reading.with_content sample.tx_null_only [] [] []) = false /\
   verifier.verify (H := sample.platform) sample.demo_r1cs
     (reading.with_content sample.tx_null_only [] [] [])
   = (false, {| verifier.digest_ok := false; verifier.commit_checks := [];
                verifier.residual_checks := [] |})).
Proof.
  assert (V : violation_iop.validate_transcript_digest (H := sample.platform)
                sample.tx_null_only = true) by (vm_compute; reflexivity).
  assert (N : violation_iop.validate_transcript_digest (H := sample.platform)
                (reading.with_content sample.tx_null_only [] [] []) = false)
    by (vm_compute; reflexivity).
  split.
  - split; [exact V|].
    exact (proj1 (proj1 (verify_acceptance (P := sample.platform)
                           sample.demo_r1cs sample.tx_null_only) V)).
  - split; [exact N|].
    exact (proj2 (verify_acceptance (P := sample.platform) sample.demo_r1cs
                    (reading.with_content sample.tx_null_only [] [] [])) N).
Defined.

(** ** C4 *)

(** C4 as stated fails: replacing a list in [meta] by a tuple with the
    same items changes the transcript and leaves the canonical JSON, hence
    the digest check, unchanged. *)
Lemma tuple_for_list_goes_unnoticed :
  let t' := reading.with_content sample.tx_note [] [] sample.meta_note_tuple in
  violation_iop.meta t' <> violation_iop.meta sample.tx_note /\
  violation_iop.witness_commitments t' = violation_iop.witness_commitments sample.tx_note /\
  violation_iop.violations t' = violation_iop.violations sample.tx_note /\
  violation_iop.validate_transcript_digest (H := sample.platform) t' = true.
Proof.
  cbv zeta. split; [|split; [|split]].
  - cbn. intros E. discriminate E.
  - reflexivity.
  - reflexivity.
  - vm_compute. reflexivity.
Qed.

(** On the sample platform a changed residual, a changed value in a
    disclosed mapping and an added commitment are each rejected. *)
Example changed_fields_are_rejected :
  let t := sample.tx_opened_past_end in
  let entry (r a : PyFloat.float) :=
    {| violation_iop.idx := Some 9%Z; violation_iop.residual := r;
       violation_iop.opening := Some (commitment.open_map [("a", Some a)] "00");
       violation_iop.source := "" |} in
  violation_iop.validate_transcript_digest (H := sample.platform)
    (reading.with_content t []
       [sample.entry_null (Some 0%Z); entry (PyFloat.of_Z 7) (PyFloat.of_Z 3)] []) = true /\
  violation_iop.validate_transcript_digest (H := sample.platform)
    (reading.with_content t []
       [sample.entry_null (Some 0%Z); entry (PyFloat.of_Z 8) (PyFloat.of_Z 3)] []) = false /\
  violation_iop.validate_transcript_digest (H := sample.platform)
    (reading.with_content t []
       [sample.entry_null (Some 0%Z); entry (PyFloat.of_Z 7) (PyFloat.of_Z 4)] []) = false /\
  violation_iop.validate_transcript_digest (H := sample.platform)
    (reading.with_content t [("WITNESS", "00")]
       [sample.entry_null (Some 0%Z); entry (PyFloat.of_Z 7) (PyFloat.of_Z 3)] []) = false.
Proof. vm_compute. repeat split. Qed.

(** The hypothesis of C4 on the sample platform, and the theorem at the
    transcript whose [meta] holds a list: the same items as a tuple show
    the same content, so the replacement validates. *)
Lemma transcript_digest_tamper_witness :
  (forall x, canon.atom_ok (@float_repr sample.platform x) = true) /\
  shown.content (H := sample.platform) [] [] sample.meta_note_tuple
  = shown.content (H := sample.platform) [] [] (violation_iop.meta sample.tx_note) /\
  violation_iop.validate_transcript_digest (H := sample.platform)
    (reading.with_content sample.tx_note [] [] sample.meta_note_tuple) = true.
Proof.
  assert (Hshown : shown.content (H := sample.platform) [] [] sample.meta_note_tuple
                   = shown.content (H := sample.platform) [] []
                       (violation_iop.meta sample.tx_note)) by reflexivity.
  split; [exact sample_repr_atom|]. split; [exact Hshown|].
  exact (proj2 (proj2 (transcript_digest_tamper_evidence (P := sample.platform) [] []
                         (Some [("note", json.OList [json.OInt 1])]) sample_repr_atom))
               [] [] sample.meta_note_tuple Hshown).
Defined.

(** ** C5 *)

(** The list [entries] the demo call leaves behind. *)
Example demo_entries_at_exit :
  prover.entries_at_exit
    (prover.make_proof (H := sample.platform) None sample.demo_r1cs sample.witness_good
       [0%Z; 1%Z] sample.counting_rng)
  = [ {| violation_iop.idx := Some 0%Z;
         violation_iop.residual := PyFloat.zero;
         violation_iop.opening := None;
         violation_iop.source := "c <== a * b;" |};
      {| violation_iop.idx := Some 1%Z;
         violation_iop.residual := PyFloat.of_Z 7;
         violation_iop.opening :=
           Some (commitment.open_map
                   [ ("a", Some (PyFloat.of_Z 3)); ("b", Some (PyFloat.of_Z 4));
                     ("ONE", Some PyFloat.one); ("d", None) ]
                   (fst (secrets.token_hex sample.counting_rng)));
         violation_iop.source := "d <== a + b;" |} ].
Proof. vm_compute. reflexivity. Qed.

(** The hypotheses of C5 at index 1 of the demo, whose residual is 7. *)
Lemma make_proof_entry_witness :
  In 1%Z [0%Z; 1%Z] /\
  (0 <= 1 < Z.of_nat (List.length (r1cs_utils.constraints sample.demo_r1cs)))%Z /\
  prover.witness_after
    (prover.make_proof (H := sample.platform) None sample.demo_r1cs sample.witness_good
       [0%Z; 1%Z] sample.counting_rng)
  = prover._ensure_one sample.witness_good.
Proof.
  assert (Hin : In 1%Z [0%Z; 1%Z]) by (right; left; reflexivity).
  assert (Hr : (0 <= 1 < Z.of_nat (List.length (r1cs_utils.constraints sample.demo_r1cs)))%Z)
    by (cbn; lia).
  split; [exact Hin|]. split; [exact Hr|].
  exact (proj1 (make_proof_entry_for_index (P := sample.platform) None sample.demo_r1cs
                  sample.witness_good [0%Z; 1%Z] sample.counting_rng 1%Z Hin Hr)).
Defined.

(** ** C6 *)

(** C6 as stated fails: an entry with a null opening and an index past
    the end passes, and the transcript is accepted. *)
Lemma null_opening_past_the_end_passes :
  violation_iop.validate_transcript_digest (H := sample.platform) sample.tx_null_past_end = true /\
  reading.out_of_range (r1cs_utils.constraints sample.demo_r1cs) (Some 5%Z) = true /\
  verifier.verify (H := sample.platform) sample.demo_r1cs sample.tx_null_past_end
  = (true,
     {| verifier.digest_ok := true;
        verifier.commit_checks := [];
        verifier.residual_checks :=
          [ {| verifier.idx := Some 5%Z; verifier.source := "";
               verifier.opening_ok := None; verifier.residual_ok := Some true;
               verifier.computed_residual := None |} ] |}).
Proof. vm_compute. repeat split. Qed.

(** The hypotheses of C6 at candidate index 7 of the demo and at a
    transcript whose second entry opens index 9. *)
Lemma out_of_range_index_witness :
  ((7 < 0 \/ Z.of_nat (List.length (r1cs_utils.constraints sample.demo_r1cs)) <= 7)%Z /\
   prover.build_entries (snd (fst (fst sample.scenario_A_session)))
     (r1cs_utils.constraints sample.demo_r1cs) sample.witness_good [0%Z; 7%Z; 1%Z]
   = prover.build_entries (snd (fst (fst sample.scenario_A_session)))
       (r1cs_utils.constraints sample.demo_r1cs) sample.witness_good [0%Z; 1%Z])
  /\
  (violation_iop.validate_transcript_digest (H := sample.platform)
     sample.tx_opened_past_end = true /\
   fst (verifier.verify (H := sample.platform) sample.demo_r1cs sample.tx_opened_past_end)
   = false).
Proof.
  assert (Hidx : (7 < 0 \/ Z.of_nat (List.length (r1cs_utils.constraints sample.demo_r1cs)) <= 7)%Z)
    by (right; cbn; lia).
  assert (V : violation_iop.validate_transcript_digest (H := sample.platform)
                sample.tx_opened_past_end = true) by (vm_compute; reflexivity).
  pose proof (out_of_range_index_handling (P := sample.platform)
                (snd (fst (fst sample.scenario_A_session)))
                (r1cs_utils.constraints sample.demo_r1cs) sample.witness_good
                [0%Z] [1%Z] 7%Z sample.demo_r1cs sample.tx_opened_past_end) as [Hp Hv].
  split.
  - split; [exact Hidx|]. exact (proj2 (Hp Hidx)).
  - split; [exact V|]. apply (proj2 (Hv V)).
    exists sample.entry_opened_past_end, (commitment.open_map [("a", Some (PyFloat.of_Z 3))] "00").
    split; [right; left; reflexivity|]. split; reflexivity.
Defined.

(** ** C7 *)


(** One unit in the last place above 1e-12 the residual is rejected. *)
Example just_above_tolerance_is_rejected :
  let x := S754_finite false 4951760157141522 (-92) in
  let w := [("ONE"%string, PyFloat.one); ("a"%string, x)] in
  r1cs_utils.eval_constraint sample.c_tiny w = x /\
  PyFloat.leb (PyFloat.abs x) PyFloat.lit_1e_12 = false /\
  PyFloat.isclose_tol (r1cs_utils.eval_constraint sample.c_tiny w) PyFloat.zero = false.
Proof. vm_compute. repeat split. Qed.


(** ** C8 *)

(** The hypotheses of C8 at the addition constraint and its reordering. *)
Lemma fingerprint_order_witness :
  Permutation (r1cs_utils.A sample.c_add) (r1cs_utils.A sample.c_add_reordered) /\
  r1cs_utils.A sample.c_add <> r1cs_utils.A sample.c_add_reordered /\
  fingerprint.fingerprint_constraint (H := sample.platform) sample.c_add
    fingerprint.default_truncate
  = fingerprint.fingerprint_constraint (H := sample.platform) sample.c_add_reordered
      fingerprint.default_truncate.
Proof.
  assert (Pa : Permutation (r1cs_utils.A sample.c_add) (r1cs_utils.A sample.c_add_reordered))
    by apply perm_swap.
  split; [exact Pa|]. split; [intros E; discriminate E|].
  apply (fingerprint_order_invariant (P := sample.platform)); try exact Pa;
    try apply Permutation_refl; try reflexivity.
  - cbn. constructor; [intros [E|[]]; discriminate E|]. constructor; [intros []|constructor].
  - cbn. constructor; [intros []|constructor].
  - cbn. constructor; [intros []|constructor].
Defined.

(** ** C9 *)

(** C9 as stated fails: of three equal constraints only index 0 is kept,
    so for [i = 1 < j = 2] index [i] is missing; and with [top_k = 1] the
    first occurrence [i = 0] of a constraint repeated at [j = 2] is cut
    off by a higher score. *)
Lemma later_duplicate_is_not_the_first :
  (nth_error [sample.c_mul; sample.c_mul; sample.c_mul] 1 = Some sample.c_mul /\
   nth_error [sample.c_mul; sample.c_mul; sample.c_mul] 2 = Some sample.c_mul /\
   map slicer.idx
     (slicer.slice_r1cs (H := sample.platform)
        (sample.r1cs_of [sample.c_mul; sample.c_mul; sample.c_mul])
        slicer.default_top_k true)
   = [0%nat])
  /\
  (nth_error [sample.c_mul; sample.c_add; sample.c_mul] 0 = Some sample.c_mul /\
   nth_error [sample.c_mul; sample.c_add; sample.c_mul] 2 = Some sample.c_mul /\
   map slicer.idx
     (slicer.slice_r1cs (H := sample.platform)
        (sample.r1cs_of [sample.c_mul; sample.c_add; sample.c_mul]) 1 true)
   = [1%nat]).
Proof. vm_compute. repeat split. Qed.

(** The hypotheses of C9 at the addition constraint at index 0 and its
    reordering at index 2. *)
Lemma slice_dedup_witness :
  let idxs :=
    map slicer.idx
      (slicer.slice_r1cs (H := sample.platform)
         (sample.r1cs_of [sample.c_add; sample.c_mul; sample.c_add_reordered])
         slicer.default_top_k true) in
  ~ In 2%nat idxs /\ In 0%nat idxs.
Proof.
  assert (N2 : NoDup (Py.keys (r1cs_utils.A sample.c_add))).
  { cbn. constructor; [intros [E|[]]; discriminate E|].
    constructor; [intros []|constructor]. }
  assert (NB : NoDup (Py.keys (r1cs_utils.B sample.c_add))).
  { cbn. constructor; [intros []|constructor]. }
  assert (NC : NoDup (Py.keys (r1cs_utils.C sample.c_add))).
  { cbn. constructor; [intros []|constructor]. }
  pose proof (slice_dedup_first_occurrence (P := sample.platform)
                (sample.r1cs_of [sample.c_add; sample.c_mul; sample.c_add_reordered])
                slicer.default_top_k 0 2 sample.c_add sample.c_add_reordered
                eq_refl eq_refl (Nat.lt_0_succ 1) N2 NB NC
                (perm_swap _ _ _) (Permutation_refl _) (Permutation_refl _) eq_refl) as H.
  cbv zeta in *. destruct H as [Hj Hi]. split; [exact Hj|].
  apply Hi.
  - intros k ck L. inversion L.
  - cbn. unfold slicer.default_top_k. lia.
Defined.

(** ** C10 *)

(** The hypotheses of C10 at a transcript of three null-opening entries
    with indices 5, -3 and none, against the two-constraint demo. *)
Lemma null_opening_witness :
  violation_iop.validate_transcript_digest (H := sample.platform) sample.tx_null_only = true /\
  fst (verifier.verify (H := sample.platform) sample.demo_r1cs sample.tx_null_only) = true.
Proof.
  assert (V : violation_iop.validate_transcript_digest (H := sample.platform)
                sample.tx_null_only = true) by (vm_compute; reflexivity).
  split; [exact V|].
  apply (proj2 (null_opening_skips_bounds_check (P := sample.platform)
                  sample.demo_r1cs sample.tx_null_only V)).
  intros e He. cbn in He.
  destruct He as [<-|[<-|[<-|[]]]]; split; reflexivity.
Defined.

(* ================================================================== *)
(** * Further properties of the code *)

Section Further.
Context {P : Platform}.

(** ** The prover's session *)

(** X1.  [_ensure_one] leaves every binding of the witness as it is, a
    [ONE] that is not 1 included; it adds [ONE = 1.0] only when [ONE] is
    missing, and a second call changes nothing. *)
Theorem ensure_one_keeps_bindings (w : Py.dict PyFloat.float) (k : string) :
  Py.get (prover._ensure_one w) k
  = (if String.eqb k "ONE"
     then Some (match Py.get w "ONE" with Some v => v | None => PyFloat.one end)
     else Py.get w k)
  /\ prover._ensure_one (prover._ensure_one w) = prover._ensure_one w.
Proof.
  split.
  - unfold prover._ensure_one, Py.contains.
    destruct (String.eqb_spec k "ONE") as [->|Hne].
    + destruct (Py.get w "ONE") eqn:E; [exact E|apply get_set_same].
    + destruct (Py.get w "ONE"); [reflexivity|].
      apply get_set_other. congruence.
  - unfold prover._ensure_one at 1.
    replace (Py.contains (prover._ensure_one w) "ONE") with true; [reflexivity|].
    symmetry. unfold prover._ensure_one, Py.contains.
    destruct (Py.get w "ONE") eqn:E; [now rewrite E|now rewrite get_set_same].
Qed.

Lemma keys_set_nodup {V : Type} (d : Py.dict V) (k : string) (v : V) :
  NoDup (Py.keys d) -> NoDup (Py.keys (Py.set d k v)).
Proof.
  induction d as [|[k0 v0] d IH]; cbn; intros Hnd.
  - constructor; [intros []|constructor].
  - inversion Hnd as [|? ? Hk0 Hd]; subst.
    destruct (String.eqb_spec k0 k) as [->|Hne]; cbn.
    + constructor; assumption.
    + constructor; [|apply IH, Hd].
      fold (Py.keys (Py.set d k v)). rewrite keys_set. intros [H|H]; [auto|congruence].
Qed.

Lemma ensure_one_nodup (w : Py.dict PyFloat.float) :
  NoDup (Py.keys w) -> NoDup (Py.keys (prover._ensure_one w)).
Proof.
  intros H. unfold prover._ensure_one.
  destruct (Py.contains w "ONE"); [exact H|now apply keys_set_nodup].
Qed.

Lemma get_in {V : Type} (d : Py.dict V) (k : string) (v : V) :
  Py.get d k = Some v -> In (k, v) d.
Proof.
  induction d as [|[k0 v0] d IH]; cbn; [discriminate|].
  destruct (String.eqb_spec k0 k) as [->|Hne]; intros H.
  - left. congruence.
  - right. auto.
Qed.

Lemma in_get {V : Type} (d : Py.dict V) (k : string) (v : V) :
  NoDup (Py.keys d) -> In (k, v) d -> Py.get d k = Some v.
Proof.
  induction d as [|[k0 v0] d IH]; cbn; intros Hnd Hin; [contradiction|].
  inversion Hnd as [|? ? Hk0 Hd]; subst.
  destruct Hin as [E|Hin].
  - inversion E; subst. now rewrite String.eqb_refl.
  - destruct (String.eqb_spec k0 k) as [->|Hne]; [|auto].
    exfalso. apply Hk0. change k with (fst (k, v)). now apply in_map.
Qed.

Lemma get_map_values {V W : Type} (f : V -> W) (d : Py.dict V) (k : string) :
  Py.get (map (fun kv : string * V => (fst kv, f (snd kv))) d) k
  = option_map f (Py.get d k).
Proof.
  induction d as [|[k0 v0] d IH]; cbn; [reflexivity|].
  destruct (String.eqb k0 k); [reflexivity|exact IH].
Qed.

Lemma keys_map_values {V W : Type} (f : V -> W) (d : Py.dict V) :
  Py.keys (map (fun kv : string * V => (fst kv, f (snd kv))) d) = Py.keys d.
Proof. unfold Py.keys. rewrite map_map. reflexivity. Qed.

Lemma get_update_same {V : Type} (e d : Py.dict V) (k : string) (v : V) :
  NoDup (Py.keys e) -> Py.get e k = Some v -> Py.get (Py.update d e) k = Some v.
Proof.
  unfold Py.update. revert d.
  induction e as [|[k0 v0] e IH]; intros d Hnd Hg; cbn in *; [discriminate|].
  inversion Hnd as [|? ? Hk0 He]; subst.
  destruct (String.eqb_spec k0 k) as [->|Hne].
  - inversion Hg; subst.
    fold (Py.update (Py.set d k v) e). rewrite get_update_other by exact Hk0.
    apply get_set_same.
  - now apply IH.
Qed.

Lemma commit_vars_from_rng (items : list (string * PyFloat.float))
  (acc : Py.dict (string * string)) (g : secrets.rng) :
  snd (facts.commit_vars_from items acc g)
  = {| secrets.draws := secrets.draws g;
       secrets.pos := secrets.pos g + List.length items |}.
Proof.
  unfold facts.commit_vars_from. revert acc g.
  induction items as [|[k v] items IH]; intros acc g; cbn [fold_left List.length].
  - cbn. rewrite Nat.add_0_r. now destruct g.
  - unfold commitment.commit_map at 2. cbn [secrets.token_hex fst snd].
    rewrite IH. cbn. f_equal. lia.
Qed.

Lemma commit_vars_from_other (items : list (string * PyFloat.float))
  (acc : Py.dict (string * string)) (g : secrets.rng) (k : string) :
  ~ In k (Py.keys items) ->
  Py.get (fst (facts.commit_vars_from items acc g)) k = Py.get acc k.
Proof.
  unfold facts.commit_vars_from. revert acc g.
  induction items as [|[k0 v0] items IH]; intros acc g Hk; cbn [fold_left].
  - reflexivity.
  - unfold commitment.commit_map at 2. cbn [secrets.token_hex fst snd].
    cbn in Hk. rewrite IH by tauto. apply get_set_other. intros ->. tauto.
Qed.

Lemma commit_vars_from_nodup (items : list (string * PyFloat.float))
  (acc : Py.dict (string * string)) (g : secrets.rng) :
  NoDup (Py.keys acc) -> NoDup (Py.keys (fst (facts.commit_vars_from items acc g))).
Proof.
  unfold facts.commit_vars_from. revert acc g.
  induction items as [|[k0 v0] items IH]; intros acc g Hnd; cbn [fold_left].
  - exact Hnd.
  - unfold commitment.commit_map at 2. cbn [secrets.token_hex fst snd].
    apply IH. now apply keys_set_nodup.
Qed.

Lemma commit_vars_from_item (items : list (string * PyFloat.float))
  (acc : Py.dict (string * string)) (g : secrets.rng) (k : string) (v : PyFloat.float) :
  NoDup (Py.keys items) -> In (k, v) items ->
  exists n, Py.get (fst (facts.commit_vars_from items acc g)) k
            = Some (facts.digest_of [(k, Some v)] n, n).
Proof.
  unfold facts.commit_vars_from. revert acc g.
  induction items as [|[k0 v0] items IH]; intros acc g Hnd Hin; [contradiction|].
  cbn [fold_left]. unfold commitment.commit_map at 2. cbn [secrets.token_hex fst snd].
  inversion Hnd as [|? ? Hk0 Hitems]; subst.
  destruct Hin as [E|Hin].
  - inversion E; subst. exists (secrets.draws g (secrets.pos g)).
    fold (facts.commit_vars_from items
            (Py.set acc k (hashlib.sha256_hexdigest
               (commitment._canonical_serialize_map [(k, Some v)] ++ "|"
                ++ secrets.draws g (secrets.pos g)), secrets.draws g (secrets.pos g)))
            {| secrets.draws := secrets.draws g; secrets.pos := S (secrets.pos g) |}).
    rewrite commit_vars_from_other by exact Hk0.
    rewrite get_set_same. reflexivity.
  - now apply IH.
Qed.

(** X2.  After [commit_witness], every variable of the witness has a
    commitment in the returned map and an opening on the instance, and the
    opening verifies against the commitment; this holds also for a
    variable named WITNESS, whose commitment then takes the place of the
    whole-witness one under that label. *)
Theorem per_variable_openings_verify (self : prover.Prover)
  (witness : Py.dict PyFloat.float) (g : secrets.rng) (v : string) (val : PyFloat.float) :
  NoDup (Py.keys witness) ->
  Py.get (prover._ensure_one witness) v = Some val ->
  let '(commits, sess, _, _) := prover.commit_witness self witness g in
  exists c n,
    Py.get commits v = Some c /\
    Py.get (prover._per_var_openings sess) v
    = Some {| commitment.mapping := Some [(v, Some val)]; commitment.nonce := Some n |} /\
    commitment.verify_commit c
      {| commitment.mapping := Some [(v, Some val)]; commitment.nonce := Some n |} = true.
Proof.
  intros Hnd Hv.
  unfold prover.commit_witness, commitment.commit_map at 1.
  cbn [secrets.token_hex fst snd].
  set (w := prover._ensure_one witness) in *.
  set (g1 := {| secrets.draws := secrets.draws g; secrets.pos := S (secrets.pos g) |}).
  change (prover.commit_vars (Py.sorted_by_key w) g1)
    with (facts.commit_vars_from (Py.sorted_by_key w) [] g1).
  assert (Hw : NoDup (Py.keys w)) by now apply ensure_one_nodup.
  assert (Hs : NoDup (Py.keys (Py.sorted_by_key w))).
  { eapply Permutation_NoDup; [|exact Hw]. apply Permutation_map, sorted_by_key_perm. }
  assert (Hin : In (v, val) (Py.sorted_by_key w)).
  { eapply Permutation_in; [apply sorted_by_key_perm|]. now apply get_in. }
  destruct (commit_vars_from_item (Py.sorted_by_key w) [] g1 v val Hs Hin) as [n Hn].
  pose proof (commit_vars_from_nodup (Py.sorted_by_key w) [] g1 (NoDup_nil _)) as Hpv.
  destruct (facts.commit_vars_from (Py.sorted_by_key w) [] g1) as [per_var g2].
  cbn [fst] in Hn, Hpv.
  exists (facts.digest_of [(v, Some val)] n), n.
  split; [|split].
  - apply get_update_same.
    + rewrite (keys_map_values (fun cn : string * string => fst cn)). exact Hpv.
    + rewrite (get_map_values (fun cn : string * string => fst cn)), Hn. reflexivity.
  - cbn [prover._per_var_openings].
    assert (G : forall l : Py.dict (string * string),
               Py.get l v = Some (facts.digest_of [(v, Some val)] n, n) ->
               Py.get (map (fun vcn : string * (string * string) =>
                              (fst vcn,
                               {| commitment.mapping := Some [(fst vcn, Py.get w (fst vcn))];
                                  commitment.nonce := Some (snd (snd vcn)) |})) l) v
               = Some {| commitment.mapping := Some [(v, Some val)];
                         commitment.nonce := Some n |}).
    { induction l as [|[k0 cn0] l IH]; cbn; [discriminate|].
      destruct (String.eqb_spec k0 v) as [->|Hne]; intros H.
      - inversion H; subst. cbn. now rewrite Hv.
      - auto. }
    apply G, Hn.
  - unfold commitment.verify_commit, facts.digest_of. cbn. apply String.eqb_refl.
Qed.

Lemma draws_after_commit_witness (self : prover.Prover)
  (witness : Py.dict PyFloat.float) (g : secrets.rng) :
  let '(_, _, w', g') := prover.commit_witness self witness g in
  w' = prover._ensure_one witness /\
  g' = {| secrets.draws := secrets.draws g;
          secrets.pos := secrets.pos g + 1 + List.length (prover._ensure_one witness) |}.
Proof.
  unfold prover.commit_witness, commitment.commit_map at 1.
  cbn [secrets.token_hex fst snd].
  set (w := prover._ensure_one witness).
  set (g1 := {| secrets.draws := secrets.draws g; secrets.pos := S (secrets.pos g) |}).
  change (prover.commit_vars (Py.sorted_by_key w) g1)
    with (facts.commit_vars_from (Py.sorted_by_key w) [] g1).
  pose proof (commit_vars_from_rng (Py.sorted_by_key w) [] g1) as Hg.
  destruct (facts.commit_vars_from (Py.sorted_by_key w) [] g1) as [per_var g2].
  cbn [snd] in Hg. split; [reflexivity|].
  rewrite Hg. cbn. f_equal.
  rewrite <- (Permutation_length (sorted_by_key_perm w)). lia.
Qed.

(** X3.  [commit_witness] draws one token for the whole-witness commitment
    and one for each variable of the witness (ONE included), and nothing
    else from the entropy source. *)
Theorem commit_witness_draws_one_token_per_commitment (self : prover.Prover)
  (witness : Py.dict PyFloat.float) (g : secrets.rng) :
  let '(_, _, w', g') := prover.commit_witness self witness g in
  w' = prover._ensure_one witness /\
  g' = {| secrets.draws := secrets.draws g;
          secrets.pos := secrets.pos g + 1 + List.length (prover._ensure_one witness) |}.
Proof. exact (draws_after_commit_witness self witness g). Qed.

(** X4.  [make_proof] ends in [NameError] on every input: the name
    [witness_commitments] it hands to [make_transcript] is never bound.
    By then the witness has its ONE, the instance holds the session of
    [commit_witness], and the tokens of that commitment are drawn. *)
Theorem make_proof_raises_on_every_input (self : prover.Prover) (r1cs : r1cs_utils.R1CS)
  (witness : Py.dict PyFloat.float) (cands : list Z) (g : secrets.rng) :
  let out := prover.make_proof self r1cs witness cands g in
  prover.returned out = Py.Raise (Py.NameError "witness_commitments") /\
  prover.witness_after out = prover._ensure_one witness /\
  (exists sess, prover.self_after out = Some sess /\
                prover._full_opening_nonce sess = secrets.draws g (secrets.pos g)) /\
  prover.rng_after out
  = {| secrets.draws := secrets.draws g;
       secrets.pos := secrets.pos g + 1 + List.length (prover._ensure_one witness) |}.
Proof.
  cbv zeta. rewrite make_proof_unfold. cbv zeta.
  pose proof (commit_witness_spec self (prover._ensure_one witness) g) as Hs.
  pose proof (draws_after_commit_witness self
                (prover._ensure_one witness) g) as Hd.
  destruct (prover.commit_witness self (prover._ensure_one witness) g)
    as [[[commits sess] w'] g'].
  cbv zeta in Hs. destruct Hs as (Hw & Hn & _). destruct Hd as [_ Hg].
  rewrite ensure_one_idempotent in Hw, Hg.
  cbn [prover.returned prover.witness_after prover.self_after prover.rng_after fst snd].
  split; [reflexivity|]. split; [exact Hw|]. split; [|exact Hg].
  exists sess. split; [reflexivity|exact Hn].
Qed.

(** ** The evaluators *)

Lemma eval_linear_form_agree (l : r1cs_utils.linear_form) (w w' : Py.dict PyFloat.float) :
  (forall v, In v (Py.keys l) ->
             Py.get_default w v PyFloat.zero = Py.get_default w' v PyFloat.zero) ->
  r1cs_utils.eval_linear_form l w = r1cs_utils.eval_linear_form l w'.
Proof.
  unfold r1cs_utils.eval_linear_form. intros H.
  enough (G : forall acc,
    fold_left (fun s kv => PyFloat.add s (PyFloat.mul (snd kv)
                 (Py.get_default w (fst kv) PyFloat.zero))) l acc
    = fold_left (fun s kv => PyFloat.add s (PyFloat.mul (snd kv)
                 (Py.get_default w' (fst kv) PyFloat.zero))) l acc) by apply G.
  induction l as [|[k x] l IH]; intros acc; cbn [fold_left fst snd].
  - reflexivity.
  - rewrite (H k) by (now left). apply IH. intros v Hv. apply H. now right.
Qed.

(** X5.  [eval_constraint] reads the assignment only at the variables of
    the constraint, and a missing variable reads as 0.0: two assignments
    that agree there (a missing binding counting as 0.0) give the same
    residual. *)
Theorem eval_constraint_reads_only_its_variables
  (c : r1cs_utils.constraint) (w w' : Py.dict PyFloat.float) :
  (forall v, reading.mentions c v ->
             Py.get_default w v PyFloat.zero = Py.get_default w' v PyFloat.zero) ->
  r1cs_utils.eval_constraint c w = r1cs_utils.eval_constraint c w'.
Proof.
  intros H. unfold r1cs_utils.eval_constraint, reading.mentions in *.
  rewrite (eval_linear_form_agree (r1cs_utils.A c) w w') by (intros v Hv; apply H; tauto).
  rewrite (eval_linear_form_agree (r1cs_utils.B c) w w') by (intros v Hv; apply H; tauto).
  rewrite (eval_linear_form_agree (r1cs_utils.C c) w w') by (intros v Hv; apply H; tauto).
  reflexivity.
Qed.

Lemma eval_linear_of_disclosure (l : r1cs_utils.linear_form) (w : Py.dict PyFloat.float)
  (m : commitment.var_map) :
  (forall v, In v (Py.keys l) -> Py.get m v = Some (Py.get w v)) ->
  verifier.eval_linear l m = r1cs_utils.eval_linear_form l w.
Proof.
  unfold verifier.eval_linear, r1cs_utils.eval_linear_form. intros H.
  enough (G : forall acc,
    fold_left (fun s kv =>
                 let val := match Py.get m (fst kv) with
                            | Some (Some v) => v
                            | _ => PyFloat.zero
                            end in
                 PyFloat.add s (PyFloat.mul (snd kv) val)) l acc
    = fold_left (fun s kv => PyFloat.add s (PyFloat.mul (snd kv)
                 (Py.get_default w (fst kv) PyFloat.zero))) l acc) by apply G.
  induction l as [|[k x] l IH]; intros acc; cbn [fold_left fst snd].
  - reflexivity.
  - rewrite (H k) by (now left).
    assert (H' : forall v, In v (Py.keys l) -> Py.get m v = Some (Py.get w v))
      by (intros v Hv; apply H; now right).
    specialize (IH H'). unfold Py.get_default in *.
    destruct (Py.get w k); apply IH.
Qed.

Lemma recomputed_of_disclosure (c : r1cs_utils.constraint) (w : Py.dict PyFloat.float) :
  reading.recomputed c (map (fun v => (v, Py.get w v)) (r1cs_utils.constraint_support c))
  = r1cs_utils.eval_constraint c w.
Proof.
  unfold reading.recomputed, r1cs_utils.eval_constraint.
  rewrite !(eval_linear_of_disclosure _ w); [reflexivity| | |];
    intros v Hv; apply get_tabulate, constraint_support_in; unfold reading.mentions; tauto.
Qed.

Lemma float_eqb_refl (x : PyFloat.float) :
  facts.is_nan x = false -> PyFloat.eqb x x = true.
Proof.
  unfold PyFloat.eqb, SFeqb. destruct x as [s|s| |s m e]; cbn; try discriminate; intros _.
  - reflexivity.
  - now destruct s.
  - rewrite Z.compare_refl.
    assert (E : Pos.compare_cont Eq m m = Eq) by apply Pos.compare_refl.
    destruct s; cbn; now rewrite E.
Qed.

(** X6.  The verifier recomputes from the prover's disclosure the residual
    the prover computed: in a valid transcript whose entries are those of
    the prover's loop, every entry gets [residual_ok = true], unless a
    residual is NaN. *)
Theorem honest_entries_pass_the_residual_check (r1cs : r1cs_utils.R1CS)
  (sess : prover.session) (w : Py.dict PyFloat.float) (cands : list Z)
  (t : violation_iop.transcript) :
  violation_iop.validate_transcript_digest t = true ->
  violation_iop.violations t
  = prover.build_entries sess (r1cs_utils.constraints r1cs) w cands ->
  (forall c, In c (r1cs_utils.constraints r1cs) ->
             facts.is_nan (r1cs_utils.eval_constraint c w) = false) ->
  forall r, In r (verifier.residual_checks (snd (verifier.verify r1cs t))) ->
            verifier.residual_ok r = Some true.
Proof.
  intros Hv Hes Hnan r Hr.
  rewrite (verify_unfold r1cs t Hv) in Hr. cbn [snd verifier.residual_checks] in Hr.
  apply in_map_iff in Hr. destruct Hr as (e & <- & He).
  rewrite Hes, build_entries_flat_map in He.
  apply in_flat_map in He. destruct He as (idx & _ & He).
  set (cs := r1cs_utils.constraints r1cs) in *.
  destruct (Z_lt_ge_dec idx 0) as [Hneg|Hpos];
    [rewrite entries_for_out_of_range in He by (left; lia); contradiction|].
  destruct (Z_lt_ge_dec idx (Z.of_nat (List.length cs))) as [Hlt|Hge];
    [|rewrite entries_for_out_of_range in He by (right; lia); contradiction].
  assert (Hrange : (0 <= idx < Z.of_nat (List.length cs))%Z) by lia.
  destruct (nth_error cs (Z.to_nat idx)) as [c|] eqn:Hc;
    [|apply nth_error_None in Hc; lia].
  rewrite (entries_for_in_range sess cs w idx c Hrange Hc) in He.
  destruct (PyFloat.isclose_tol (r1cs_utils.eval_constraint c w) PyFloat.zero) eqn:Ez;
    destruct He as [<-|[]].
  - rewrite report_for_null_opening by reflexivity. reflexivity.
  - erewrite report_for_in_range; [|reflexivity|reflexivity|exact Hrange|exact Hc].
    cbn [verifier.residual_ok commitment.open_map commitment.mapping violation_iop.residual].
    rewrite recomputed_of_disclosure. f_equal.
    apply isclose_of_equal, float_eqb_refl, Hnan.
    eapply nth_error_In; exact Hc.
Qed.

(** ** Canonical serialization *)

Lemma dumps_dict_order_blind (d d' : list (string * json.pyobj)) :
  NoDup (Py.keys d) -> Permutation d d' ->
  json.dumps (json.ODict d) = json.dumps (json.ODict d').
Proof.
  intros Hnd Hp. cbn [json.dumps].
  rewrite (sorted_by_key_order_blind
             (map (fun kv : string * json.pyobj => (fst kv, json.dumps (snd kv))) d)
             (map (fun kv : string * json.pyobj => (fst kv, json.dumps (snd kv))) d')).
  - reflexivity.
  - rewrite map_map. exact Hnd.
  - now apply Permutation_map.
Qed.

Lemma serialize_map_order_blind (m m' : commitment.var_map) :
  NoDup (Py.keys m) -> Permutation m m' ->
  commitment._canonical_serialize_map m = commitment._canonical_serialize_map m'.
Proof.
  intros Hnd Hp. unfold commitment._canonical_serialize_map, commitment.map_obj.
  apply dumps_dict_order_blind.
  - unfold Py.keys. rewrite map_map. exact Hnd.
  - now apply Permutation_map.
Qed.

(** X7.  The canonical serialization of a mapping does not depend on the
    insertion order of its keys: with the same nonce two orderings of one
    mapping commit to the same digest, and an opening verifies whatever
    order its mapping lists the variables in. *)
Theorem commitment_blind_to_insertion_order (m m' : commitment.var_map)
  (g : secrets.rng) (c n : string) :
  NoDup (Py.keys m) -> Permutation m m' ->
  commitment.commit_map m g = commitment.commit_map m' g /\
  commitment.verify_commit c {| commitment.mapping := Some m; commitment.nonce := Some n |}
  = commitment.verify_commit c {| commitment.mapping := Some m'; commitment.nonce := Some n |}.
Proof.
  intros Hnd Hp. unfold commitment.commit_map, commitment.verify_commit.
  cbn [commitment.mapping commitment.nonce].
  rewrite (serialize_map_order_blind m m' Hnd Hp). split; reflexivity.
Qed.

Lemma disclosure_of_all_variables (w : Py.dict PyFloat.float) (supp : list string) :
  NoDup (Py.keys w) -> NoDup supp ->
  (forall v, In v supp <-> In v (Py.keys w)) ->
  Permutation (commitment.of_witness w) (map (fun v => (v, Py.get w v)) supp).
Proof.
  intros Hw Hs Hiff. apply NoDup_Permutation.
  - unfold commitment.of_witness.
    apply (NoDup_map_inv fst). rewrite map_map. exact Hw.
  - apply (NoDup_map_inv fst). rewrite map_map. cbn. now rewrite map_id.
  - intros [v ov]. unfold commitment.of_witness. rewrite !in_map_iff. split.
    + intros ([k x] & E & Hin). inversion E; subst. exists v. cbn. split.
      * f_equal. now apply in_get.
      * apply Hiff. change v with (fst (v, x)). now apply in_map.
    + intros (k & E & Hin). inversion E; subst.
      apply Hiff in Hin. destruct (Py.get w v) as [x|] eqn:Eg.
      * exists (v, x). split; [reflexivity|]. now apply get_in.
      * apply get_none_iff in Eg. contradiction.
Qed.

(** X8.  When a violated constraint mentions exactly the variables of the
    witness, the opening the prover builds for it (the disclosed values
    with the whole-witness nonce) verifies against the whole-witness
    commitment. *)
Theorem opening_over_all_variables_verifies (self : prover.Prover)
  (witness : Py.dict PyFloat.float) (g : secrets.rng) (c : r1cs_utils.constraint) :
  NoDup (Py.keys witness) ->
  (forall v, reading.mentions c v <-> In v (Py.keys (prover._ensure_one witness))) ->
  let '(_, sess, w', _) := prover.commit_witness self witness g in
  commitment.verify_commit (prover._full_commitment sess)
    (commitment.open_map
       (map (fun v => (v, Py.get w' v)) (r1cs_utils.constraint_support c))
       (prover._full_opening_nonce sess)) = true.
Proof.
  intros Hnd Hiff.
  pose proof (commit_witness_spec self witness g) as Hs. cbv zeta in Hs.
  destruct (prover.commit_witness self witness g) as [[[commits sess] w'] g'].
  destruct Hs as (Hw & Hn & Hf & _). subst w'.
  rewrite Hn, Hf. unfold commitment.verify_commit, commitment.open_map.
  cbn [commitment.mapping commitment.nonce].
  rewrite (serialize_map_order_blind
             (map (fun v => (v, Py.get (prover._ensure_one witness) v))
                  (r1cs_utils.constraint_support c))
             (commitment.of_witness (prover._ensure_one witness))).
  - apply String.eqb_refl.
  - rewrite keys_tabulate. apply constraint_support_nodup.
  - apply Permutation_sym, disclosure_of_all_variables.
    + now apply ensure_one_nodup.
    + apply constraint_support_nodup.
    + intros v. rewrite constraint_support_in. apply Hiff.
Qed.

(** ** The slicer *)

Lemma sorted_snoc (l : list nat) (a : nat) :
  StronglySorted lt l -> (forall y, In y l -> y < a) -> StronglySorted lt (l ++ [a]).
Proof.
  induction 1 as [|x l Hs IH Hx]; intros Ha; cbn.
  - repeat constructor.
  - constructor.
    + apply IH. intros y Hy. apply Ha. now right.
    + apply Forall_app. split; [exact Hx|]. constructor; [|constructor].
      apply Ha. now left.
Qed.

Lemma nodup_snoc {T : Type} (l : list T) (a : T) :
  NoDup l -> ~ In a l -> NoDup (l ++ [a]).
Proof.
  intros Hl Ha. apply (Permutation_NoDup (l := a :: l)).
  - apply Permutation_cons_append.
  - now constructor.
Qed.

Lemma sorted_lt_nodup (l : list nat) : StronglySorted lt l -> NoDup l.
Proof.
  induction 1 as [|x l Hs IH Hx]; constructor; [|exact IH].
  intros Hin. rewrite Forall_forall in Hx. specialize (Hx x Hin). lia.
Qed.

Lemma describes_more (pre more : list r1cs_utils.constraint) (x : slicer.candidate) :
  facts.describes pre x -> facts.describes (pre ++ more) x.
Proof.
  intros (Hn & Hrest). split; [|exact Hrest].
  rewrite nth_error_app1; [exact Hn|]. apply nth_error_Some. congruence.
Qed.

Lemma slice_state_step (d : bool) (pre : list r1cs_utils.constraint)
  (c : r1cs_utils.constraint) (cands : list slicer.candidate) (seen : list string) :
  facts.slice_state d pre cands seen ->
  let '(cands', seen') := slicer.slice_step d (cands, seen) (List.length pre, c) in
  facts.slice_state d (pre ++ [c]) cands' seen'.
Proof.
  intros (I1 & I2 & I3 & I4 & I5).
  unfold slicer.slice_step. fold (reading.fp c).
  destruct (d && Py.mem (reading.fp c) seen) eqn:Eskip.
  - apply andb_true_iff in Eskip. destruct Eskip as [-> Em].
    split; [|split; [|split; [|split]]].
    + intros x Hx. destruct (I1 x Hx). split; [now apply describes_more|assumption].
    + exact I2.
    + intros x Hx. rewrite length_app. specialize (I3 x Hx). lia.
    + exact I4.
    + discriminate.
  - set (new := {| slicer.idx := List.length pre;
                   slicer.score := slicer.score_constraint c;
                   slicer.fingerprint := reading.fp c;
                   slicer.summary := r1cs_utils.constraint_summary c;
                   slicer.constraint := c |}).
    split; [|split; [|split; [|split]]].
    + intros x Hx. apply in_app_iff in Hx. destruct Hx as [Hx|[<-|[]]].
      * destruct (I1 x Hx). split; [now apply describes_more|].
        apply set_add_in. now left.
      * split; [|apply set_add_in; now right].
        split; [|now repeat split]. cbn [slicer.idx slicer.constraint new].
        rewrite nth_error_app2 by lia. now rewrite Nat.sub_diag.
    + rewrite map_app. apply sorted_snoc; [exact I2|].
      intros y Hy. apply in_map_iff in Hy. destruct Hy as (x & <- & Hx). now apply I3.
    + intros x Hx. rewrite length_app. cbn [List.length].
      apply in_app_iff in Hx. destruct Hx as [Hx|[<-|[]]].
      * specialize (I3 x Hx). lia.
      * cbn. lia.
    + intros ->. rewrite map_app. apply nodup_snoc; [now apply I4|].
      cbn [andb] in Eskip. intros Hin. apply in_map_iff in Hin.
      destruct Hin as (x & Ex & Hx). destruct (I1 x Hx) as [_ Hs].
      rewrite Ex in Hs. apply mem_in in Hs. cbn [slicer.fingerprint new] in Hs. congruence.
    + intros ->. rewrite map_app, (I5 eq_refl), length_app. cbn [List.length map].
      now rewrite seq_app.
Qed.

Lemma slice_state_loop (d : bool) (l pre : list r1cs_utils.constraint)
  (cands : list slicer.candidate) (seen : list string) :
  facts.slice_state d pre cands seen ->
  let '(cands', seen') :=
    fold_left (slicer.slice_step d)
              (combine (seq (List.length pre) (List.length l)) l) (cands, seen) in
  facts.slice_state d (pre ++ l) cands' seen'.
Proof.
  revert pre cands seen. induction l as [|c l IH]; intros pre cands seen I.
  - cbn. now rewrite app_nil_r.
  - cbn [List.length seq combine fold_left].
    pose proof (slice_state_step d pre c cands seen I) as Hs.
    destruct (slicer.slice_step d (cands, seen) (List.length pre, c)) as [cands1 seen1].
    specialize (IH (pre ++ [c]) cands1 seen1 Hs).
    rewrite length_app in IH. cbn [List.length] in IH.
    replace (List.length pre + 1)%nat with (S (List.length pre)) in IH by lia.
    rewrite <- app_assoc in IH. exact IH.
Qed.

Lemma slice_state_final (d : bool) (cs : list r1cs_utils.constraint) :
  let '(cands, seen) :=
    fold_left (slicer.slice_step d) (slicer.enumerate cs) ([], []) in
  facts.slice_state d cs cands seen.
Proof.
  assert (I0 : facts.slice_state d [] [] []).
  { split; [|split; [|split; [|split]]]; cbn; try constructor; intros; contradiction. }
  exact (slice_state_loop d cs [] [] [] I0).
Qed.

Lemma nodup_firstn {T : Type} (n : nat) (l : list T) : NoDup l -> NoDup (firstn n l).
Proof.
  revert n. induction l as [|x l IH]; intros [|n] H; cbn; try constructor.
  - inversion H as [|? ? Hx Hl]; subst. intros Hin. apply Hx.
    rewrite <- (firstn_skipn n l). apply in_app_iff. now left.
  - inversion H; subst. now apply IH.
Qed.

Lemma slice_to_prefix {T : Type} (l : list T) (k : Z) :
  exists n, Py.slice_to l k = firstn n l.
Proof. unfold Py.slice_to. destruct (k <? 0)%Z; eauto. Qed.

(** X9.  Whatever [top_k] and [deduplicate] are, every candidate
    [slice_r1cs] returns describes the constraint standing at its index
    (constraint, fingerprint, score and summary are that constraint's), no
    index is returned twice, and the list is no longer than the list of
    constraints nor, for [top_k >= 0], than [top_k]; with
    [deduplicate=True] no two candidates share a fingerprint. *)
Theorem slice_candidates_describe_constraints (r1cs : r1cs_utils.R1CS) (top_k : Z)
  (deduplicate : bool) :
  let cs := r1cs_utils.constraints r1cs in
  let out := slicer.slice_r1cs r1cs top_k deduplicate in
  (forall x, In x out -> facts.describes cs x) /\
  NoDup (map slicer.idx out) /\
  (List.length out <= List.length cs)%nat /\
  ((0 <= top_k)%Z -> (Z.of_nat (List.length out) <= top_k)%Z) /\
  (deduplicate = true -> NoDup (map slicer.fingerprint out)).
Proof.
  cbv zeta. unfold slicer.slice_r1cs.
  pose proof (slice_state_final deduplicate (r1cs_utils.constraints r1cs)) as Hs.
  destruct (fold_left _ _ _) as [cands seen].
  destruct Hs as (I1 & I2 & I3 & I4 & I5).
  pose proof (sort_by_score_perm cands) as Hp.
  destruct (slice_to_prefix (slicer.sort_by_score_desc cands) top_k) as [n En].
  assert (Hidx : NoDup (map slicer.idx cands)) by now apply sorted_lt_nodup.
  split; [|split; [|split; [|split]]].
  - intros x Hx. apply slice_to_subset in Hx.
    apply (Permutation_in _ (Permutation_sym Hp)) in Hx. now apply I1.
  - rewrite En, <- firstn_map. apply nodup_firstn.
    apply (Permutation_NoDup (Permutation_map _ Hp)). exact Hidx.
  - rewrite En, length_firstn, <- (Permutation_length Hp).
    assert (Hl : List.length (map slicer.idx cands) <= List.length (r1cs_utils.constraints r1cs)).
    { pose proof (NoDup_incl_length (l := map slicer.idx cands)
                    (l' := seq 0 (List.length (r1cs_utils.constraints r1cs))) Hidx) as Hl.
      rewrite length_seq in Hl. apply Hl.
      intros i Hi. apply in_map_iff in Hi. destruct Hi as (x & <- & Hx).
      apply in_seq. specialize (I3 x Hx). lia. }
    rewrite length_map in Hl. lia.
  - intros Hk. unfold Py.slice_to.
    destruct (Z.ltb_spec top_k 0) as [Hneg|_]; [lia|].
    rewrite length_firstn. lia.
  - intros Hd. rewrite En, <- firstn_map. apply nodup_firstn.
    apply (Permutation_NoDup (Permutation_map _ Hp)). now apply I4.
Qed.

(** X10.  With [deduplicate=False] and [top_k] at least the number of
    constraints, [slice_r1cs] returns one candidate for every constraint:
    the returned indices are a rearrangement of [0 .. n-1]. *)
Theorem slice_without_dedup_keeps_every_constraint (r1cs : r1cs_utils.R1CS) (top_k : Z) :
  (Z.of_nat (List.length (r1cs_utils.constraints r1cs)) <= top_k)%Z ->
  Permutation (map slicer.idx (slicer.slice_r1cs r1cs top_k false))
              (seq 0 (List.length (r1cs_utils.constraints r1cs))).
Proof.
  intros Hk. unfold slicer.slice_r1cs.
  pose proof (slice_state_final false (r1cs_utils.constraints r1cs)) as Hs.
  destruct (fold_left _ _ _) as [cands seen].
  destruct Hs as (I1 & I2 & I3 & I4 & I5).
  pose proof (sort_by_score_perm cands) as Hp.
  assert (Hlen : List.length cands = List.length (r1cs_utils.constraints r1cs)).
  { rewrite <- (length_map slicer.idx), (I5 eq_refl). apply length_seq. }
  rewrite slice_to_all by (rewrite <- (Permutation_length Hp); lia).
  rewrite <- (I5 eq_refl). apply Permutation_sym, Permutation_map, Hp.
Qed.

(** *** The ranking *)

Lemma float_ltb_asym (x y : PyFloat.float) :
  PyFloat.ltb x y = true -> PyFloat.ltb y x = false.
Proof.
  unfold PyFloat.ltb, SFltb.
  destruct x as [sx|sx| |sx mx ex], y as [sy|sy| |sy my ey]; cbn;
    try destruct sx; try destruct sy; cbn; try congruence.
  all: repeat match goal with
       | |- context [Z.compare ?a ?b] => destruct (Z.compare_spec a b); subst
       | |- context [Pos.compare_cont Eq ?a ?b] =>
           change (Pos.compare_cont Eq a b) with (Pos.compare a b);
           destruct (Pos.compare_spec a b); subst
       end; cbn in *; try congruence; try lia.
Qed.

Lemma float_ltb_neg_trans (x y z : PyFloat.float) :
  facts.is_nan y = false ->
  PyFloat.ltb x y = false -> PyFloat.ltb y z = false -> PyFloat.ltb x z = false.
Proof.
  unfold PyFloat.ltb, SFltb.
  destruct x as [sx|sx| |sx mx ex], y as [sy|sy| |sy my ey], z as [sz|sz| |sz mz ez]; cbn;
    try destruct sx; try destruct sy; try destruct sz; cbn; try congruence.
  all: repeat match goal with
       | |- context [Z.compare ?a ?b] => destruct (Z.compare_spec a b); subst
       | |- context [Pos.compare_cont Eq ?a ?b] =>
           change (Pos.compare_cont Eq a b) with (Pos.compare a b);
           destruct (Pos.compare_spec a b); subst
       end; cbn in *; try congruence; try lia.
Qed.

Lemma insert_by_score_ranked (x : slicer.candidate) (l : list slicer.candidate) :
  StronglySorted facts.before l ->
  (forall z, In z l -> slicer.idx x < slicer.idx z) ->
  (forall z, In z l -> facts.is_nan (slicer.score z) = false) ->
  StronglySorted facts.before (slicer.insert_by_score x l).
Proof.
  induction 1 as [|y rest Hs IH Hy]; intros Hidx Hnan; cbn [slicer.insert_by_score].
  - repeat constructor.
  - rewrite Forall_forall in Hy.
    destruct (PyFloat.ltb (slicer.score x) (slicer.score y)) eqn:Exy.
    + constructor.
      * apply IH; intros z Hz; [apply Hidx|apply Hnan]; now right.
      * apply Forall_forall. intros z Hz.
        apply (Permutation_in _ (Permutation_sym (insert_by_score_perm x rest))) in Hz.
        destruct Hz as [<-|Hz]; [|now apply Hy].
        split; [now apply float_ltb_asym|]. congruence.
    + constructor; [now constructor; [|apply Forall_forall]|].
      apply Forall_forall. intros z Hz. split; [|intros _; now apply Hidx].
      destruct Hz as [<-|Hz]; [exact Exy|].
      apply (float_ltb_neg_trans _ (slicer.score y)); [apply Hnan; now left|exact Exy|].
      apply (Hy z Hz).
Qed.

Lemma sort_by_score_ranked (l : list slicer.candidate) :
  StronglySorted lt (map slicer.idx l) ->
  (forall z, In z l -> facts.is_nan (slicer.score z) = false) ->
  StronglySorted facts.before (slicer.sort_by_score_desc l).
Proof.
  induction l as [|x l IH]; intros Hs Hnan; cbn.
  - constructor.
  - inversion Hs as [|? ? Hs' Hx]; subst.
    fold (slicer.sort_by_score_desc l).
    apply insert_by_score_ranked.
    + apply IH; [exact Hs'|]. intros z Hz. apply Hnan. now right.
    + intros z Hz. apply (Permutation_in _ (Permutation_sym (sort_by_score_perm l))) in Hz.
      rewrite Forall_forall in Hx. apply Hx. now apply in_map.
    + intros z Hz. apply (Permutation_in _ (Permutation_sym (sort_by_score_perm l))) in Hz.
      apply Hnan. now right.
Qed.

Lemma sorted_pairwise {T : Type} (R : T -> T -> Prop) (l : list T) :
  StronglySorted R l ->
  forall i j x y, i < j -> nth_error l i = Some x -> nth_error l j = Some y -> R x y.
Proof.
  induction 1 as [|a l Hs IH Ha]; intros i j x y Hij Hi Hj.
  - destruct i; discriminate.
  - destruct j as [|j]; [lia|]. cbn in Hj. destruct i as [|i]; cbn in Hi.
    + injection Hi as <-. rewrite Forall_forall in Ha. apply Ha.
      eapply nth_error_In; exact Hj.
    + apply (IH i j); [lia|assumption|assumption].
Qed.

Lemma nth_error_firstn_some {T : Type} (n i : nat) (l : list T) (x : T) :
  nth_error (firstn n l) i = Some x -> nth_error l i = Some x.
Proof.
  revert n i. induction l as [|a l IH]; intros [|n] [|i]; cbn; try discriminate; auto.
  apply IH.
Qed.

(** X11.  When no score is NaN, the list [slice_r1cs] returns is ranked:
    a candidate never stands before one of greater score, and of two
    candidates of equal score the one of smaller index stands first. *)
Theorem slice_is_ranked_by_score_then_index (r1cs : r1cs_utils.R1CS) (top_k : Z)
  (deduplicate : bool) :
  (forall c, In c (r1cs_utils.constraints r1cs) ->
             facts.is_nan (slicer.score_constraint c) = false) ->
  facts.ranked (slicer.slice_r1cs r1cs top_k deduplicate).
Proof.
  intros Hnan. unfold slicer.slice_r1cs.
  pose proof (slice_state_final deduplicate (r1cs_utils.constraints r1cs)) as Hs.
  destruct (fold_left _ _ _) as [cands seen].
  destruct Hs as (I1 & I2 & _).
  destruct (slice_to_prefix (slicer.sort_by_score_desc cands) top_k) as [n ->].
  assert (Hr : StronglySorted facts.before (slicer.sort_by_score_desc cands)).
  { apply sort_by_score_ranked; [exact I2|].
    intros z Hz. destruct (I1 z Hz) as [(Hn & _ & Hsc & _) _].
    rewrite Hsc. apply Hnan. eapply nth_error_In; exact Hn. }
  intros i j x y Hij Hi Hj.
  apply (sorted_pairwise _ _ Hr i j); [exact Hij| |]; eapply nth_error_firstn_some; eassumption.
Qed.

(** ** Fingerprints *)

Lemma length_string_of_list (l : list ascii) :
  String.length (string_of_list_ascii l) = List.length l.
Proof. induction l; cbn; congruence. Qed.

Lemma length_list_of_string (s : string) :
  List.length (list_ascii_of_string s) = String.length s.
Proof. induction s; cbn; congruence. Qed.

Lemma str_slice_to_length (s : string) (k : Z) :
  String.length (Py.str_slice_to s k) = facts.kept (String.length s) k.
Proof.
  unfold Py.str_slice_to, Py.slice_to, facts.kept.
  rewrite length_string_of_list.
  destruct (Z.ltb_spec k 0); rewrite length_firstn, length_list_of_string; lia.
Qed.

(** X12.  A fingerprint has the length the truncation asks for: all 64
    hex digits for [truncate=None], 16 by default, and for an integer [n]
    what [h[:n]] keeps of 64 characters ([min n 64], or [64 + n] for a
    negative [n]); the same holds for [fingerprint_varset], 12 by
    default. *)
Theorem fingerprint_length (c : r1cs_utils.constraint) (varset : list string) (n : Z) :
  String.length (fingerprint.fingerprint_constraint c None) = 64 /\
  String.length (fingerprint.fingerprint_constraint c fingerprint.default_truncate) = 16 /\
  String.length (fingerprint.fingerprint_constraint c (Some n)) = facts.kept 64 n /\
  String.length (fingerprint_sets.fingerprint_varset varset n) = facts.kept 64 n /\
  String.length
    (fingerprint_sets.fingerprint_varset varset fingerprint_sets.default_truncate) = 12.
Proof.
  unfold fingerprint.fingerprint_constraint, fingerprint_sets.fingerprint_varset,
    fingerprint.default_truncate, fingerprint_sets.default_truncate.
  rewrite !str_slice_to_length, !sha256_hexdigest_length.
  repeat split; reflexivity.
Qed.

Lemma append_assoc (a b c : string) : ((a ++ b) ++ c = a ++ (b ++ c))%string.
Proof. induction a as [|x a IH]; cbn; congruence. Qed.

(** X13.  The canonical text joins [name=coefficient] items with commas
    without escaping the names, so the fingerprint does not separate a
    part with two entries from a part with one entry whose name spells the
    first item, a comma and the second name: the two constraints differ
    and have the same fingerprint at every truncation. *)
Theorem fingerprint_blind_to_separators_in_names (v1 v2 : string) (x1 x2 : PyFloat.float)
  (b c : r1cs_utils.linear_form) (src : option string) (truncate : option Z) :
  String.ltb v1 v2 = true ->
  fingerprint.fingerprint_constraint
    {| r1cs_utils.A := [(v1, x1); (v2, x2)];
       r1cs_utils.B := b; r1cs_utils.C := c; r1cs_utils.source := src |} truncate
  = fingerprint.fingerprint_constraint
      {| r1cs_utils.A := [((v1 ++ "=" ++ format_12g x1 ++ "," ++ v2)%string, x2)];
         r1cs_utils.B := b; r1cs_utils.C := c; r1cs_utils.source := src |} truncate.
Proof.
  intros Hlt.
  unfold fingerprint.fingerprint_constraint,
    fingerprint._normalize_constraint_representation. cbn [r1cs_utils.A r1cs_utils.B
    r1cs_utils.C r1cs_utils.source].
  assert (E : fingerprint.normalize_part "A" [(v1, x1); (v2, x2)]
              = fingerprint.normalize_part "A"
                  [((v1 ++ "=" ++ format_12g x1 ++ "," ++ v2)%string, x2)]).
  { unfold fingerprint.normalize_part, Py.sorted_by_key.
    cbn [fold_right Py.insert_by_key fst snd].
    rewrite (ltb_asym _ _ Hlt). cbn [map Py.join String.concat fst snd].
    rewrite !append_assoc. reflexivity. }
  rewrite E. reflexivity.
Qed.

Lemma insert_by_key_le_sorted (x : string * unit) (l : list (string * unit)) :
  StronglySorted facts.key_le l -> StronglySorted facts.key_le (Py.insert_by_key x l).
Proof.
  induction 1 as [|y rest Hs IH Hy]; cbn [Py.insert_by_key].
  - repeat constructor.
  - rewrite Forall_forall in Hy.
    destruct (String.ltb (fst y) (fst x)) eqn:Eyx.
    + constructor; [exact IH|]. apply Forall_forall. intros z Hz.
      apply (Permutation_in _ (Permutation_sym (insert_by_key_perm x rest))) in Hz.
      destruct Hz as [<-|Hz]; [|now apply Hy].
      now apply ltb_asym.
    + constructor; [now constructor; [|apply Forall_forall]|].
      apply Forall_forall. intros z [<-|Hz]; [exact Eyx|].
      specialize (Hy z Hz). unfold facts.key_le in *.
      destruct (String.ltb (fst z) (fst x)) eqn:Ezx; [|reflexivity].
      destruct (String.eqb_spec (fst x) (fst y)) as [E|Hne].
      * rewrite E in Ezx. congruence.
      * pose proof (ltb_connected _ _ (not_eq_sym Hne) Eyx) as Hxy.
        rewrite (ltb_trans _ _ _ Ezx Hxy) in Hy. discriminate.
Qed.

Lemma sorted_units_le (l : list (string * unit)) :
  StronglySorted facts.key_le (Py.sorted_by_key l).
Proof.
  induction l as [|x l IH]; cbn; [constructor|].
  now apply insert_by_key_le_sorted.
Qed.

Lemma le_sorted_unique (l1 l2 : list (string * unit)) :
  StronglySorted facts.key_le l1 -> StronglySorted facts.key_le l2 ->
  Permutation l1 l2 -> l1 = l2.
Proof.
  intros H1. revert l2. induction H1 as [|[a []] l1 Hs IH Ha]; intros l2 H2 Hp.
  - now apply Permutation_nil in Hp.
  - destruct H2 as [|[b []] l2 Hs2 Hb].
    + apply Permutation_sym, Permutation_nil in Hp. discriminate.
    + rewrite Forall_forall in Ha, Hb.
      assert (E : a = b).
      { destruct (String.eqb_spec a b) as [E|Hne]; [exact E|exfalso].
        assert (Ia : In (a, tt) l2).
        { assert (I : In (a, tt) ((b, tt) :: l2))
            by (apply (Permutation_in _ Hp); now left).
          destruct I as [I|I]; [congruence|exact I]. }
        assert (Ib : In (b, tt) l1).
        { assert (I : In (b, tt) ((a, tt) :: l1))
            by (apply (Permutation_in _ (Permutation_sym Hp)); now left).
          destruct I as [I|I]; [congruence|exact I]. }
        specialize (Ha _ Ib). specialize (Hb _ Ia). unfold facts.key_le in *. cbn in *.
        pose proof (ltb_connected _ _ Hne Hb). congruence. }
      subst b. f_equal. apply IH; [exact Hs2|]. now apply Permutation_cons_inv in Hp.
Qed.

Lemma sorted_strings_order_blind (l1 l2 : list string) :
  Permutation l1 l2 -> Py.sorted_strings l1 = Py.sorted_strings l2.
Proof.
  intros Hp. unfold Py.sorted_strings. f_equal.
  apply le_sorted_unique; try apply sorted_units_le.
  eapply Permutation_trans; [apply Permutation_sym, sorted_by_key_perm|].
  eapply Permutation_trans; [|apply sorted_by_key_perm].
  now apply Permutation_map.
Qed.

(** X14.  [fingerprint_varset] depends only on which names the iterable
    yields and how often, not on their order. *)
Theorem fingerprint_varset_order_blind (a b : list string) (truncate : Z) :
  Permutation a b ->
  fingerprint_sets.fingerprint_varset a truncate
  = fingerprint_sets.fingerprint_varset b truncate.
Proof.
  intros Hp. unfold fingerprint_sets.fingerprint_varset.
  now rewrite (sorted_strings_order_blind a b Hp).
Qed.

Lemma inter_size_sym (a b : list string) :
  NoDup a -> NoDup b ->
  fingerprint_sets.inter_size a b = fingerprint_sets.inter_size b a.
Proof.
  intros Ha Hb. unfold fingerprint_sets.inter_size.
  apply Permutation_length, NoDup_Permutation; try now apply NoDup_filter.
  intros x. rewrite !filter_In, !mem_in. tauto.
Qed.

Lemma union_size_sym (a b : list string) :
  NoDup a -> NoDup b ->
  fingerprint_sets.union_size a b = fingerprint_sets.union_size b a.
Proof.
  intros Ha Hb. unfold fingerprint_sets.union_size.
  pose proof (inter_size_sym a b Ha Hb) as Hi. unfold fingerprint_sets.inter_size in Hi.
  pose proof (filter_length (fun x => Py.mem x b) a).
  pose proof (filter_length (fun x => Py.mem x a) b).
  lia.
Qed.

(** X15.  On sets, [jaccard_similarity] is symmetric. *)
Theorem jaccard_similarity_symmetric (a b : list string) :
  NoDup a -> NoDup b ->
  fingerprint_sets.jaccard_similarity a b = fingerprint_sets.jaccard_similarity b a.
Proof.
  intros Ha Hb. unfold fingerprint_sets.jaccard_similarity.
  rewrite (inter_size_sym a b Ha Hb), (union_size_sym a b Ha Hb).
  destruct a, b; reflexivity.
Qed.

(** ** The views of an R1CS *)

Lemma fold_max_ge (vs : list Z) (v : Z) :
  (v <= fold_left Z.max vs v)%Z /\ forall x, In x vs -> (x <= fold_left Z.max vs v)%Z.
Proof.
  revert v. induction vs as [|a vs IH]; intros v; cbn [fold_left].
  - split; [lia|intros x []].
  - destruct (IH (Z.max v a)) as [H1 H2]. split; [lia|].
    intros x [<-|Hx]; [lia|auto].
Qed.

Lemma max_index_ge (vars_map : Py.dict Z) (item : string * Z) :
  In item vars_map -> (snd item <= r1cs_views.max_index vars_map)%Z.
Proof.
  unfold r1cs_views.max_index, Py.values. intros Hin.
  apply (in_map snd) in Hin. destruct (map snd vars_map) as [|v vs]; [contradiction|].
  destruct (fold_max_ge vs v) as [H1 H2]. destruct Hin as [<-|Hin]; auto.
Qed.

Lemma list_set_length {T : Type} (l : list T) (i : nat) (x : T) :
  i < List.length l -> List.length (r1cs_views.list_set l i x) = List.length l.
Proof.
  intros Hi. unfold r1cs_views.list_set.
  rewrite length_app, length_firstn. cbn [List.length]. rewrite length_skipn. lia.
Qed.

Lemma list_set_nth {T : Type} (l : list T) (i k : nat) (x : T) :
  i < List.length l ->
  nth_error (r1cs_views.list_set l i x) k = if Nat.eqb k i then Some x else nth_error l k.
Proof.
  intros Hi. unfold r1cs_views.list_set.
  destruct (Nat.eqb_spec k i) as [->|Hne].
  - rewrite nth_error_app2; rewrite length_firstn; [|lia].
    replace (i - Nat.min i (List.length l)) with 0 by lia. reflexivity.
  - destruct (Nat.lt_ge_cases k i) as [Hlt|Hge].
    + rewrite nth_error_app1 by (rewrite length_firstn; lia).
      rewrite nth_error_firstn. destruct (Nat.ltb_spec k i); [reflexivity|lia].
    + rewrite nth_error_app2; rewrite length_firstn; [|lia].
      replace (Nat.min i (List.length l)) with i by lia.
      destruct (k - i) as [|d] eqn:Ed; [lia|]. cbn [nth_error].
      rewrite nth_error_skipn. f_equal. lia.
Qed.

Lemma place_name_inside (slots : list (option string)) (item : string * Z) :
  (0 <= snd item < Z.of_nat (List.length slots))%Z ->
  r1cs_views.place_name (inr slots) item
  = inr (r1cs_views.list_set slots (Z.to_nat (snd item)) (Some (fst item))).
Proof.
  intros Hr. unfold r1cs_views.place_name.
  destruct (Z.ltb_spec (snd item) 0) as [|_]; [lia|].
  destruct (Z.geb_spec (snd item) (Z.of_nat (List.length slots))) as [|_]; [lia|].
  reflexivity.
Qed.

Lemma place_loop (items : Py.dict Z) (slots : list (option string)) :
  (forall item, In item items -> (0 <= snd item < Z.of_nat (List.length slots))%Z) ->
  exists slots',
    fold_left r1cs_views.place_name items (inr slots) = inr slots' /\
    List.length slots' = List.length slots /\
    (forall k, (forall name, ~ In (name, Z.of_nat k) items) ->
               nth_error slots' k = nth_error slots k) /\
    (forall name k, In (name, Z.of_nat k) items ->
                    (forall name', In (name', Z.of_nat k) items -> name' = name) ->
                    nth_error slots' k = Some (Some name)).
Proof.
  revert slots. induction items as [|[n0 i0] items IH]; intros slots Hr.
  - exists slots. cbn. repeat split; auto. intros name k [].
  - cbn [fold_left]. rewrite place_name_inside by (apply Hr; now left).
    cbn [fst snd].
    assert (H0 : (0 <= i0 < Z.of_nat (List.length slots))%Z)
      by (apply (Hr (n0, i0)); now left).
    assert (Hlen : List.length (r1cs_views.list_set slots (Z.to_nat i0) (Some n0))
                   = List.length slots) by (apply list_set_length; lia).
    destruct (IH (r1cs_views.list_set slots (Z.to_nat i0) (Some n0)))
      as (slots' & Hf & Hl & Hkeep & Hput).
    { intros item Hitem. rewrite Hlen. apply Hr. now right. }
    exists slots'. split; [exact Hf|]. split; [congruence|]. split.
    + intros k Hk. rewrite Hkeep by (intros name Hin; apply (Hk name); now right).
      rewrite list_set_nth by lia.
      destruct (Nat.eqb_spec k (Z.to_nat i0)) as [->|]; [|reflexivity].
      exfalso. apply (Hk n0). left. f_equal. lia.
    + intros name k Hin Huniq.
      destruct (existsb (fun it : string * Z => (snd it =? Z.of_nat k)%Z) items) eqn:Ex.
      * apply existsb_exists in Ex. destruct Ex as ([n1 i1] & Hin1 & E1).
        cbn in E1. apply Z.eqb_eq in E1. subst i1.
        assert (n1 = name) by (apply Huniq; now right). subst n1.
        apply Hput; [exact Hin1|]. intros name' H'. apply Huniq. now right.
      * assert (Hnone : forall name', ~ In (name', Z.of_nat k) items).
        { intros name' H'.
          assert (Et : existsb (fun it : string * Z => (snd it =? Z.of_nat k)%Z) items = true).
          { apply existsb_exists. exists (name', Z.of_nat k). split; [exact H'|].
            apply Z.eqb_refl. }
          congruence. }
        destruct Hin as [E|Hin]; [|now destruct (Hnone name)].
        injection E as -> ->. rewrite (Hkeep k Hnone), list_set_nth by lia.
        rewrite Nat2Z.id, Nat.eqb_refl. reflexivity.
Qed.

Lemma fill_missing_nth_from (s : nat) (slots : list (option string)) (k : nat) :
  nth_error
    (map (fun ix : nat * option string =>
            match snd ix with Some name => name | None => r1cs_views.placeholder (fst ix) end)
         (combine (seq s (List.length slots)) slots)) k
  = option_map (fun o : option string =>
                  match o with Some name => name | None => r1cs_views.placeholder (s + k) end)
               (nth_error slots k).
Proof.
  revert s k. induction slots as [|o slots IH]; intros s [|k]; cbn; try reflexivity.
  - now rewrite Nat.add_0_r.
  - rewrite IH. now rewrite Nat.add_succ_r.
Qed.

Lemma fill_missing_nth (slots : list (option string)) (k : nat) :
  nth_error (r1cs_views.fill_missing slots) k
  = option_map (fun o : option string =>
                  match o with Some name => name | None => r1cs_views.placeholder k end)
               (nth_error slots k).
Proof. apply (fill_missing_nth_from 0). Qed.

Lemma fill_missing_length (slots : list (option string)) :
  List.length (r1cs_views.fill_missing slots) = List.length slots.
Proof.
  unfold r1cs_views.fill_missing.
  rewrite length_map, length_combine, length_seq. lia.
Qed.

Lemma nth_error_repeat_none {T : Type} (n k : nat) :
  k < n -> nth_error (repeat (@None T) n) k = Some None.
Proof.
  revert k. induction n as [|n IH]; intros [|k] H; cbn; try lia; [reflexivity|].
  apply IH. lia.
Qed.

Lemma build_var_index_slots (r1cs : r1cs_utils.R1CS) :
  facts.nonneg (r1cs_utils.variables r1cs) ->
  let vars_map := r1cs_utils.variables r1cs in
  let n := Z.to_nat (r1cs_views.max_index vars_map + 1) in
  exists slots,
    r1cs_views.build_var_index r1cs = inr (vars_map, r1cs_views.fill_missing slots) /\
    List.length slots = n /\
    (forall k, k < n -> (forall name, ~ In (name, Z.of_nat k) vars_map) ->
               nth_error slots k = Some None) /\
    (forall name k, In (name, Z.of_nat k) vars_map ->
                    (forall name', In (name', Z.of_nat k) vars_map -> name' = name) ->
                    nth_error slots k = Some (Some name)).
Proof.
  intros Hnn. cbv zeta. unfold r1cs_views.build_var_index.
  set (vars_map := r1cs_utils.variables r1cs) in *.
  set (n := Z.to_nat (r1cs_views.max_index vars_map + 1)).
  destruct (place_loop vars_map (repeat None n)) as (slots & Hf & Hl & Hkeep & Hput).
  { intros item Hin. rewrite repeat_length. unfold facts.nonneg in Hnn.
    rewrite Forall_forall in Hnn. pose proof (Hnn item Hin).
    pose proof (max_index_ge vars_map item Hin). unfold n. lia. }
  rewrite Hf. rewrite repeat_length in Hl.
  exists slots. split; [reflexivity|]. split; [exact Hl|]. split.
  - intros k Hk Hnone. rewrite (Hkeep k Hnone). now apply nth_error_repeat_none.
  - exact Hput.
Qed.

Lemma place_name_raised (e : r1cs_views.raised) (items : Py.dict Z) :
  fold_left r1cs_views.place_name items (inl e) = inl e.
Proof. induction items as [|item items IH]; cbn; auto. Qed.

Lemma place_loop_negative (items : Py.dict Z) (slots : list (option string)) :
  Exists (fun item : string * Z => (snd item < 0)%Z) items ->
  fold_left r1cs_views.place_name items (inr slots) = inl facts.negative_index.
Proof.
  intros Hex. revert slots. induction Hex as [item items Hneg|item items Hex IH]; intros slots.
  - cbn [fold_left]. unfold r1cs_views.place_name at 2.
    destruct (Z.ltb_spec (snd item) 0) as [_|]; [|lia].
    apply place_name_raised.
  - cbn [fold_left]. unfold r1cs_views.place_name at 2.
    destruct (snd item <? 0)%Z; [apply place_name_raised|]. apply IH.
Qed.

(** X16.  [build_var_index] raises [ValueError] when some variable has a
    negative index, whatever the other variables are. *)
Theorem build_var_index_rejects_negative_index (r1cs : r1cs_utils.R1CS) :
  Exists (fun item : string * Z => (snd item < 0)%Z) (r1cs_utils.variables r1cs) ->
  r1cs_views.build_var_index r1cs = inl facts.negative_index.
Proof.
  intros Hex. unfold r1cs_views.build_var_index.
  now rewrite place_loop_negative.
Qed.

(** X17.  When no index is negative, [build_var_index] returns the map
    unchanged and a list of exactly [max index + 1] names (the branch that
    extends the list is never taken); the entry at the index of a variable
    is that variable's name when no other variable has that index, and
    the entry at an index no variable has is the placeholder. *)
Theorem build_var_index_inverts_the_map (r1cs : r1cs_utils.R1CS) :
  facts.nonneg (r1cs_utils.variables r1cs) ->
  let vars_map := r1cs_utils.variables r1cs in
  exists names,
    r1cs_views.build_var_index r1cs = inr (vars_map, names) /\
    Z.of_nat (List.length names) = (r1cs_views.max_index vars_map + 1)%Z /\
    (forall name i, In (name, i) vars_map ->
                    (forall name', In (name', i) vars_map -> name' = name) ->
                    nth_error names (Z.to_nat i) = Some name) /\
    (forall k, k < List.length names ->
               (forall name, ~ In (name, Z.of_nat k) vars_map) ->
               nth_error names k = Some (r1cs_views.placeholder k)).
Proof.
  intros Hnn. cbv zeta.
  destruct (build_var_index_slots r1cs Hnn) as (slots & Hb & Hl & Hnone & Hsome).
  exists (r1cs_views.fill_missing slots).
  split; [exact Hb|]. rewrite fill_missing_length, Hl.
  split; [|split].
  - assert (H : (-1 <= r1cs_views.max_index (r1cs_utils.variables r1cs))%Z).
    { unfold r1cs_views.max_index, Py.values.
      destruct (r1cs_utils.variables r1cs) as [|item items] eqn:Ev; [cbn; lia|].
      cbn [map]. destruct (fold_max_ge (map snd items) (snd item)) as [H1 _].
      assert (H0 : (0 <= snd item)%Z).
      { unfold facts.nonneg in Hnn. rewrite Forall_forall in Hnn. apply Hnn.
        rewrite ?Ev. now left. }
      lia. }
    lia.
  - intros name i Hin Huniq.
    assert (H0 : (0 <= i)%Z).
    { unfold facts.nonneg in Hnn. rewrite Forall_forall in Hnn. apply (Hnn _ Hin). }
    rewrite fill_missing_nth, (Hsome name (Z.to_nat i)); [reflexivity| |];
      rewrite Z2Nat.id by exact H0; assumption.
  - intros k Hk Hno. rewrite fill_missing_nth, (Hnone k Hk Hno). reflexivity.
Qed.

(** *** Loops that stop at the first error *)

Lemma fold_sticky {A T : Type} (step : r1cs_views.raised + T -> A -> r1cs_views.raised + T)
  (l : list A) (e : r1cs_views.raised) :
  (forall e a, step (inl e) a = inl e) -> fold_left step l (inl e) = inl e.
Proof. intros Hs. induction l as [|a l IH]; cbn; [reflexivity|]. now rewrite Hs. Qed.

Lemma fold_fine {A T : Type} (step : r1cs_views.raised + T -> A -> r1cs_views.raised + T)
  (l : list A) :
  (forall e a, step (inl e) a = inl e) ->
  (forall s a, facts.key_error (step (inr s) a) \/ exists s', step (inr s) a = inr s') ->
  forall s, facts.key_error (fold_left step l (inr s))
            \/ exists s', fold_left step l (inr s) = inr s'.
Proof.
  intros Hs Hk. induction l as [|a l IH]; intros s; cbn [fold_left].
  - right. eauto.
  - destruct (Hk s a) as [(msg & ->)|(s' & ->)]; [|apply IH].
    left. exists msg. now apply fold_sticky.
Qed.

Lemma fold_raises {A T : Type} (step : r1cs_views.raised + T -> A -> r1cs_views.raised + T)
  (l : list A) (a0 : A) :
  (forall e a, step (inl e) a = inl e) ->
  (forall s a, facts.key_error (step (inr s) a) \/ exists s', step (inr s) a = inr s') ->
  In a0 l -> (forall s, facts.key_error (step (inr s) a0)) ->
  forall s, facts.key_error (fold_left step l (inr s)).
Proof.
  intros Hs Hk Hin Hbad. induction l as [|a l IH]; intros s; [contradiction|].
  cbn [fold_left]. destruct Hin as [->|Hin].
  - destruct (Hbad s) as (msg & ->). exists msg. now apply fold_sticky.
  - destruct (Hk s a) as [(msg & ->)|(s' & ->)]; [|now apply IH].
    exists msg. now apply fold_sticky.
Qed.

Lemma contains_get {V : Type} (d : Py.dict V) (k : string) :
  Py.contains d k = true -> exists v, Py.get d k = Some v.
Proof. unfold Py.contains. destruct (Py.get d k); [eauto|discriminate]. Qed.

Lemma contains_false_get {V : Type} (d : Py.dict V) (k : string) :
  Py.contains d k = false -> Py.get d k = None.
Proof. unfold Py.contains. destruct (Py.get d k); [discriminate|reflexivity]. Qed.

Lemma in_enumerate_from {T : Type} (l : list T) (s i : nat) (x : T) :
  In (i, x) (combine (seq s (List.length l)) l) <-> s <= i /\ nth_error l (i - s) = Some x.
Proof.
  revert s. induction l as [|a l IH]; intros s; cbn [List.length seq combine].
  - cbn. split; [tauto|]. intros [_ H]. destruct (i - s); discriminate.
  - cbn [In]. rewrite IH. split.
    + intros [E|[Hle Hn]].
      * injection E as -> ->. split; [lia|]. now rewrite Nat.sub_diag.
      * split; [lia|]. replace (i - s) with (S (i - S s)) by lia. exact Hn.
    + intros [Hle Hn]. destruct (i - s) as [|d] eqn:Ed.
      * left. cbn in Hn. injection Hn as ->. f_equal. lia.
      * right. split; [lia|]. cbn in Hn. replace (i - S s) with d by lia. exact Hn.
Qed.

Lemma in_enumerate {T : Type} (l : list T) (i : nat) (x : T) :
  In (i, x) (slicer.enumerate l) <-> nth_error l i = Some x.
Proof.
  unfold slicer.enumerate. rewrite in_enumerate_from, Nat.sub_0_r.
  split; [tauto|]. intros H. split; [lia|exact H].
Qed.

Lemma in_parts (c : r1cs_utils.constraint) (v : string) :
  reading.mentions c v
  <-> exists p, In p (r1cs_views.parts c) /\ In v (Py.keys (snd p)).
Proof.
  unfold reading.mentions, r1cs_views.parts. split.
  - intros [H|[H|H]];
      [exists ("A"%string, r1cs_utils.A c)|exists ("B"%string, r1cs_utils.B c)
      |exists ("C"%string, r1cs_utils.C c)]; (split; [cbn; auto|exact H]).
  - intros (p & [<-|[<-|[<-|[]]]] & H); cbn in H; auto.
Qed.

(** *** Triplets *)

Lemma triplet_entry_cases (vars_map : Py.dict Z) (i : nat) (part : string)
  (ts : list r1cs_views.triplet) (kv : string * PyFloat.float) :
  facts.key_error (r1cs_views.triplet_entry vars_map i part (inr ts) kv)
  \/ exists ts', r1cs_views.triplet_entry vars_map i part (inr ts) kv = inr ts'.
Proof.
  unfold r1cs_views.triplet_entry, facts.key_error.
  destruct (Py.get vars_map (fst kv)); eauto.
Qed.

Lemma triplet_entries_known (vars_map : Py.dict Z) (i : nat) (part : string)
  (l : r1cs_utils.linear_form) (ts : list r1cs_views.triplet) :
  (forall kv, In kv l -> Py.contains vars_map (fst kv) = true) ->
  fold_left (r1cs_views.triplet_entry vars_map i part) l (inr ts)
  = inr (ts ++ map (fun kv : string * PyFloat.float =>
                      (i, facts.index_of vars_map (fst kv), snd kv, part)) l).
Proof.
  revert ts. induction l as [|kv l IH]; intros ts Hk; cbn [fold_left map].
  - now rewrite app_nil_r.
  - unfold r1cs_views.triplet_entry at 2. unfold facts.index_of at 1.
    destruct (contains_get vars_map (fst kv)) as (j & ->); [apply Hk; now left|].
    rewrite IH by (intros kv' H'; apply Hk; now right).
    now rewrite <- app_assoc.
Qed.

Lemma triplet_constraint_known (vars_map : Py.dict Z) (ic : nat * r1cs_utils.constraint)
  (ts : list r1cs_views.triplet) :
  (forall v, reading.mentions (snd ic) v -> Py.contains vars_map v = true) ->
  r1cs_views.triplet_constraint vars_map (inr ts) ic
  = inr (ts ++ facts.triplets_of vars_map ic).
Proof.
  intros Hk. unfold r1cs_views.triplet_constraint, facts.triplets_of, r1cs_views.parts,
    r1cs_views.triplet_part, reading.mentions in *.
  cbn [fold_left flat_map fst snd].
  rewrite !triplet_entries_known, app_nil_r, <- !app_assoc; [reflexivity| | |];
    intros kv Hkv; apply Hk; apply (in_map fst) in Hkv; unfold Py.keys; tauto.
Qed.

Lemma triplet_loop_known (vars_map : Py.dict Z) (ics : list (nat * r1cs_utils.constraint))
  (ts : list r1cs_views.triplet) :
  (forall ic v, In ic ics -> reading.mentions (snd ic) v -> Py.contains vars_map v = true) ->
  fold_left (r1cs_views.triplet_constraint vars_map) ics (inr ts)
  = inr (ts ++ flat_map (facts.triplets_of vars_map) ics).
Proof.
  revert ts. induction ics as [|ic ics IH]; intros ts Hk; cbn [fold_left flat_map].
  - now rewrite app_nil_r.
  - rewrite triplet_constraint_known by (intros v Hv; apply (Hk ic); [now left|exact Hv]).
    rewrite IH by (intros ic' v H'; apply Hk; now right).
    now rewrite <- app_assoc.
Qed.

Lemma enumerate_snd {T : Type} (l : list T) (ic : nat * T) :
  In ic (slicer.enumerate l) -> In (snd ic) l.
Proof.
  destruct ic as [i x]. intros H. apply in_enumerate in H.
  eapply nth_error_In; exact H.
Qed.

Lemma map_snd_enumerate_from {T : Type} (l : list T) (s : nat) :
  map snd (combine (seq s (List.length l)) l) = l.
Proof. revert s. induction l as [|a l IH]; intros s; cbn; [reflexivity|]. now rewrite IH. Qed.

(** X18.  When no index is negative and every variable of every
    constraint has an index, [to_triplet_list] returns, in the order of
    the constraints, of the parts A, B, C and of the entries, one triplet
    [(i, vars_map[var], coeff, part)] for every entry, whatever its
    coefficient: as many triplets as the constraints have entries. *)
Theorem to_triplet_list_lists_every_entry (r1cs : r1cs_utils.R1CS) :
  facts.nonneg (r1cs_utils.variables r1cs) ->
  facts.all_known (r1cs_utils.variables r1cs) (r1cs_utils.constraints r1cs) ->
  exists ts,
    r1cs_views.to_triplet_list r1cs = inr ts /\
    ts = flat_map (facts.triplets_of (r1cs_utils.variables r1cs))
                  (slicer.enumerate (r1cs_utils.constraints r1cs)) /\
    List.length ts = facts.entry_count (r1cs_utils.constraints r1cs) /\
    forall i j x part,
      In (i, j, x, part) ts <->
      exists c l v, nth_error (r1cs_utils.constraints r1cs) i = Some c /\
                    In (part, l) (r1cs_views.parts c) /\ In (v, x) l /\
                    Py.get (r1cs_utils.variables r1cs) v = Some j.
Proof.
  intros Hnn Hk.
  destruct (build_var_index_slots r1cs Hnn) as (slots & Hb & _).
  set (vars_map := r1cs_utils.variables r1cs) in *.
  set (cs := r1cs_utils.constraints r1cs) in *.
  exists (flat_map (facts.triplets_of vars_map) (slicer.enumerate cs)).
  split; [|split; [reflexivity|split]].
  - unfold r1cs_views.to_triplet_list. rewrite Hb. fold cs.
    rewrite triplet_loop_known; [reflexivity|].
    intros ic v Hic Hv. apply (Hk (snd ic)); [now apply enumerate_snd|exact Hv].
  - rewrite length_flat_map. unfold facts.entry_count.
    rewrite <- (map_snd_enumerate_from cs 0) at 2. fold (slicer.enumerate cs).
    rewrite map_map. f_equal. apply map_ext.
    intros [i c]. unfold facts.triplets_of, r1cs_views.parts. cbn.
    rewrite !length_app, !length_map. cbn. lia.
  - intros i j x part. rewrite in_flat_map. split.
    + intros ([i' c] & Hic & Hin). apply in_enumerate in Hic.
      unfold facts.triplets_of in Hin. apply in_flat_map in Hin.
      destruct Hin as ([p l] & Hp & Hin). cbn [fst snd] in Hin.
      apply in_map_iff in Hin. destruct Hin as ([v y] & E & Hvy).
      cbn [fst snd] in E. injection E as -> <- -> ->.
      exists c, l, v. repeat split; try assumption.
      unfold facts.index_of.
      destruct (contains_get vars_map v) as (j' & ->); [|reflexivity].
      apply (Hk c); [eapply nth_error_In; exact Hic|].
      apply in_parts. exists (part, l). split; [exact Hp|].
      cbn. unfold Py.keys. change v with (fst (v, x)). now apply in_map.
    + intros (c & l & v & Hc & Hp & Hvx & Hj).
      exists (i, c). split; [now apply in_enumerate|].
      unfold facts.triplets_of. apply in_flat_map. exists (part, l).
      split; [exact Hp|]. cbn [fst snd]. apply in_map_iff. exists (v, x).
      split; [|exact Hvx]. cbn [fst snd]. unfold facts.index_of. now rewrite Hj.
Qed.

(** *** Unknown variables *)

Lemma triplet_part_cases (vars_map : Py.dict Z) (i : nat) (ts : list r1cs_views.triplet)
  (p : string * r1cs_utils.linear_form) :
  facts.key_error (r1cs_views.triplet_part vars_map i (inr ts) p)
  \/ exists ts', r1cs_views.triplet_part vars_map i (inr ts) p = inr ts'.
Proof.
  unfold r1cs_views.triplet_part. apply fold_fine; [reflexivity|].
  intros s a. apply triplet_entry_cases.
Qed.

Lemma triplet_part_sticky (vars_map : Py.dict Z) (i : nat) (e : r1cs_views.raised)
  (p : string * r1cs_utils.linear_form) :
  r1cs_views.triplet_part vars_map i (inl e) p = inl e.
Proof. unfold r1cs_views.triplet_part. now apply fold_sticky. Qed.

Lemma triplet_constraint_cases (vars_map : Py.dict Z) (ts : list r1cs_views.triplet)
  (ic : nat * r1cs_utils.constraint) :
  facts.key_error (r1cs_views.triplet_constraint vars_map (inr ts) ic)
  \/ exists ts', r1cs_views.triplet_constraint vars_map (inr ts) ic = inr ts'.
Proof.
  unfold r1cs_views.triplet_constraint. apply fold_fine.
  - intros e a. apply triplet_part_sticky.
  - intros s a. apply triplet_part_cases.
Qed.

Lemma triplet_constraint_sticky (vars_map : Py.dict Z) (e : r1cs_views.raised)
  (ic : nat * r1cs_utils.constraint) :
  r1cs_views.triplet_constraint vars_map (inl e) ic = inl e.
Proof.
  unfold r1cs_views.triplet_constraint. apply fold_sticky.
  intros e' a. apply triplet_part_sticky.
Qed.

Lemma triplet_constraint_unknown (vars_map : Py.dict Z) (ts : list r1cs_views.triplet)
  (ic : nat * r1cs_utils.constraint) (v : string) :
  reading.mentions (snd ic) v -> Py.contains vars_map v = false ->
  facts.key_error (r1cs_views.triplet_constraint vars_map (inr ts) ic).
Proof.
  intros Hm Hv. apply in_parts in Hm. destruct Hm as (p & Hp & Hin).
  unfold r1cs_views.triplet_constraint.
  apply (fold_raises _ _ p); [intros e a; apply triplet_part_sticky
                             |intros s a; apply triplet_part_cases|exact Hp|].
  intros s. unfold r1cs_views.triplet_part.
  apply in_map_iff in Hin. destruct Hin as (kv & <- & Hkv).
  apply (fold_raises _ _ kv); [reflexivity|intros s' a; apply triplet_entry_cases|exact Hkv|].
  intros s'. unfold r1cs_views.triplet_entry, facts.key_error.
  rewrite (contains_false_get _ _ Hv). eauto.
Qed.

Lemma dense_entry_cases (vars_map : Py.dict Z) (label : string) (i : nat)
  (M : r1cs_views.matrix) (kv : string * PyFloat.float) :
  facts.key_error (r1cs_views.dense_entry vars_map label i (inr M) kv)
  \/ exists M', r1cs_views.dense_entry vars_map label i (inr M) kv = inr M'.
Proof.
  unfold r1cs_views.dense_entry, facts.key_error.
  destruct (Py.get vars_map (fst kv)); eauto.
Qed.

Lemma dense_entries_cases (vars_map : Py.dict Z) (label : string) (i : nat)
  (l : r1cs_utils.linear_form) (M : r1cs_views.matrix) :
  facts.key_error (fold_left (r1cs_views.dense_entry vars_map label i) l (inr M))
  \/ exists M', fold_left (r1cs_views.dense_entry vars_map label i) l (inr M) = inr M'.
Proof. apply fold_fine; [reflexivity|]. intros s a. apply dense_entry_cases. Qed.

Lemma dense_entries_unknown (vars_map : Py.dict Z) (label : string) (i : nat)
  (l : r1cs_utils.linear_form) (M : r1cs_views.matrix) (v : string) :
  In v (Py.keys l) -> Py.contains vars_map v = false ->
  facts.key_error (fold_left (r1cs_views.dense_entry vars_map label i) l (inr M)).
Proof.
  intros Hin Hv. apply in_map_iff in Hin. destruct Hin as (kv & <- & Hkv).
  apply (fold_raises _ _ kv); [reflexivity|intros s' a; apply dense_entry_cases|exact Hkv|].
  intros s'. unfold r1cs_views.dense_entry, facts.key_error.
  rewrite (contains_false_get _ _ Hv). eauto.
Qed.

Lemma dense_constraint_cases (vars_map : Py.dict Z)
  (s : r1cs_views.matrix * r1cs_views.matrix * r1cs_views.matrix)
  (ic : nat * r1cs_utils.constraint) :
  facts.key_error (r1cs_views.dense_constraint vars_map (inr s) ic)
  \/ exists s', r1cs_views.dense_constraint vars_map (inr s) ic = inr s'.
Proof.
  destruct s as [[MA MB] MC]. unfold r1cs_views.dense_constraint.
  destruct (dense_entries_cases vars_map "A" (fst ic) (r1cs_utils.A (snd ic)) MA)
    as [(m & ->)|(MA' & ->)]; [left; now exists m|].
  destruct (dense_entries_cases vars_map "B" (fst ic) (r1cs_utils.B (snd ic)) MB)
    as [(m & ->)|(MB' & ->)]; [left; now exists m|].
  destruct (dense_entries_cases vars_map "C" (fst ic) (r1cs_utils.C (snd ic)) MC)
    as [(m & ->)|(MC' & ->)]; [left; now exists m|].
  right. eauto.
Qed.

Lemma dense_constraint_unknown (vars_map : Py.dict Z)
  (s : r1cs_views.matrix * r1cs_views.matrix * r1cs_views.matrix)
  (ic : nat * r1cs_utils.constraint) (v : string) :
  reading.mentions (snd ic) v -> Py.contains vars_map v = false ->
  facts.key_error (r1cs_views.dense_constraint vars_map (inr s) ic).
Proof.
  intros Hm Hv. destruct s as [[MA MB] MC]. unfold r1cs_views.dense_constraint.
  destruct (dense_entries_cases vars_map "A" (fst ic) (r1cs_utils.A (snd ic)) MA)
    as [(m & ->)|(MA' & EA)]; [now exists m|].
  destruct (dense_entries_cases vars_map "B" (fst ic) (r1cs_utils.B (snd ic)) MB)
    as [(m & EB)|(MB' & EB)]; [rewrite EA, EB; now exists m|].
  destruct (dense_entries_cases vars_map "C" (fst ic) (r1cs_utils.C (snd ic)) MC)
    as [(m & EC)|(MC' & EC)]; [rewrite EA, EB, EC; now exists m|].
  exfalso. destruct Hm as [H|[H|H]].
  - destruct (dense_entries_unknown vars_map "A" (fst ic) _ MA v H Hv) as (m & E). congruence.
  - destruct (dense_entries_unknown vars_map "B" (fst ic) _ MB v H Hv) as (m & E). congruence.
  - destruct (dense_entries_unknown vars_map "C" (fst ic) _ MC v H Hv) as (m & E). congruence.
Qed.

(** X19.  When no index is negative and some constraint mentions a
    variable that has no index, [to_triplet_list] and
    [constraints_to_dense_matrices] both end in a [KeyError]; neither
    returns a partial result. *)
Theorem unknown_variable_raises_key_error (r1cs : r1cs_utils.R1CS)
  (c : r1cs_utils.constraint) (v : string) :
  facts.nonneg (r1cs_utils.variables r1cs) ->
  In c (r1cs_utils.constraints r1cs) -> reading.mentions c v ->
  Py.contains (r1cs_utils.variables r1cs) v = false ->
  facts.key_error (r1cs_views.to_triplet_list r1cs) /\
  facts.key_error (r1cs_views.constraints_to_dense_matrices r1cs).
Proof.
  intros Hnn Hc Hm Hv.
  destruct (build_var_index_slots r1cs Hnn) as (slots & Hb & _).
  destruct (In_nth_error _ _ Hc) as (i & Hi). apply in_enumerate in Hi.
  unfold r1cs_views.to_triplet_list, r1cs_views.constraints_to_dense_matrices.
  rewrite Hb. cbv zeta. split.
  - apply (fold_raises _ _ (i, c));
      [intros e a; apply triplet_constraint_sticky
      |intros s a; apply triplet_constraint_cases|exact Hi|].
    intros s. now apply (triplet_constraint_unknown _ _ _ v).
  - apply (fold_raises _ _ (i, c));
      [reflexivity|intros s a; apply dense_constraint_cases|exact Hi|].
    intros s. now apply (dense_constraint_unknown _ _ _ v).
Qed.

(** *** Dense matrices *)

Lemma in_list_set {T : Type} (l : list T) (i : nat) (x y : T) :
  i < List.length l -> In y (r1cs_views.list_set l i x) -> y = x \/ In y l.
Proof.
  intros Hi Hy. destruct (In_nth_error _ _ Hy) as (k & Hk).
  rewrite list_set_nth in Hk by exact Hi.
  destruct (Nat.eqb k i); [left; congruence|right].
  eapply nth_error_In; exact Hk.
Qed.

Lemma shape_row (M : r1cs_views.matrix) (m n i : nat) :
  facts.shape M m n -> i < m ->
  exists row, nth_error M i = Some row /\ List.length row = n.
Proof.
  intros [Hl Hr] Hi. destruct (nth_error M i) as [row|] eqn:E.
  - exists row. split; [reflexivity|]. rewrite Forall_forall in Hr.
    apply Hr. eapply nth_error_In; exact E.
  - apply nth_error_None in E. lia.
Qed.

Lemma cell_some (M : r1cs_views.matrix) (m n i j : nat) :
  facts.shape M m n -> i < m -> j < n -> exists x, facts.cell M i j = Some x.
Proof.
  intros Hs Hi Hj. destruct (shape_row M m n i Hs Hi) as (row & Hrow & Hlen).
  unfold facts.cell. rewrite Hrow.
  destruct (nth_error row j) as [x|] eqn:E; [eauto|].
  apply nth_error_None in E. lia.
Qed.

Lemma matrix_set_spec (M : r1cs_views.matrix) (m n i j : nat) (x : PyFloat.float) :
  facts.shape M m n -> i < m -> j < n ->
  facts.shape (r1cs_views.matrix_set M i j x) m n /\
  forall i' j', facts.cell (r1cs_views.matrix_set M i j x) i' j'
                = if Nat.eqb i' i && Nat.eqb j' j then Some x else facts.cell M i' j'.
Proof.
  intros Hs Hi Hj. destruct (shape_row M m n i Hs Hi) as (row & Hrow & Hlen).
  destruct Hs as [Hl Hr]. unfold r1cs_views.matrix_set. rewrite Hrow. split.
  - split; [rewrite list_set_length; lia|].
    apply Forall_forall. intros r Hin. apply in_list_set in Hin; [|lia].
    destruct Hin as [->|Hin].
    + rewrite list_set_length; lia.
    + rewrite Forall_forall in Hr. now apply Hr.
  - intros i' j'. unfold facts.cell. rewrite list_set_nth by lia.
    destruct (Nat.eqb_spec i' i) as [->|Hne]; cbn [andb]; [|reflexivity].
    rewrite list_set_nth by lia. rewrite Hrow.
    destruct (Nat.eqb j' j); reflexivity.
Qed.

Lemma dense_entries_known (vars_map : Py.dict Z) (label : string) (i m n : nat)
  (l : r1cs_utils.linear_form) (M : r1cs_views.matrix) :
  facts.shape M m n -> i < m ->
  (forall kv, In kv l ->
              exists j, Py.get vars_map (fst kv) = Some j /\ (0 <= j < Z.of_nat n)%Z) ->
  exists M',
    fold_left (r1cs_views.dense_entry vars_map label i) l (inr M) = inr M' /\
    facts.shape M' m n /\
    forall i' j, j < n ->
      facts.cell M' i' j
      = if Nat.eqb i' i then option_map (facts.coeff_over vars_map l j) (facts.cell M i j)
        else facts.cell M i' j.
Proof.
  revert M. induction l as [|kv l IH]; intros M Hs Hi Hk.
  - exists M. split; [reflexivity|]. split; [exact Hs|].
    intros i' j Hj. destruct (Nat.eqb_spec i' i) as [->|]; [|reflexivity].
    unfold facts.coeff_over. cbn. now destruct (facts.cell M i j).
  - destruct (Hk kv (or_introl eq_refl)) as (j0 & Hget & Hj0).
    cbn [fold_left]. unfold r1cs_views.dense_entry at 2. rewrite Hget.
    destruct (matrix_set_spec M m n i (Z.to_nat j0) (snd kv) Hs Hi) as [Hs1 Hc1]; [lia|].
    destruct (IH (r1cs_views.matrix_set M i (Z.to_nat j0) (snd kv)) Hs1 Hi)
      as (M' & Hf & Hs' & Hc').
    { intros kv' H'. apply Hk. now right. }
    exists M'. split; [exact Hf|]. split; [exact Hs'|].
    intros i' j Hj. rewrite (Hc' i' j Hj), !Hc1.
    destruct (Nat.eqb_spec i' i) as [->|Hne]; cbn [andb]; [|reflexivity].
    rewrite Nat.eqb_refl. cbn [andb].
    assert (Ei : facts.index_of vars_map (fst kv) = j0)
      by (unfold facts.index_of; now rewrite Hget).
    unfold facts.coeff_over. cbn [fold_left]. rewrite Ei.
    destruct (cell_some M m n i j Hs Hi Hj) as (x & ->). cbn [option_map].
    destruct (Nat.eqb_spec j (Z.to_nat j0)) as [E|Hne];
      destruct (Z.eqb_spec j0 (Z.of_nat j)) as [E'|Hne']; try reflexivity; lia.
Qed.

Lemma dense_state_step (vars_map : Py.dict Z) (label : string) (m n : nat)
  (pre : list r1cs_utils.constraint) (c : r1cs_utils.constraint)
  (part : r1cs_utils.constraint -> r1cs_utils.linear_form) (M : r1cs_views.matrix) :
  facts.dense_state vars_map m n pre part M -> List.length pre < m ->
  (forall kv, In kv (part c) ->
              exists j, Py.get vars_map (fst kv) = Some j /\ (0 <= j < Z.of_nat n)%Z) ->
  exists M',
    fold_left (r1cs_views.dense_entry vars_map label (List.length pre)) (part c) (inr M)
    = inr M' /\
    facts.dense_state vars_map m n (pre ++ [c]) part M'.
Proof.
  intros [Hs Hc] Hlt Hk.
  destruct (dense_entries_known vars_map label (List.length pre) m n (part c) M Hs Hlt Hk)
    as (M' & Hf & Hs' & Hc').
  exists M'. split; [exact Hf|]. split; [exact Hs'|].
  intros i j Hi Hj. rewrite (Hc' i j Hj).
  destruct (Nat.eqb_spec i (List.length pre)) as [->|Hne].
  - rewrite (Hc _ j Hlt Hj).
    replace (nth_error pre (List.length pre)) with (@None r1cs_utils.constraint)
      by (symmetry; apply nth_error_None; lia).
    rewrite nth_error_app2 by lia. rewrite Nat.sub_diag. reflexivity.
  - rewrite (Hc i j Hi Hj). f_equal.
    destruct (Nat.lt_ge_cases i (List.length pre)) as [L|G].
    + now rewrite nth_error_app1.
    + replace (nth_error pre i) with (@None r1cs_utils.constraint)
        by (symmetry; apply nth_error_None; lia).
      replace (nth_error (pre ++ [c]) i) with (@None r1cs_utils.constraint);
        [reflexivity|].
      symmetry. apply nth_error_None. rewrite length_app. cbn. lia.
Qed.

Lemma dense_loop (vars_map : Py.dict Z) (m n : nat) (l pre : list r1cs_utils.constraint)
  (MA MB MC : r1cs_views.matrix) :
  List.length pre + List.length l <= m ->
  (forall c kv, In c l ->
                In kv (r1cs_utils.A c) \/ In kv (r1cs_utils.B c) \/ In kv (r1cs_utils.C c) ->
                exists j, Py.get vars_map (fst kv) = Some j /\ (0 <= j < Z.of_nat n)%Z) ->
  facts.dense_state vars_map m n pre r1cs_utils.A MA ->
  facts.dense_state vars_map m n pre r1cs_utils.B MB ->
  facts.dense_state vars_map m n pre r1cs_utils.C MC ->
  exists MA' MB' MC',
    fold_left (r1cs_views.dense_constraint vars_map)
              (combine (seq (List.length pre) (List.length l)) l) (inr (MA, MB, MC))
    = inr (MA', MB', MC') /\
    facts.dense_state vars_map m n (pre ++ l) r1cs_utils.A MA' /\
    facts.dense_state vars_map m n (pre ++ l) r1cs_utils.B MB' /\
    facts.dense_state vars_map m n (pre ++ l) r1cs_utils.C MC'.
Proof.
  revert pre MA MB MC. induction l as [|c l IH]; intros pre MA MB MC Hlen Hk HA HB HC.
  - exists MA, MB, MC. rewrite app_nil_r. cbn. auto.
  - cbn [List.length] in Hlen. cbn [List.length seq combine fold_left].
    unfold r1cs_views.dense_constraint at 2. cbn [fst snd].
    destruct (dense_state_step vars_map "A" m n pre c r1cs_utils.A MA HA) as (MA1 & -> & HA1);
      [lia|intros kv H; apply (Hk c kv); [now left|tauto]|].
    destruct (dense_state_step vars_map "B" m n pre c r1cs_utils.B MB HB) as (MB1 & -> & HB1);
      [lia|intros kv H; apply (Hk c kv); [now left|tauto]|].
    destruct (dense_state_step vars_map "C" m n pre c r1cs_utils.C MC HC) as (MC1 & -> & HC1);
      [lia|intros kv H; apply (Hk c kv); [now left|tauto]|].
    destruct (IH (pre ++ [c]) MA1 MB1 MC1) as (MA' & MB' & MC' & Hf & HA' & HB' & HC');
      try assumption.
    { rewrite length_app. cbn. lia. }
    { intros c' kv Hc'. apply Hk. now right. }
    rewrite length_app in Hf. cbn [List.length] in Hf.
    replace (List.length pre + 1) with (S (List.length pre)) in Hf by lia.
    rewrite <- !app_assoc in *. cbn [app] in *.
    exists MA', MB', MC'. auto.
Qed.

Lemma zeros_state (vars_map : Py.dict Z) (m n : nat)
  (part : r1cs_utils.constraint -> r1cs_utils.linear_form) :
  facts.dense_state vars_map m n [] part (r1cs_views.zeros m n).
Proof.
  unfold r1cs_views.zeros. split; [split|].
  - apply repeat_length.
  - apply Forall_forall. intros row Hr. apply repeat_spec in Hr. subst.
    apply repeat_length.
  - intros i j Hi Hj. unfold facts.cell.
    rewrite (nth_error_repeat _ Hi), (nth_error_repeat _ Hj).
    now destruct i.
Qed.

(** X20.  When no index is negative and every variable of every
    constraint has an index, [constraints_to_dense_matrices] returns three
    matrices of shape (number of constraints, max index + 1); row [i] of
    the matrix of a part holds in column [j] the coefficient of the last
    entry of that part of constraint [i] whose variable has index [j], and
    0.0 where there is none. *)
Theorem dense_matrices_hold_the_coefficients (r1cs : r1cs_utils.R1CS) :
  facts.nonneg (r1cs_utils.variables r1cs) ->
  facts.all_known (r1cs_utils.variables r1cs) (r1cs_utils.constraints r1cs) ->
  let vars_map := r1cs_utils.variables r1cs in
  let m := List.length (r1cs_utils.constraints r1cs) in
  let n := Z.to_nat (r1cs_views.max_index vars_map + 1) in
  exists MA MB MC,
    r1cs_views.constraints_to_dense_matrices r1cs = inr (MA, MB, MC) /\
    facts.shape MA m n /\ facts.shape MB m n /\ facts.shape MC m n /\
    forall i c j, nth_error (r1cs_utils.constraints r1cs) i = Some c -> j < n ->
      facts.cell MA i j = Some (facts.coeff_at vars_map (r1cs_utils.A c) j) /\
      facts.cell MB i j = Some (facts.coeff_at vars_map (r1cs_utils.B c) j) /\
      facts.cell MC i j = Some (facts.coeff_at vars_map (r1cs_utils.C c) j).
Proof.
  intros Hnn Hk. cbv zeta.
  destruct (build_var_index_slots r1cs Hnn) as (slots & Hb & Hl & _).
  set (vars_map := r1cs_utils.variables r1cs) in *.
  set (cs := r1cs_utils.constraints r1cs) in *.
  set (n := Z.to_nat (r1cs_views.max_index vars_map + 1)) in *.
  destruct (dense_loop vars_map (List.length cs) n cs []
              (r1cs_views.zeros (List.length cs) n) (r1cs_views.zeros (List.length cs) n)
              (r1cs_views.zeros (List.length cs) n))
    as (MA & MB & MC & Hf & HA & HB & HC); try apply zeros_state.
  { cbn. lia. }
  { intros c kv Hc Hkv.
    assert (Hm : reading.mentions c (fst kv)).
    { unfold reading.mentions, Py.keys.
      destruct Hkv as [H|[H|H]]; apply (in_map fst) in H; tauto. }
    destruct (contains_get vars_map (fst kv) (Hk c (fst kv) Hc Hm)) as (j & Hj).
    exists j. split; [exact Hj|].
    apply get_in in Hj. pose proof (max_index_ge vars_map _ Hj) as Hmax.
    unfold facts.nonneg in Hnn. rewrite Forall_forall in Hnn.
    pose proof (Hnn _ Hj) as H0. cbn [snd] in *. unfold n. lia. }
  exists MA, MB, MC. split.
  - unfold r1cs_views.constraints_to_dense_matrices. rewrite Hb. cbv zeta.
    rewrite fill_missing_length, Hl. exact Hf.
  - cbn [app] in HA, HB, HC. destruct HA as [SA CA], HB as [SB CB], HC as [SC CC].
    repeat (split; [assumption|]).
    intros i c j Hc Hj.
    assert (Hi : i < List.length cs) by (apply nth_error_Some; congruence).
    rewrite (CA i j Hi Hj), (CB i j Hi Hj), (CC i j Hi Hj), Hc. auto.
Qed.

(** *** Constraints that mention a variable; summaries *)

Lemma referencing_loop (v : string) (ics : list (nat * r1cs_utils.constraint))
  (acc : list nat) :
  fold_left
    (fun idxs (ic : nat * r1cs_utils.constraint) =>
       if Py.mem v (r1cs_utils.constraint_support (snd ic)) then idxs ++ [fst ic] else idxs)
    ics acc
  = acc ++ map fst (filter (fun ic : nat * r1cs_utils.constraint =>
                              Py.mem v (r1cs_utils.constraint_support (snd ic))) ics).
Proof.
  revert acc. induction ics as [|ic ics IH]; intros acc; cbn [fold_left filter map].
  - now rewrite app_nil_r.
  - rewrite IH. destruct (Py.mem v _); [|reflexivity].
    cbn [map]. now rewrite <- app_assoc.
Qed.

Lemma sorted_filter_indices {T : Type} (f : nat * T -> bool) (l : list T) (s : nat) :
  StronglySorted lt (map fst (filter f (combine (seq s (List.length l)) l))) /\
  Forall (fun i => s <= i) (map fst (filter f (combine (seq s (List.length l)) l))).
Proof.
  revert s. induction l as [|a l IH]; intros s; cbn [List.length seq combine filter].
  - cbn. split; constructor.
  - destruct (IH (S s)) as [Hs Hb].
    assert (Hb' : Forall (fun i => s <= i)
                    (map fst (filter f (combine (seq (S s) (List.length l)) l)))).
    { eapply Forall_impl; [|exact Hb]. cbn. intros; lia. }
    destruct (f (s, a)); cbn [map fst]; [|now split].
    split.
    + constructor; [exact Hs|]. eapply Forall_impl; [|exact Hb]. cbn. intros; lia.
    + constructor; [lia|exact Hb'].
Qed.

(** X21.  [constraints_referencing_var] returns, in increasing order and
    each once, exactly the indices of the constraints that have the
    variable in A, B or C. *)
Theorem constraints_referencing_var_spec (r1cs : r1cs_utils.R1CS) (var_name : string) :
  let idxs := r1cs_views.constraints_referencing_var r1cs var_name in
  StronglySorted lt idxs /\
  forall i, In i idxs <->
            exists c, nth_error (r1cs_utils.constraints r1cs) i = Some c /\
                      reading.mentions c var_name.
Proof.
  cbv zeta. unfold r1cs_views.constraints_referencing_var.
  rewrite referencing_loop. cbn [app]. split.
  - apply (sorted_filter_indices _ (r1cs_utils.constraints r1cs) 0).
  - intros i. rewrite in_map_iff. split.
    + intros ([i' c] & <- & Hin). apply filter_In in Hin. destruct Hin as [Hin Hm].
      apply in_enumerate in Hin. exists c. split; [exact Hin|].
      apply constraint_support_in, mem_in. exact Hm.
    + intros (c & Hc & Hm). exists (i, c). split; [reflexivity|].
      apply filter_In. split; [now apply in_enumerate|].
      apply mem_in, constraint_support_in. exact Hm.
Qed.

Lemma sorted_strings_perm (l : list string) : Permutation l (Py.sorted_strings l).
Proof.
  unfold Py.sorted_strings.
  rewrite <- (map_id l) at 1. rewrite <- (map_ext (fun s => fst (s, tt)) id) by reflexivity.
  rewrite <- map_map. apply Permutation_map, sorted_by_key_perm.
Qed.

Lemma sorted_strings_strict (l : list string) :
  NoDup l -> StronglySorted (fun a b => String.ltb a b = true) (Py.sorted_strings l).
Proof.
  intros Hnd. unfold Py.sorted_strings.
  assert (Hs : StronglySorted reading.key_lt (Py.sorted_by_key (map (fun s => (s, tt)) l))).
  { apply sorted_by_key_sorted. rewrite map_map. cbn. now rewrite map_id. }
  induction Hs as [|x rest Hs IH Hx]; cbn; constructor; [exact IH|].
  apply Forall_map. eapply Forall_impl; [|exact Hx]. intros y Hy. exact Hy.
Qed.

Lemma nz_count_le (l : r1cs_utils.linear_form) :
  List.length (filter (fun v => negb (PyFloat.eqb v PyFloat.zero)) (Py.values l))
  <= List.length l.
Proof.
  eapply Nat.le_trans; [apply filter_length_le|]. unfold Py.values. now rewrite length_map.
Qed.

(** X22.  The summary of a constraint is consistent: [support] lists the
    variables of A, B and C, each once, in strictly increasing order;
    [support_size] is its length; [nz_count] and [support_size] are at
    most the number of entries of the constraint. *)
Theorem constraint_summary_consistent (c : r1cs_utils.constraint) :
  let s := r1cs_utils.constraint_summary c in
  let entries := List.length (r1cs_utils.A c) + List.length (r1cs_utils.B c)
                 + List.length (r1cs_utils.C c) in
  (forall v, In v (r1cs_utils.support s) <-> reading.mentions c v) /\
  StronglySorted (fun a b => String.ltb a b = true) (r1cs_utils.support s) /\
  r1cs_utils.support_size s = List.length (r1cs_utils.support s) /\
  r1cs_utils.nz_count s <= entries /\
  r1cs_utils.support_size s <= entries.
Proof.
  cbv zeta. unfold r1cs_utils.constraint_summary.
  cbn [r1cs_utils.support r1cs_utils.support_size r1cs_utils.nz_count].
  pose proof (sorted_strings_perm (r1cs_utils.constraint_support c)) as Hp.
  split; [|split; [|split; [|split]]].
  - intros v. rewrite <- constraint_support_in. split; intros H.
    + apply (Permutation_in _ (Permutation_sym Hp) H).
    + apply (Permutation_in _ Hp H).
  - apply sorted_strings_strict, constraint_support_nodup.
  - apply (Permutation_length Hp).
  - unfold r1cs_utils.constraint_nz_count. cbn [fold_left].
    pose proof (nz_count_le (r1cs_utils.A c)). pose proof (nz_count_le (r1cs_utils.B c)).
    pose proof (nz_count_le (r1cs_utils.C c)). lia.
  - assert (Hl : List.length (r1cs_utils.constraint_support c)
                 <= List.length (Py.keys (r1cs_utils.A c) ++ Py.keys (r1cs_utils.B c)
                                 ++ Py.keys (r1cs_utils.C c))).
    { apply NoDup_incl_length; [apply constraint_support_nodup|].
      intros v Hv. apply constraint_support_in in Hv. unfold reading.mentions in Hv.
      rewrite !in_app_iff. tauto. }
    rewrite !length_app in Hl. unfold Py.keys in Hl. rewrite !length_map in Hl. lia.
Qed.

(** ** Prover and verifier together *)

Lemma made_transcript_validates (wc : Py.dict string) (entries : list violation_iop.entry)
  (m : option (Py.dict json.pyobj)) :
  violation_iop.validate_transcript_digest (violation_iop.make_transcript wc entries m) = true.
Proof.
  unfold violation_iop.validate_transcript_digest, violation_iop.make_transcript.
  cbn [violation_iop.digest violation_iop.witness_commitments violation_iop.violations
       violation_iop.meta].
  unfold violation_iop._transcript_digest.
  rewrite sha256_hexdigest_nonempty. apply String.eqb_refl.
Qed.

Lemma honest_entry_origin (sess : prover.session) (cs : list r1cs_utils.constraint)
  (w : Py.dict PyFloat.float) (cands : list Z) (e : violation_iop.entry) :
  In e (prover.build_entries sess cs w cands) ->
  exists idx c, In idx cands /\ (0 <= idx < Z.of_nat (List.length cs))%Z /\
                nth_error cs (Z.to_nat idx) = Some c /\
                In e (prover.entries_for sess cs w idx).
Proof.
  rewrite build_entries_flat_map. intros He.
  apply in_flat_map in He. destruct He as (idx & Hidx & He).
  destruct (Z_lt_ge_dec idx 0) as [Hneg|Hpos];
    [rewrite entries_for_out_of_range in He by (left; lia); contradiction|].
  destruct (Z_lt_ge_dec idx (Z.of_nat (List.length cs))) as [Hlt|Hge];
    [|rewrite entries_for_out_of_range in He by (right; lia); contradiction].
  destruct (nth_error cs (Z.to_nat idx)) as [c|] eqn:Hc;
    [|apply nth_error_None in Hc; lia].
  exists idx, c. repeat split; try assumption; lia.
Qed.

(** X23.  Commitment, entry loop, transcript and verifier fit together
    when openings are complete: if every violated candidate constraint
    mentions exactly the variables of the witness (with ONE), no residual
    is NaN and no variable is called WITNESS, then the transcript
    [make_transcript] builds from the commitments of [commit_witness] and
    the entries of the prover's loop is accepted by [verify]. *)
Theorem honest_transcript_with_complete_openings_is_accepted (self : prover.Prover)
  (r1cs : r1cs_utils.R1CS) (witness : Py.dict PyFloat.float) (cands : list Z)
  (g : secrets.rng) (meta : option (Py.dict json.pyobj)) :
  NoDup (Py.keys witness) ->
  Py.contains (prover._ensure_one witness) "WITNESS" = false ->
  (forall idx c, In idx cands -> (0 <= idx)%Z ->
                 nth_error (r1cs_utils.constraints r1cs) (Z.to_nat idx) = Some c ->
                 let residual := r1cs_utils.eval_constraint c (prover._ensure_one witness) in
                 facts.is_nan residual = false /\
                 (PyFloat.isclose_tol residual PyFloat.zero = false ->
                  forall v, reading.mentions c v
                            <-> In v (Py.keys (prover._ensure_one witness)))) ->
  let '(commits, sess, w', _) := prover.commit_witness self witness g in
  fst (verifier.verify r1cs
         (violation_iop.make_transcript commits
            (prover.build_entries sess (r1cs_utils.constraints r1cs) w' cands) meta))
  = true.
Proof.
  intros Hnd Hw Hc.
  pose proof (commit_witness_spec self witness g) as Hs. cbv zeta in Hs.
  destruct (prover.commit_witness self witness g) as [[[commits sess] w'] g'].
  destruct Hs as (-> & Hn & Hf & Hget). specialize (Hget Hw).
  set (w := prover._ensure_one witness) in *.
  set (cs := r1cs_utils.constraints r1cs) in *.
  rewrite verify_unfold by apply made_transcript_validates.
  cbn [fst violation_iop.make_transcript violation_iop.witness_commitments
       violation_iop.violations].
  rewrite Hget. apply forallb_forall. intros r Hr.
  apply in_map_iff in Hr. destruct Hr as (e & <- & He).
  destruct (honest_entry_origin sess cs w cands e He) as (idx & c & Hidx & Hrange & Hnth & Hin).
  destruct (Hc idx c Hidx (proj1 Hrange) Hnth) as [Hnan Hall]. fold w in Hnan, Hall.
  rewrite (entries_for_in_range sess cs w idx c Hrange Hnth) in Hin.
  destruct (PyFloat.isclose_tol (r1cs_utils.eval_constraint c w) PyFloat.zero) eqn:Ez;
    destruct Hin as [<-|[]].
  - rewrite report_for_null_opening by reflexivity. reflexivity.
  - erewrite report_for_in_range; [|reflexivity|reflexivity|exact Hrange|exact Hnth].
    unfold reading.passes, reading.opening_check.
    cbn [verifier.residual_ok verifier.opening_ok commitment.open_map commitment.mapping
         violation_iop.residual].
    assert (Hclose : PyFloat.isclose_tol (r1cs_utils.eval_constraint c w)
                                         (r1cs_utils.eval_constraint c w) = true)
      by (apply isclose_of_equal, float_eqb_refl, Hnan).
    rewrite recomputed_of_disclosure, Hclose, sha256_hexdigest_nonempty.
    specialize (Hall eq_refl).
    replace (commitment.verify_commit _ _) with true; [reflexivity|].
    symmetry. rewrite Hn. unfold commitment.verify_commit, commitment.open_map.
    cbn [commitment.mapping commitment.nonce].
    rewrite (serialize_map_order_blind
               (map (fun v => (v, Py.get w v)) (r1cs_utils.constraint_support c))
               (commitment.of_witness w)).
    + apply String.eqb_refl.
    + rewrite keys_tabulate. apply constraint_support_nodup.
    + apply Permutation_sym, disclosure_of_all_variables.
      * now apply ensure_one_nodup.
      * apply constraint_support_nodup.
      * intros v. rewrite constraint_support_in. now apply Hall.
Qed.

(** ** The entry list and the digest *)

(** X24.  The prover's loop adds exactly one entry for every candidate
    index in range, in the order of the candidate list and as often as
    the index is listed; indices out of range leave no trace. *)
Theorem entries_follow_the_candidates_in_range (sess : prover.session)
  (cs : list r1cs_utils.constraint) (w : Py.dict PyFloat.float) (cands : list Z) :
  map violation_iop.idx (prover.build_entries sess cs w cands)
  = map Some (filter (fun i => (0 <=? i)%Z && (i <? Z.of_nat (List.length cs))%Z) cands).
Proof.
  rewrite build_entries_flat_map.
  induction cands as [|i cands IH]; cbn [flat_map filter map]; [reflexivity|].
  rewrite map_app, IH.
  destruct (Z.leb_spec 0 i) as [H0|H0]; cbn [andb].
  - destruct (Z.ltb_spec i (Z.of_nat (List.length cs))) as [Hn|Hn].
    + destruct (nth_error cs (Z.to_nat i)) as [c|] eqn:Hc;
        [|apply nth_error_None in Hc; lia].
      rewrite (entries_for_in_range sess cs w i c (conj H0 Hn) Hc).
      now destruct (PyFloat.isclose_tol _ _).
    + now rewrite entries_for_out_of_range by (right; lia).
  - now rewrite entries_for_out_of_range by (left; lia).
Qed.

Lemma dumps_three_keys (k1 k2 k3 : string) (o1 o2 o3 : json.pyobj) :
  json.dumps (json.ODict [(k1, o1); (k2, o2); (k3, o3)])
  = ("{" ++ Py.join ","
              (map (fun kv : string * string => json.dumps_str (fst kv) ++ ":" ++ snd kv)
                   (Py.sorted_by_key
                      [(k1, json.dumps o1); (k2, json.dumps o2); (k3, json.dumps o3)]))
         ++ "}")%string.
Proof. reflexivity. Qed.

(** X25.  The transcript digest does not depend on the insertion order of
    the keys of [witness_commitments] and of [meta]: a transcript whose
    two dicts list the same items in another order validates exactly when
    the original does. *)
Theorem digest_blind_to_key_order (t : violation_iop.transcript)
  (wc : Py.dict string) (m : Py.dict json.pyobj) :
  NoDup (Py.keys (violation_iop.witness_commitments t)) ->
  Permutation (violation_iop.witness_commitments t) wc ->
  NoDup (Py.keys (violation_iop.meta t)) ->
  Permutation (violation_iop.meta t) m ->
  violation_iop.validate_transcript_digest
    (reading.with_content t wc (violation_iop.violations t) m)
  = violation_iop.validate_transcript_digest t.
Proof.
  intros Hnw Hpw Hnm Hpm.
  unfold violation_iop.validate_transcript_digest, reading.with_content.
  cbn [violation_iop.digest violation_iop.witness_commitments violation_iop.violations
       violation_iop.meta].
  destruct (violation_iop.digest t) as [d|]; [|reflexivity].
  destruct (String.eqb d ""); [reflexivity|].
  unfold violation_iop._transcript_digest, violation_iop.content_obj.
  rewrite !dumps_three_keys.
  rewrite (dumps_dict_order_blind
             (map (fun kv : string * string => (fst kv, json.OStr (snd kv)))
                  (violation_iop.witness_commitments t))
             (map (fun kv : string * string => (fst kv, json.OStr (snd kv))) wc)).
  - rewrite (dumps_dict_order_blind (violation_iop.meta t) m Hnm Hpm). reflexivity.
  - unfold Py.keys. rewrite map_map. exact Hnw.
  - now apply Permutation_map.
Qed.

End Further.

(* ================================================================== *)
(** * The further properties on sample data *)

Lemma per_variable_openings_witness :
  NoDup (Py.keys sample.witness_good) /\
  Py.get (prover._ensure_one sample.witness_good) "a" = Some (PyFloat.of_Z 3) /\
  let '(commits, sess, _, _) :=
    prover.commit_witness (H := sample.platform) None sample.witness_good
      sample.counting_rng in
  exists c n,
    Py.get commits "a" = Some c /\
    Py.get (prover._per_var_openings sess) "a"
    = Some {| commitment.mapping := Some [("a"%string, Some (PyFloat.of_Z 3))];
              commitment.nonce := Some n |} /\
    commitment.verify_commit (H := sample.platform) c
      {| commitment.mapping := Some [("a"%string, Some (PyFloat.of_Z 3))];
         commitment.nonce := Some n |} = true.
Proof.
  assert (H1 : NoDup (Py.keys sample.witness_good)).
  { cbn. repeat (constructor; [cbn; intuition discriminate|]). constructor. }
  assert (H2 : Py.get (prover._ensure_one sample.witness_good) "a" = Some (PyFloat.of_Z 3))
    by reflexivity.
  exact (conj H1 (conj H2
           (per_variable_openings_verify (P := sample.platform) None sample.witness_good
              sample.counting_rng "a" (PyFloat.of_Z 3) H1 H2))).
Defined.

Lemma eval_constraint_reads_only_its_variables_witness :
  (forall v, reading.mentions sample.c_mul v ->
             Py.get_default sample.witness_good v PyFloat.zero
             = Py.get_default more_samples.witness_with_spare v PyFloat.zero) /\
  r1cs_utils.eval_constraint sample.c_mul sample.witness_good
  = r1cs_utils.eval_constraint sample.c_mul more_samples.witness_with_spare.
Proof.
  assert (H1 : forall v, reading.mentions sample.c_mul v ->
             Py.get_default sample.witness_good v PyFloat.zero
             = Py.get_default more_samples.witness_with_spare v PyFloat.zero).
  { intros v [H|[H|H]]; cbn in H; destruct H as [<-|[]]; reflexivity. }
  exact (conj H1 (eval_constraint_reads_only_its_variables sample.c_mul
                    sample.witness_good more_samples.witness_with_spare H1)).
Defined.

Lemma honest_entries_witness :
  violation_iop.validate_transcript_digest (H := sample.platform)
    sample.scenario_A_transcript = true /\
  violation_iop.violations sample.scenario_A_transcript
  = prover.build_entries (snd (fst (fst sample.scenario_A_session)))
      (r1cs_utils.constraints sample.demo_r1cs) sample.witness_good [0%Z; 1%Z] /\
  (forall c, In c (r1cs_utils.constraints sample.demo_r1cs) ->
             facts.is_nan (r1cs_utils.eval_constraint c sample.witness_good) = false) /\
  forall r,
    In r (verifier.residual_checks
            (snd (verifier.verify (H := sample.platform) sample.demo_r1cs
                    sample.scenario_A_transcript))) ->
    verifier.residual_ok r = Some true.
Proof.
  assert (H1 : violation_iop.validate_transcript_digest (H := sample.platform)
                 sample.scenario_A_transcript = true)
    by apply (made_transcript_validates (P := sample.platform)).
  assert (H2 : violation_iop.violations sample.scenario_A_transcript
               = prover.build_entries (snd (fst (fst sample.scenario_A_session)))
                   (r1cs_utils.constraints sample.demo_r1cs) sample.witness_good [0%Z; 1%Z])
    by reflexivity.
  assert (H3 : forall c, In c (r1cs_utils.constraints sample.demo_r1cs) ->
                 facts.is_nan (r1cs_utils.eval_constraint c sample.witness_good) = false).
  { intros c [<-|[<-|[]]]; vm_compute; reflexivity. }
  exact (conj H1 (conj H2 (conj H3
           (honest_entries_pass_the_residual_check (P := sample.platform) sample.demo_r1cs
              (snd (fst (fst sample.scenario_A_session))) sample.witness_good [0%Z; 1%Z]
              sample.scenario_A_transcript H1 H2 H3)))).
Defined.

Lemma commitment_insertion_order_witness :
  NoDup (Py.keys more_samples.map_ab) /\
  Permutation more_samples.map_ab more_samples.map_ba /\
  more_samples.map_ab <> more_samples.map_ba /\
  commitment.commit_map (H := sample.platform) more_samples.map_ab sample.counting_rng
  = commitment.commit_map (H := sample.platform) more_samples.map_ba sample.counting_rng.
Proof.
  assert (H1 : NoDup (Py.keys more_samples.map_ab)).
  { cbn. repeat (constructor; [cbn; intuition discriminate|]). constructor. }
  assert (H2 : Permutation more_samples.map_ab more_samples.map_ba) by apply perm_swap.
  split; [exact H1|]. split; [exact H2|]. split; [intros E; discriminate E|].
  exact (proj1 (commitment_blind_to_insertion_order (P := sample.platform)
                  more_samples.map_ab more_samples.map_ba sample.counting_rng
                  EmptyString EmptyString H1 H2)).
Defined.

Lemma opening_over_all_variables_witness :
  NoDup (Py.keys more_samples.w_three) /\
  (forall v, reading.mentions more_samples.c_square v
             <-> In v (Py.keys (prover._ensure_one more_samples.w_three))) /\
  let '(_, sess, w', _) :=
    prover.commit_witness (H := sample.platform) None more_samples.w_three
      sample.counting_rng in
  commitment.verify_commit (H := sample.platform) (prover._full_commitment sess)
    (commitment.open_map
       (map (fun v => (v, Py.get w' v)) (r1cs_utils.constraint_support more_samples.c_square))
       (prover._full_opening_nonce sess)) = true.
Proof.
  assert (H1 : NoDup (Py.keys more_samples.w_three)).
  { cbn. repeat (constructor; [cbn; intuition discriminate|]). constructor. }
  assert (H2 : forall v, reading.mentions more_samples.c_square v
                         <-> In v (Py.keys (prover._ensure_one more_samples.w_three))).
  { intros v. unfold reading.mentions. cbn. tauto. }
  exact (conj H1 (conj H2
           (opening_over_all_variables_verifies (P := sample.platform) None
              more_samples.w_three sample.counting_rng more_samples.c_square H1 H2))).
Defined.

Lemma slice_without_dedup_witness :
  (Z.of_nat (List.length (r1cs_utils.constraints sample.demo_r1cs)) <= 10)%Z /\
  Permutation
    (map slicer.idx (slicer.slice_r1cs (H := sample.platform) sample.demo_r1cs 10 false))
    (seq 0 (List.length (r1cs_utils.constraints sample.demo_r1cs))).
Proof.
  assert (H1 : (Z.of_nat (List.length (r1cs_utils.constraints sample.demo_r1cs)) <= 10)%Z)
    by (cbn; lia).
  exact (conj H1 (slice_without_dedup_keeps_every_constraint (P := sample.platform)
                    sample.demo_r1cs 10 H1)).
Defined.

Lemma slice_is_ranked_witness :
  (forall c, In c (r1cs_utils.constraints sample.demo_r1cs) ->
             facts.is_nan (slicer.score_constraint (H := sample.platform) c) = false) /\
  facts.ranked (slicer.slice_r1cs (H := sample.platform) sample.demo_r1cs
                  slicer.default_top_k true).
Proof.
  assert (H1 : forall c, In c (r1cs_utils.constraints sample.demo_r1cs) ->
                 facts.is_nan (slicer.score_constraint (H := sample.platform) c) = false).
  { intros c [<-|[<-|[]]]; vm_compute; reflexivity. }
  exact (conj H1 (slice_is_ranked_by_score_then_index (P := sample.platform)
                    sample.demo_r1cs slicer.default_top_k true H1)).
Defined.

Lemma fingerprint_separators_witness :
  String.ltb "x" "y" = true /\
  fingerprint.fingerprint_constraint (H := sample.platform)
    {| r1cs_utils.A := [("x"%string, PyFloat.one); ("y"%string, PyFloat.of_Z 2)];
       r1cs_utils.B := []; r1cs_utils.C := []; r1cs_utils.source := None |}
    fingerprint.default_truncate
  = fingerprint.fingerprint_constraint (H := sample.platform)
      {| r1cs_utils.A := [("x=1,y"%string, PyFloat.of_Z 2)];
         r1cs_utils.B := []; r1cs_utils.C := []; r1cs_utils.source := None |}
      fingerprint.default_truncate.
Proof.
  assert (H1 : String.ltb "x" "y" = true) by reflexivity.
  exact (conj H1 (fingerprint_blind_to_separators_in_names (P := sample.platform)
                    "x" "y" PyFloat.one (PyFloat.of_Z 2) [] [] None
                    fingerprint.default_truncate H1)).
Defined.

Lemma fingerprint_varset_witness :
  Permutation ["a"%string; "b"%string] ["b"%string; "a"%string] /\
  fingerprint_sets.fingerprint_varset ["a"%string; "b"%string]
    fingerprint_sets.default_truncate
  = fingerprint_sets.fingerprint_varset ["b"%string; "a"%string]
      fingerprint_sets.default_truncate.
Proof.
  assert (H1 : Permutation ["a"%string; "b"%string] ["b"%string; "a"%string])
    by apply perm_swap.
  exact (conj H1 (fingerprint_varset_order_blind _ _ fingerprint_sets.default_truncate H1)).
Defined.

Lemma jaccard_similarity_witness :
  NoDup ["a"%string; "b"%string] /\ NoDup ["b"%string; "c"%string; "d"%string] /\
  fingerprint_sets.jaccard_similarity ["a"%string; "b"%string]
    ["b"%string; "c"%string; "d"%string]
  = fingerprint_sets.jaccard_similarity ["b"%string; "c"%string; "d"%string]
      ["a"%string; "b"%string].
Proof.
  assert (H1 : NoDup ["a"%string; "b"%string]).
  { repeat (constructor; [cbn; intuition discriminate|]). constructor. }
  assert (H2 : NoDup ["b"%string; "c"%string; "d"%string]).
  { repeat (constructor; [cbn; intuition discriminate|]). constructor. }
  exact (conj H1 (conj H2 (jaccard_similarity_symmetric _ _ H1 H2))).
Defined.

Lemma build_var_index_negative_witness :
  Exists (fun item : string * Z => (snd item < 0)%Z)
         (r1cs_utils.variables more_samples.r1cs_negative) /\
  r1cs_views.build_var_index more_samples.r1cs_negative = inl facts.negative_index.
Proof.
  assert (H1 : Exists (fun item : string * Z => (snd item < 0)%Z)
                      (r1cs_utils.variables more_samples.r1cs_negative)).
  { cbn. apply Exists_cons_tl, Exists_cons_hd. cbn. lia. }
  exact (conj H1 (build_var_index_rejects_negative_index more_samples.r1cs_negative H1)).
Defined.

Lemma build_var_index_witness :
  facts.nonneg (r1cs_utils.variables sample.demo_r1cs) /\
  exists names,
    r1cs_views.build_var_index sample.demo_r1cs
    = inr (r1cs_utils.variables sample.demo_r1cs, names) /\
    Z.of_nat (List.length names)
    = (r1cs_views.max_index (r1cs_utils.variables sample.demo_r1cs) + 1)%Z.
Proof.
  assert (H1 : facts.nonneg (r1cs_utils.variables sample.demo_r1cs)).
  { unfold facts.nonneg. cbn. repeat (constructor; [cbn; lia|]). constructor. }
  split; [exact H1|].
  destruct (build_var_index_inverts_the_map sample.demo_r1cs H1) as (names & Hb & Hl & _).
  exists names. split; [exact Hb|exact Hl].
Defined.

Lemma to_triplet_list_witness :
  facts.nonneg (r1cs_utils.variables more_samples.r1cs_mul) /\
  facts.all_known (r1cs_utils.variables more_samples.r1cs_mul)
                  (r1cs_utils.constraints more_samples.r1cs_mul) /\
  exists ts,
    r1cs_views.to_triplet_list more_samples.r1cs_mul = inr ts /\
    List.length ts = facts.entry_count (r1cs_utils.constraints more_samples.r1cs_mul).
Proof.
  assert (H1 : facts.nonneg (r1cs_utils.variables more_samples.r1cs_mul)).
  { unfold facts.nonneg. cbn. repeat (constructor; [cbn; lia|]). constructor. }
  assert (H2 : facts.all_known (r1cs_utils.variables more_samples.r1cs_mul)
                               (r1cs_utils.constraints more_samples.r1cs_mul)).
  { intros c v [<-|[]] [H|[H|H]]; cbn in H; destruct H as [<-|[]]; reflexivity. }
  split; [exact H1|]. split; [exact H2|].
  destruct (to_triplet_list_lists_every_entry more_samples.r1cs_mul H1 H2)
    as (ts & Ht & _ & Hl & _).
  exists ts. split; [exact Ht|exact Hl].
Defined.

Lemma unknown_variable_witness :
  facts.nonneg (r1cs_utils.variables sample.demo_r1cs) /\
  In sample.c_add (r1cs_utils.constraints sample.demo_r1cs) /\
  reading.mentions sample.c_add "d" /\
  Py.contains (r1cs_utils.variables sample.demo_r1cs) "d" = false /\
  facts.key_error (r1cs_views.to_triplet_list sample.demo_r1cs) /\
  facts.key_error (r1cs_views.constraints_to_dense_matrices sample.demo_r1cs).
Proof.
  assert (H1 : facts.nonneg (r1cs_utils.variables sample.demo_r1cs)).
  { unfold facts.nonneg. cbn. repeat (constructor; [cbn; lia|]). constructor. }
  assert (H2 : In sample.c_add (r1cs_utils.constraints sample.demo_r1cs))
    by (right; left; reflexivity).
  assert (H3 : reading.mentions sample.c_add "d")
    by (right; right; left; reflexivity).
  assert (H4 : Py.contains (r1cs_utils.variables sample.demo_r1cs) "d" = false)
    by reflexivity.
  exact (conj H1 (conj H2 (conj H3 (conj H4
           (unknown_variable_raises_key_error sample.demo_r1cs sample.c_add "d"
              H1 H2 H3 H4))))).
Defined.

Lemma dense_matrices_witness :
  facts.nonneg (r1cs_utils.variables more_samples.r1cs_mul) /\
  facts.all_known (r1cs_utils.variables more_samples.r1cs_mul)
                  (r1cs_utils.constraints more_samples.r1cs_mul) /\
  exists MA MB MC,
    r1cs_views.constraints_to_dense_matrices more_samples.r1cs_mul = inr (MA, MB, MC) /\
    facts.shape MA 1 4 /\ facts.shape MB 1 4 /\ facts.shape MC 1 4.
Proof.
  assert (H1 : facts.nonneg (r1cs_utils.variables more_samples.r1cs_mul)).
  { unfold facts.nonneg. cbn. repeat (constructor; [cbn; lia|]). constructor. }
  assert (H2 : facts.all_known (r1cs_utils.variables more_samples.r1cs_mul)
                               (r1cs_utils.constraints more_samples.r1cs_mul)).
  { intros c v [<-|[]] [H|[H|H]]; cbn in H; destruct H as [<-|[]]; reflexivity. }
  split; [exact H1|]. split; [exact H2|].
  destruct (dense_matrices_hold_the_coefficients more_samples.r1cs_mul H1 H2)
    as (MA & MB & MC & Hd & HA & HB & HC & _).
  exists MA, MB, MC. exact (conj Hd (conj HA (conj HB HC))).
Defined.

Lemma honest_transcript_witness :
  NoDup (Py.keys more_samples.w_three) /\
  Py.contains (prover._ensure_one more_samples.w_three) "WITNESS" = false /\
  (forall idx c, In idx [0%Z] -> (0 <= idx)%Z ->
     nth_error (r1cs_utils.constraints more_samples.r1cs_square) (Z.to_nat idx) = Some c ->
     let residual :=
       r1cs_utils.eval_constraint c (prover._ensure_one more_samples.w_three) in
     facts.is_nan residual = false /\
     (PyFloat.isclose_tol residual PyFloat.zero = false ->
      forall v, reading.mentions c v
                <-> In v (Py.keys (prover._ensure_one more_samples.w_three)))) /\
  let '(commits, sess, w', _) :=
    prover.commit_witness (H := sample.platform) None more_samples.w_three
      sample.counting_rng in
  fst (verifier.verify (H := sample.platform) more_samples.r1cs_square
         (violation_iop.make_transcript (H := sample.platform) commits
            (prover.build_entries sess (r1cs_utils.constraints more_samples.r1cs_square)
               w' [0%Z]) None))
  = true.
Proof.
  assert (H1 : NoDup (Py.keys more_samples.w_three)).
  { cbn. repeat (constructor; [cbn; intuition discriminate|]). constructor. }
  assert (H2 : Py.contains (prover._ensure_one more_samples.w_three) "WITNESS" = false)
    by reflexivity.
  assert (H3 : forall idx c, In idx [0%Z] -> (0 <= idx)%Z ->
             nth_error (r1cs_utils.constraints more_samples.r1cs_square) (Z.to_nat idx)
             = Some c ->
             let residual :=
               r1cs_utils.eval_constraint c (prover._ensure_one more_samples.w_three) in
             facts.is_nan residual = false /\
             (PyFloat.isclose_tol residual PyFloat.zero = false ->
              forall v, reading.mentions c v
                        <-> In v (Py.keys (prover._ensure_one more_samples.w_three)))).
  { intros idx c [<-|[]] _ Hc. cbn in Hc. injection Hc as <-. cbv zeta. split.
    - vm_compute. reflexivity.
    - intros _ v. unfold reading.mentions. cbn. tauto. }
  exact (conj H1 (conj H2 (conj H3
           (honest_transcript_with_complete_openings_is_accepted (P := sample.platform)
              None more_samples.r1cs_square more_samples.w_three [0%Z]
              sample.counting_rng None H1 H2 H3)))).
Defined.

Lemma digest_key_order_witness :
  NoDup (Py.keys (violation_iop.witness_commitments sample.scenario_A_transcript)) /\
  Permutation (violation_iop.witness_commitments sample.scenario_A_transcript)
              (rev (violation_iop.witness_commitments sample.scenario_A_transcript)) /\
  NoDup (Py.keys (violation_iop.meta sample.scenario_A_transcript)) /\
  Permutation (violation_iop.meta sample.scenario_A_transcript)
              (violation_iop.meta sample.scenario_A_transcript) /\
  violation_iop.validate_transcript_digest (H := sample.platform)
    (reading.with_content sample.scenario_A_transcript
       (rev (violation_iop.witness_commitments sample.scenario_A_transcript))
       (violation_iop.violations sample.scenario_A_transcript)
       (violation_iop.meta sample.scenario_A_transcript))
  = violation_iop.validate_transcript_digest (H := sample.platform)
      sample.scenario_A_transcript.
Proof.
  assert (H1 : NoDup (Py.keys (violation_iop.witness_commitments
                                 sample.scenario_A_transcript))).
  { vm_compute. repeat (constructor; [cbn; intuition discriminate|]). constructor. }
  assert (H2 : Permutation (violation_iop.witness_commitments sample.scenario_A_transcript)
                 (rev (violation_iop.witness_commitments sample.scenario_A_transcript)))
    by apply Permutation_rev.
  assert (H3 : NoDup (Py.keys (violation_iop.meta sample.scenario_A_transcript))).
  { cbn. repeat (constructor; [cbn; intuition discriminate|]). constructor. }
  assert (H4 : Permutation (violation_iop.meta sample.scenario_A_transcript)
                 (violation_iop.meta sample.scenario_A_transcript))
    by apply Permutation_refl.
  exact (conj H1 (conj H2 (conj H3 (conj H4
           (digest_blind_to_key_order (P := sample.platform) sample.scenario_A_transcript
              _ _ H1 H2 H3 H4))))).
Defined.
